(** * ingest_data.py: the fetch / store pipeline of the Helldivers 2 war feed

    A shallow embedding of [src/ingest_data.py].  The Python functions
    [fetch_json], [fetch_all_data], [store_data] and [main] are written in a
    small state-and-exception monad; the HTTP transport, the interpreter's
    [int] and the relational engine are external, and enter as the
    parameters [net], [py_int] and [engine] of the section [Pipeline]. *)

From Stdlib Require Import ZArith String Ascii List.
From stdpp Require Import gmap strings list fin_maps pretty.

Set Warnings "-register-all".
Open Scope string_scope.
Open Scope Z_scope.

(** ** Python values

    The values that flow through the pipeline are the ones [response.json()]
    can produce.  A float is carried as the dyadic rational [m * 2^e] (no
    arithmetic is ever done on it, only its truth value is taken); a [dict]
    is an association list in insertion order, whose keys are pairwise
    distinct when it comes out of the JSON parser. *)

Inductive pyval : Type :=
| PNone
| PBool (b : bool)
| PInt (z : Z)
| PFloat (m e : Z)
| PStr (s : string)
| PList (l : list pyval)
| PDict (d : list (string * pyval)).

Abbreviation pydict := (list (string * pyval)).

(** [type(v).__name__], as it appears in Python's error messages. *)
Definition type_name (v : pyval) : string :=
  match v with
  | PNone => "NoneType"
  | PBool _ => "bool"
  | PInt _ => "int"
  | PFloat _ _ => "float"
  | PStr _ => "str"
  | PList _ => "list"
  | PDict _ => "dict"
  end.

(** [bool(v)]: the test made by [if ... and data[key]:]. *)
Definition truthy (v : pyval) : bool :=
  match v with
  | PNone => false
  | PBool b => b
  | PInt z => negb (Z.eqb z 0)
  | PFloat m _ => negb (Z.eqb m 0)
  | PStr s => negb (String.eqb s "")
  | PList l => match l with [] => false | _ => true end
  | PDict d => match d with [] => false | _ => true end
  end.

(** ** Exceptions *)

Inductive exn_class : Type :=
| RequestException (subclass : string)
    (* requests.exceptions.RequestException and its subclasses *)
| AttributeError
| TypeError
| ValueError
| UnboundLocalError
| DatabaseError (subclass : string)   (* psycopg2.Error and its subclasses *)
| OtherException (name : string).

Record exn : Type := Exn { exn_cls : exn_class; exn_msg : string }.

Definition is_request_exception (e : exn) : bool :=
  match exn_cls e with RequestException _ => true | _ => false end.

(** Every class above derives from [Exception]. *)
Definition is_exception (e : exn) : bool := true.

Inductive result (A : Type) : Type :=
| Ok (a : A)
| Raise (e : exn).
Arguments Ok {A} a.
Arguments Raise {A} e.

#[global] Instance result_ret : MRet result := @Ok.
#[global] Instance result_bind : MBind result := fun A B f r =>
  match r with Ok a => f a | Raise e => Raise e end.

(** ** Dictionaries and the Python operations the pipeline uses *)

Fixpoint dict_get (d : pydict) (k : string) : option pyval :=
  match d with
  | [] => None
  | (k', v) :: d' => if String.eqb k k' then Some v else dict_get d' k
  end.

(** [k in d] *)
Definition dict_contains (d : pydict) (k : string) : bool :=
  match dict_get d k with Some _ => true | None => false end.

(** [d[k]], used only behind a [k in d] test. *)
Definition dict_item (d : pydict) (k : string) : pyval :=
  match dict_get d k with Some v => v | None => PNone end.

(** [d[k] = v]: overwrite in place, or append. *)
Fixpoint dict_set (d : pydict) (k : string) (v : pyval) : pydict :=
  match d with
  | [] => [(k, v)]
  | (k', v') :: d' =>
      if String.eqb k k' then (k', v) :: d' else (k', v') :: dict_set d' k v
  end.

Definition no_attribute (v : pyval) (attr : string) : exn :=
  Exn AttributeError
      ("'" +:+ type_name v +:+ "' object has no attribute '" +:+ attr +:+ "'").

(** [v.get(k, default)]: only a dict has the method.  A key that is present
    with value [None] yields [None], not the default. *)
Definition py_get (v : pyval) (k : string) (default : pyval) : result pyval :=
  match v with
  | PDict d => Ok (match dict_get d k with Some x => x | None => default end)
  | _ => Raise (no_attribute v "get")
  end.

(** [v.items()] *)
Definition py_items (v : pyval) : result pydict :=
  match v with
  | PDict d => Ok d
  | _ => Raise (no_attribute v "items")
  end.

(** The sequence a [for x in v:] loop runs over. *)
Definition py_iter (v : pyval) : result (list pyval) :=
  match v with
  | PList l => Ok l
  | PDict d => Ok (map (fun kv => PStr (fst kv)) d)
  | PStr s => Ok (map (fun c => PStr (String c EmptyString)) (list_ascii_of_string s))
  | _ => Raise (Exn TypeError ("'" +:+ type_name v +:+ "' object is not iterable"))
  end.

(** [int(s)] on a string is a capability of the interpreter: which strings
    it reads as a number (white space around the digits, underscores between
    them, the decimal digits of every script) is not decided here.  It enters
    the pipeline as the parameter [py_int], and every statement below holds
    for every such function.

    [decimal_int] is the function the scenarios run with.  It reads a
    non-empty string of the digits 0 to 9 behind an optional sign, as [int]
    does; on every other string it raises [ValueError], although [int]
    itself accepts more than these. *)
Definition digit_of (c : ascii) : option Z :=
  let n := nat_of_ascii c in
  if ((48 <=? n)%nat && (n <=? 57)%nat) then Some (Z.of_nat n - 48) else None.

Fixpoint digits_value (s : list ascii) (acc : Z) (after_digit : bool) : option Z :=
  match s with
  | [] => if after_digit then Some acc else None
  | c :: s' =>
      match digit_of c with
      | Some d => digits_value s' (10 * acc + d) true
      | None => None
      end
  end.

Definition parse_decimal (s : string) : option Z :=
  match list_ascii_of_string s with
  | "-"%char :: ds => Z.opp <$> digits_value ds 0 false
  | "+"%char :: ds => digits_value ds 0 false
  | ds => digits_value ds 0 false
  end.

Definition decimal_int (s : string) : result Z :=
  match parse_decimal s with
  | Some z => Ok z
  | None =>
      Raise (Exn ValueError ("invalid literal for int() with base 10: '" +:+ s +:+ "'"))
  end.

(** ** The HTTP transport (external)

    What [requests.get(url)] can do: raise, or return a response with a
    status code, a reason phrase, and a body that [response.json()] either
    parses or rejects. *)

Record response : Type := Response {
  status_code : Z;
  reason : string;
  json_body : result pyval
}.

Abbreviation transport := (string -> result response).

(** [response.raise_for_status()] of the requests library: an [HTTPError]
    for a 4xx or 5xx status, nothing otherwise. *)
Definition raise_for_status (url : string) (r : response) : result unit :=
  if (400 <=? status_code r) && (status_code r <? 500) then
    Raise (Exn (RequestException "HTTPError")
               (pretty (status_code r) +:+ " Client Error: " +:+ reason r
                  +:+ " for url: " +:+ url))
  else if (500 <=? status_code r) && (status_code r <? 600) then
    Raise (Exn (RequestException "HTTPError")
               (pretty (status_code r) +:+ " Server Error: " +:+ reason r
                  +:+ " for url: " +:+ url))
  else Ok ().

(** ** The relational store (external)

    A database maps a table name to its rows; a table keeps one row per
    primary key.  A row holds the values of the non-key columns in the order
    of the table's declaration.  A value is written as the driver writes a
    parameter: a Python value, or the text that [json.dumps] made of one.
    What a column keeps of the parameter bound to it is the engine's
    business, see [store_value]. *)

Inductive param : Type :=
| Lit (v : pyval)
| JsonDumps (v : pyval).   (* the str json.dumps(v) *)

Abbreviation SqlNull := (Lit PNone).

Abbreviation row := (list param).
Abbreviation table := (gmap Z (list param)).
Abbreviation database := (gmap string (gmap Z (list param))).

Inductive sqltype : Type :=
| INTEGER | FLOAT | BOOLEAN | VARCHAR | TEXT | INTEGER_ARRAY | JSONB | TIMESTAMP.

(** [CREATE TABLE IF NOT EXISTS name (key INTEGER PRIMARY KEY, columns...)] *)
Record create_table : Type := CreateTable {
  ct_name : string;
  ct_key : string;
  ct_columns : list (string * sqltype)
}.

(** [INSERT INTO t (cols) VALUES (%s, ...) ON CONFLICT (key) action] *)
Inductive conflict_action : Type :=
| DoNothing
| DoUpdate (set_excluded : list string).   (* SET c = EXCLUDED.c, ... *)

Record insert : Type := Insert {
  into : string;
  insert_columns : list string;
  conflict_target : string;
  on_conflict : conflict_action
}.

(** The engine and the driver.  The first four fields say what they may
    refuse, [None] meaning no error; a statement may be refused for any
    reason of the engine's.  [rollback_error] is what [conn.rollback()]
    raises, if anything (a connection that broke in the meantime makes it
    raise).  [cast ty p] is the value a column of type [ty] keeps when the
    parameter [p] is assigned to it, or the error of the assignment: the
    engine may convert the parameter (a numeric string for an INTEGER
    column, a float rounded to an integer) or refuse it. *)
Record db_engine : Type := Engine {
  connect_error : option exn;
  ddl_error : create_table -> option exn;
  dml_error : insert -> list param -> option exn;
  commit_error : option exn;
  rollback_error : option exn;
  cast : sqltype -> param -> result param
}.

(** *** The six relations, as [store_data] declares them *)

Definition create_war_status : create_table :=
  CreateTable "war_status" "planetIndex"
    [("owner", INTEGER); ("health", INTEGER); ("regenPerSecond", FLOAT);
     ("players", INTEGER); ("warId", INTEGER); ("time", INTEGER);
     ("impactMultiplier", FLOAT); ("storyBeatId32", INTEGER)].

Definition create_war_info : create_table :=
  CreateTable "war_info" "planetIndex"
    [("settingsHash", INTEGER); ("position_x", FLOAT); ("position_y", FLOAT);
     ("waypoints", INTEGER_ARRAY); ("sector", INTEGER); ("maxHealth", INTEGER);
     ("disabled", BOOLEAN); ("initialOwner", INTEGER); ("warId", INTEGER);
     ("startDate", INTEGER); ("endDate", INTEGER);
     ("minimumClientVersion", VARCHAR)].

Definition create_war_news : create_table :=
  CreateTable "war_news" "id"
    [("published", INTEGER); ("type", INTEGER); ("tagIds", INTEGER_ARRAY);
     ("message", TEXT)].

Definition create_war_campaign : create_table :=
  CreateTable "war_campaign" "planetIndex"
    [("name", VARCHAR); ("faction", VARCHAR); ("players", INTEGER);
     ("health", INTEGER); ("maxHealth", INTEGER); ("percentage", FLOAT);
     ("defense", BOOLEAN); ("majorOrder", BOOLEAN); ("biome_slug", VARCHAR);
     ("biome_description", TEXT); ("expireDateTime", TIMESTAMP)].

Definition create_war_major_orders : create_table :=
  CreateTable "war_major_orders" "id32"
    [("progress", INTEGER_ARRAY); ("expiresIn", INTEGER);
     ("setting_type", INTEGER); ("setting_overrideTitle", VARCHAR);
     ("setting_overrideBrief", TEXT); ("setting_taskDescription", TEXT);
     ("setting_tasks", JSONB); ("setting_reward_type", INTEGER);
     ("setting_reward_id32", INTEGER); ("setting_reward_amount", INTEGER);
     ("setting_flags", INTEGER)].

Definition create_planets : create_table :=
  CreateTable "planets" "planetIndex"
    [("name", VARCHAR); ("sector", VARCHAR); ("biome_slug", VARCHAR);
     ("biome_description", TEXT); ("environmentals", JSONB)].

(** In the order in which [store_data] issues them. *)
Definition SCHEMA : list create_table :=
  [create_war_status; create_war_info; create_war_news; create_war_campaign;
   create_war_major_orders; create_planets].

Definition relations : list string := map ct_name SCHEMA.

Definition find_table (name : string) : option create_table :=
  find (fun c => String.eqb (ct_name c) name) SCHEMA.

Definition column_names (c : create_table) : list string := map fst (ct_columns c).

(** *** The six INSERT statements *)

Definition insert_war_status : insert :=
  Insert "war_status"
    ["planetIndex"; "owner"; "health"; "regenPerSecond"; "players"; "warId";
     "time"; "impactMultiplier"; "storyBeatId32"]
    "planetIndex"
    (DoUpdate ["owner"; "health"; "regenPerSecond"; "players"; "warId"; "time";
               "impactMultiplier"; "storyBeatId32"]).

Definition insert_war_info : insert :=
  Insert "war_info"
    ["planetIndex"; "settingsHash"; "position_x"; "position_y"; "waypoints";
     "sector"; "maxHealth"; "disabled"; "initialOwner"; "warId"; "startDate";
     "endDate"; "minimumClientVersion"]
    "planetIndex"
    (DoUpdate ["settingsHash"; "position_x"; "position_y"; "waypoints";
               "sector"; "maxHealth"; "disabled"; "initialOwner"; "warId";
               "startDate"; "endDate"; "minimumClientVersion"]).

Definition insert_war_news : insert :=
  Insert "war_news" ["id"; "published"; "type"; "tagIds"; "message"] "id"
    DoNothing.

Definition insert_war_campaign : insert :=
  Insert "war_campaign"
    ["planetIndex"; "name"; "faction"; "players"; "health"; "maxHealth";
     "percentage"; "defense"; "majorOrder"; "biome_slug"; "biome_description";
     "expireDateTime"]
    "planetIndex"
    (DoUpdate ["name"; "faction"; "players"; "health"; "maxHealth";
               "percentage"; "defense"; "majorOrder"; "biome_slug";
               "biome_description"; "expireDateTime"]).

Definition insert_war_major_orders : insert :=
  Insert "war_major_orders"
    ["id32"; "progress"; "expiresIn"; "setting_type"; "setting_overrideTitle";
     "setting_overrideBrief"; "setting_taskDescription"; "setting_tasks";
     "setting_reward_type"; "setting_reward_id32"; "setting_reward_amount";
     "setting_flags"]
    "id32"
    (DoUpdate ["progress"; "expiresIn"; "setting_type"; "setting_overrideTitle";
               "setting_overrideBrief"; "setting_taskDescription";
               "setting_tasks"; "setting_reward_type"; "setting_reward_id32";
               "setting_reward_amount"; "setting_flags"]).

Definition insert_planets : insert :=
  Insert "planets"
    ["planetIndex"; "name"; "sector"; "biome_slug"; "biome_description";
     "environmentals"]
    "planetIndex"
    (DoUpdate ["name"; "sector"; "biome_slug"; "biome_description";
               "environmentals"]).

(** *** How the engine executes a statement *)

(** [CREATE TABLE IF NOT EXISTS]: an existing table is left as it is. *)
Definition create_if_absent (c : create_table) (db : database) : database :=
  match db !! ct_name c with
  | Some _ => db
  | None => <[ct_name c := ∅]> db
  end.

(** The row proposed for insertion (EXCLUDED), column by column: the
    parameter bound to the column, NULL for a column the statement omits. *)
Fixpoint excluded (cols : list string) (ps : list param) (c : string) : param :=
  match cols, ps with
  | c' :: cols', p :: ps' => if String.eqb c c' then p else excluded cols' ps' c
  | _, _ => SqlNull
  end.

Fixpoint string_mem (c : string) (l : list string) : bool :=
  match l with
  | [] => false
  | c' :: l' => String.eqb c c' || string_mem c l'
  end.

(** What a column of type [ty] keeps of the parameter [p].  Two cases are
    fixed: [None] is stored as NULL in a column of any type, and an [int] is
    stored as itself in an INTEGER column when it fits in 32 bits and is
    refused when it does not.  Everything else is the engine's [cast]. *)
Definition int4 (z : Z) : bool := (-2147483648 <=? z) && (z <=? 2147483647).

Definition out_of_range : exn :=
  Exn (DatabaseError "NumericValueOutOfRange") "integer out of range".

Definition store_value (engine : db_engine) (ty : sqltype) (p : param)
    : result param :=
  match p with
  | Lit PNone => Ok SqlNull
  | Lit (PInt z) =>
      match ty with
      | INTEGER => if int4 z then Ok p else Raise out_of_range
      | _ => cast engine ty p
      end
  | _ => cast engine ty p
  end.

(** The proposed row as the table would keep it: each declared column takes
    the value of the parameter bound to it.  The first assignment that the
    engine refuses fails the statement. *)
Fixpoint store_values (engine : db_engine) (tys : list sqltype)
    (ps : list param) : result row :=
  match tys, ps with
  | ty :: tys', p :: ps' =>
      v ← store_value engine ty p;
      vs ← store_values engine tys' ps';
      Ok (v :: vs)
  | _, _ => Ok []
  end.

Definition proposed_row (engine : db_engine) (s : insert) (decl : create_table)
    (ps : list param) : result row :=
  store_values engine (map snd (ct_columns decl))
    (map (excluded (insert_columns s) ps) (column_names decl)).

(** [DO UPDATE SET c = EXCLUDED.c ...]: a column named in the SET list takes
    the proposed value, any other column keeps the stored one. *)
Fixpoint merge_row (cols set_cols : list string) (new old : row) : row :=
  match cols with
  | [] => []
  | c :: cols' =>
      (if string_mem c set_cols then hd SqlNull new else hd SqlNull old)
        :: merge_row cols' set_cols (tl new) (tl old)
  end.

(** The primary key is an INTEGER column that rejects NULL: the key of the
    proposed row is the integer that the column keeps of the parameter. *)
Definition key_of (engine : db_engine) (p : param) : result Z :=
  v ← store_value engine INTEGER p;
  match v with
  | Lit (PInt k) => Ok k
  | Lit PNone =>
      Raise (Exn (DatabaseError "NotNullViolation")
                 "null value in primary key column violates not-null constraint")
  | _ =>
      Raise (Exn (DatabaseError "DataError") "invalid value for an integer key")
  end.

Definition upsert_row (s : insert) (decl : create_table) (new : row)
    (k : Z) (t : table) : result table :=
  match t !! k with
  | None => Ok (<[k := new]> t)
  | Some old =>
      if String.eqb (conflict_target s) (ct_key decl) then
        match on_conflict s with
        | DoNothing => Ok t
        | DoUpdate set_cols =>
            Ok (<[k := merge_row (column_names decl) set_cols new old]> t)
        end
      else Raise (Exn (DatabaseError "UniqueViolation")
                      "duplicate key value violates unique constraint")
  end.

Definition undefined_table (name : string) : exn :=
  Exn (DatabaseError "UndefinedTable")
      ("relation '" +:+ name +:+ "' does not exist").

Definition exec_insert (engine : db_engine) (s : insert) (ps : list param)
    (db : database) : result database :=
  match dml_error engine s ps with
  | Some e => Raise e
  | None =>
      match db !! into s, find_table (into s) with
      | Some t, Some decl =>
          k ← key_of engine (excluded (insert_columns s) ps (ct_key decl));
          new ← proposed_row engine s decl ps;
          t' ← upsert_row s decl new k t;
          Ok (<[into s := t']> db)
      | _, _ => Raise (undefined_table (into s))
      end
  end.

Definition exec_create (engine : db_engine) (c : create_table)
    (db : database) : result database :=
  match ddl_error engine c with
  | Some e => Raise e
  | None => Ok (create_if_absent c db)
  end.

(** ** The state-and-exception monad

    [disk] is what the engine has committed; [conn] is the local variable of
    [store_data]: unbound ([None]) until [psycopg2.connect] has returned, and
    from then on the connection, with the uncommitted contents of its open
    transaction; [log] is the log file, oldest record first.  A raised
    exception keeps the state reached so far. *)

Inductive level : Type := INFO | ERROR.

Record state : Type := State {
  disk : database;
  conn : option database;
  log : list (level * string)
}.

Definition M (A : Type) : Type := state -> result A * state.

#[global] Instance M_ret : MRet M := fun A a st => (Ok a, st).
#[global] Instance M_bind : MBind M := fun A B f m st =>
  match m st with
  | (Ok a, st') => f a st'
  | (Raise e, st') => (Raise e, st')
  end.

Definition lift {A} (r : result A) : M A := fun st => (r, st).

(** [try: body  except C as e: handler e], where [catches] is the test
    [isinstance(e, C)]. *)
Definition try_except {A} (body : M A) (catches : exn -> bool)
    (handler : exn -> M A) : M A := fun st =>
  match body st with
  | (Raise e, st') => if catches e then handler e st' else (Raise e, st')
  | done => done
  end.

Fixpoint for_each {A} (l : list A) (f : A -> M unit) : M unit :=
  match l with
  | [] => mret ()
  | x :: l' => _ ← f x; for_each l' f
  end.

(** A call of a function whose only local of interest is [conn]: unbound on
    entry, gone on exit. *)
Definition call {A} (body : M A) : M A := fun st =>
  let (r, st') := body (State (disk st) None (log st)) in
  (r, State (disk st') None (log st')).

Definition logging_info (msg : string) : M unit := fun st =>
  (Ok (), State (disk st) (conn st) (log st ++ [(INFO, msg)])).

Definition logging_error (msg : string) : M unit := fun st =>
  (Ok (), State (disk st) (conn st) (log st ++ [(ERROR, msg)])).

(** The message is the one of Python 3.11 and later; the class is the same
    in every version. *)
Definition unbound_local (name : string) : exn :=
  Exn UnboundLocalError
      ("cannot access local variable '" +:+ name
         +:+ "' where it is not associated with a value").

Section Pipeline.

Variable net : transport.
Variable py_int : string -> result Z.
Variable engine : db_engine.

(** *** Fetching *)

Definition API_BASE_URL : string := "https://helldiverstrainingmanual.com/api/v1/war".
Definition PLANETS_URL : string := "https://helldiverstrainingmanual.com/api/v1/planets".

Definition ENDPOINTS : list (string * string) :=
  [("status", API_BASE_URL +:+ "/status");
   ("info", API_BASE_URL +:+ "/info");
   ("news", API_BASE_URL +:+ "/news");
   ("campaign", API_BASE_URL +:+ "/campaign");
   ("major_orders", API_BASE_URL +:+ "/major-orders")].

Definition fetch_json (url : string) : M pyval :=
  try_except
    (response ← lift (net url);
     _ ← lift (raise_for_status url response);
     _ ← logging_info ("Successfully fetched data from " +:+ url);
     lift (json_body response))
    is_request_exception
    (fun e =>
       _ ← logging_error ("Error fetching data from " +:+ url +:+ ": " +:+ exn_msg e);
       mret PNone).

Fixpoint fetch_endpoints (endpoints : list (string * string)) (data : pydict)
    : M pydict :=
  match endpoints with
  | [] => mret data
  | (key, url) :: rest =>
      v ← fetch_json url;
      fetch_endpoints rest (dict_set data key v)
  end.

Definition fetch_all_data : M pydict :=
  data ← fetch_endpoints ENDPOINTS [];
  planets_data ← fetch_json PLANETS_URL;
  mret (dict_set data "planets" planets_data).

(** *** The connection *)

Definition psycopg2_connect : M unit := fun st =>
  match connect_error engine with
  | Some e => (Raise e, st)
  | None => (Ok (), State (disk st) (Some (disk st)) (log st))
  end.

Definition not_connected : exn :=
  Exn (DatabaseError "InterfaceError") "connection already closed".

(** A statement runs inside the open transaction. *)
Definition in_transaction (f : database -> result database) : M unit := fun st =>
  match conn st with
  | None => (Raise not_connected, st)
  | Some w =>
      match f w with
      | Ok w' => (Ok (), State (disk st) (Some w') (log st))
      | Raise e => (Raise e, st)
      end
  end.

Definition cursor_execute_create (c : create_table) : M unit :=
  in_transaction (exec_create engine c).

Definition cursor_execute (s : insert) (ps : list param) : M unit :=
  in_transaction (exec_insert engine s ps).

Definition conn_commit : M unit := fun st =>
  match conn st with
  | None => (Raise (unbound_local "conn"), st)
  | Some w =>
      match commit_error engine with
      | Some e => (Raise e, st)
      | None => (Ok (), State w (Some w) (log st))
      end
  end.

(** [conn.rollback()]: the name [conn] must be bound, and the driver must
    still reach the engine. *)
Definition conn_rollback : M unit := fun st =>
  match conn st with
  | None => (Raise (unbound_local "conn"), st)
  | Some _ =>
      match rollback_error engine with
      | Some e => (Raise e, st)
      | None => (Ok (), State (disk st) (Some (disk st)) (log st))
      end
  end.

(** [cursor.close()] and [conn.close()], after the commit: nothing is left
    to discard and the name [conn] stays bound. *)
Definition conn_close : M unit := mret ().

(** *** The parameter tuples, one builder per statement *)

Definition war_status_params (warId time impactMultiplier storyBeatId32 status : pyval)
    : result (list param) :=
  index ← py_get status "index" PNone;
  owner ← py_get status "owner" PNone;
  health ← py_get status "health" PNone;
  regenPerSecond ← py_get status "regenPerSecond" PNone;
  players ← py_get status "players" PNone;
  mret [Lit index; Lit owner; Lit health; Lit regenPerSecond; Lit players;
        Lit warId; Lit time; Lit impactMultiplier; Lit storyBeatId32].

Definition war_info_params (warId startDate endDate minimumClientVersion info : pyval)
    : result (list param) :=
  position ← py_get info "position" (PDict []);
  waypoints ← py_get info "waypoints" (PList []);
  index ← py_get info "index" PNone;
  settingsHash ← py_get info "settingsHash" PNone;
  position_x ← py_get position "x" PNone;
  position_y ← py_get position "y" PNone;
  sector ← py_get info "sector" PNone;
  maxHealth ← py_get info "maxHealth" PNone;
  disabled ← py_get info "disabled" PNone;
  initialOwner ← py_get info "initialOwner" PNone;
  mret [Lit index; Lit settingsHash; Lit position_x; Lit position_y;
        Lit waypoints; Lit sector; Lit maxHealth; Lit disabled;
        Lit initialOwner; Lit warId; Lit startDate; Lit endDate;
        Lit minimumClientVersion].

Definition war_news_params (news : pyval) : result (list param) :=
  id ← py_get news "id" PNone;
  published ← py_get news "published" PNone;
  type ← py_get news "type" PNone;
  tagIds ← py_get news "tagIds" PNone;
  message ← py_get news "message" PNone;
  mret [Lit id; Lit published; Lit type; Lit tagIds; Lit message].

Definition war_campaign_params (campaign : pyval) : result (list param) :=
  biome ← py_get campaign "biome" (PDict []);
  planetIndex ← py_get campaign "planetIndex" PNone;
  name ← py_get campaign "name" PNone;
  faction ← py_get campaign "faction" PNone;
  players ← py_get campaign "players" PNone;
  health ← py_get campaign "health" PNone;
  maxHealth ← py_get campaign "maxHealth" PNone;
  percentage ← py_get campaign "percentage" PNone;
  defense ← py_get campaign "defense" PNone;
  majorOrder ← py_get campaign "majorOrder" PNone;
  biome_slug ← py_get biome "slug" PNone;
  biome_description ← py_get biome "description" PNone;
  expireDateTime ← py_get campaign "expireDateTime" PNone;
  mret [Lit planetIndex; Lit name; Lit faction; Lit players; Lit health;
        Lit maxHealth; Lit percentage; Lit defense; Lit majorOrder;
        Lit biome_slug; Lit biome_description; Lit expireDateTime].

Definition war_major_orders_params (order : pyval) : result (list param) :=
  setting ← py_get order "setting" (PDict []);
  id32 ← py_get order "id32" PNone;
  progress ← py_get order "progress" PNone;
  expiresIn ← py_get order "expiresIn" PNone;
  setting_type ← py_get setting "type" PNone;
  overrideTitle ← py_get setting "overrideTitle" PNone;
  overrideBrief ← py_get setting "overrideBrief" PNone;
  taskDescription ← py_get setting "taskDescription" PNone;
  tasks ← py_get setting "tasks" PNone;
  reward1 ← py_get setting "reward" (PDict []);
  reward_type ← py_get reward1 "type" PNone;
  reward2 ← py_get setting "reward" (PDict []);
  reward_id32 ← py_get reward2 "id32" PNone;
  reward3 ← py_get setting "reward" (PDict []);
  reward_amount ← py_get reward3 "amount" PNone;
  flags ← py_get setting "flags" PNone;
  mret [Lit id32; Lit progress; Lit expiresIn; Lit setting_type;
        Lit overrideTitle; Lit overrideBrief; Lit taskDescription;
        JsonDumps tasks; Lit reward_type; Lit reward_id32; Lit reward_amount;
        Lit flags].

Definition planets_params (entry : string * pyval) : result (list param) :=
  let (planet_index, planet) := entry in
  biome ← py_get planet "biome" (PDict []);
  environmentals ← py_get planet "environmentals" (PList []);
  index ← py_int planet_index;
  name ← py_get planet "name" PNone;
  sector ← py_get planet "sector" PNone;
  biome_slug ← py_get biome "slug" PNone;
  biome_description ← py_get biome "description" PNone;
  mret [Lit (PInt index); Lit name; Lit sector; Lit biome_slug;
        Lit biome_description; JsonDumps environmentals].

(** *** The six write sections of [store_data] *)

(** [key in data and data[key]] *)
Definition present (data : pydict) (key : string) : bool :=
  dict_contains data key && truthy (dict_item data key).

Definition store_war_status (data : pydict) : M unit :=
  if present data "status" then
    let envelope := dict_item data "status" in
    planet_status ← lift (py_get envelope "planetStatus" (PList []));
    warId ← lift (py_get envelope "warId" PNone);
    time ← lift (py_get envelope "time" PNone);
    impactMultiplier ← lift (py_get envelope "impactMultiplier" PNone);
    storyBeatId32 ← lift (py_get envelope "storyBeatId32" PNone);
    items ← lift (py_iter planet_status);
    _ ← for_each items (fun status =>
          ps ← lift (war_status_params warId time impactMultiplier storyBeatId32 status);
          cursor_execute insert_war_status ps);
    logging_info "Stored war_status data successfully."
  else mret ().

Definition store_war_info (data : pydict) : M unit :=
  if present data "info" then
    let envelope := dict_item data "info" in
    planet_infos ← lift (py_get envelope "planetInfos" (PList []));
    warId ← lift (py_get envelope "warId" PNone);
    startDate ← lift (py_get envelope "startDate" PNone);
    endDate ← lift (py_get envelope "endDate" PNone);
    minimumClientVersion ← lift (py_get envelope "minimumClientVersion" PNone);
    items ← lift (py_iter planet_infos);
    _ ← for_each items (fun info =>
          ps ← lift (war_info_params warId startDate endDate minimumClientVersion info);
          cursor_execute insert_war_info ps);
    logging_info "Stored war_info data successfully."
  else mret ().

Definition store_war_news (data : pydict) : M unit :=
  if present data "news" then
    items ← lift (py_iter (dict_item data "news"));
    _ ← for_each items (fun news =>
          ps ← lift (war_news_params news);
          cursor_execute insert_war_news ps);
    logging_info "Stored war_news data successfully."
  else mret ().

Definition store_war_campaign (data : pydict) : M unit :=
  if present data "campaign" then
    items ← lift (py_iter (dict_item data "campaign"));
    _ ← for_each items (fun campaign =>
          ps ← lift (war_campaign_params campaign);
          cursor_execute insert_war_campaign ps);
    logging_info "Stored war_campaign data successfully."
  else mret ().

Definition store_war_major_orders (data : pydict) : M unit :=
  if present data "major_orders" then
    items ← lift (py_iter (dict_item data "major_orders"));
    _ ← for_each items (fun order =>
          ps ← lift (war_major_orders_params order);
          cursor_execute insert_war_major_orders ps);
    logging_info "Stored war_major_orders data successfully."
  else mret ().

Definition store_planets (data : pydict) : M unit :=
  if present data "planets" then
    items ← lift (py_items (dict_item data "planets"));
    _ ← for_each items (fun entry =>
          ps ← lift (planets_params entry);
          cursor_execute insert_planets ps);
    logging_info "Stored planets data successfully."
  else mret ().

(** *** [store_data] and [main] *)

(** The body of the [try] block.  [conn.cursor()] and the assignment
    [conn.autocommit = False] (the driver's default) change nothing that is
    modelled. *)
Definition store_body (data : pydict) : M unit :=
  _ ← psycopg2_connect;
  _ ← for_each SCHEMA cursor_execute_create;
  _ ← store_war_status data;
  _ ← store_war_info data;
  _ ← store_war_news data;
  _ ← store_war_campaign data;
  _ ← store_war_major_orders data;
  _ ← store_planets data;
  _ ← conn_commit;
  _ ← logging_info "All data stored successfully.";
  conn_close.

(** The [except Exception as e:] handler. *)
Definition store_handler (e : exn) : M unit :=
  _ ← conn_rollback;
  logging_error ("Error storing data: " +:+ exn_msg e).

(** The function has no [return]: a call that does not raise yields [None]. *)
Definition store_data (data : pydict) : M pyval :=
  call (_ ← try_except (store_body data) is_exception store_handler;
        mret PNone).

Definition main : M pyval :=
  _ ← logging_info "Pipeline started.";
  data ← fetch_all_data;
  _ ← store_data data;
  _ ← logging_info "Pipeline finished successfully.";
  mret PNone.

End Pipeline.

(** * Vocabulary of the statements *)

(** ** The write plan of a run

    What the six write sections do to the open transaction, as a list of
    operations: the statements executed, the Python exceptions raised
    between them, and the log records written. *)

Inductive op : Type :=
| OpInsert (s : insert) (ps : list param)
| OpRaise (e : exn)
| OpLog (msg : string).

Definition op_of_row (s : insert) (r : result (list param)) : op :=
  match r with
  | Ok ps => OpInsert s ps
  | Raise e => OpRaise e
  end.

(** A section: the rows if its preamble went through, then its log record. *)
Definition section_ops (s : insert) (msg : string)
    (rows : result (list (result (list param)))) : list op :=
  match rows with
  | Ok rs => map (op_of_row s) rs ++ [OpLog msg]
  | Raise e => [OpRaise e]
  end.

Definition war_status_ops (data : pydict) : list op :=
  if present data "status" then
    let envelope := dict_item data "status" in
    section_ops insert_war_status "Stored war_status data successfully."
      (planet_status ← py_get envelope "planetStatus" (PList []);
       warId ← py_get envelope "warId" PNone;
       time ← py_get envelope "time" PNone;
       impactMultiplier ← py_get envelope "impactMultiplier" PNone;
       storyBeatId32 ← py_get envelope "storyBeatId32" PNone;
       items ← py_iter planet_status;
       mret (map (war_status_params warId time impactMultiplier storyBeatId32) items))
  else [].

Definition war_info_ops (data : pydict) : list op :=
  if present data "info" then
    let envelope := dict_item data "info" in
    section_ops insert_war_info "Stored war_info data successfully."
      (planet_infos ← py_get envelope "planetInfos" (PList []);
       warId ← py_get envelope "warId" PNone;
       startDate ← py_get envelope "startDate" PNone;
       endDate ← py_get envelope "endDate" PNone;
       minimumClientVersion ← py_get envelope "minimumClientVersion" PNone;
       items ← py_iter planet_infos;
       mret (map (war_info_params warId startDate endDate minimumClientVersion) items))
  else [].

Definition war_news_ops (data : pydict) : list op :=
  if present data "news" then
    section_ops insert_war_news "Stored war_news data successfully."
      (items ← py_iter (dict_item data "news"); mret (map war_news_params items))
  else [].

Definition war_campaign_ops (data : pydict) : list op :=
  if present data "campaign" then
    section_ops insert_war_campaign "Stored war_campaign data successfully."
      (items ← py_iter (dict_item data "campaign"); mret (map war_campaign_params items))
  else [].

Definition war_major_orders_ops (data : pydict) : list op :=
  if present data "major_orders" then
    section_ops insert_war_major_orders "Stored war_major_orders data successfully."
      (items ← py_iter (dict_item data "major_orders");
       mret (map war_major_orders_params items))
  else [].

Definition planets_ops (py_int : string -> result Z) (data : pydict) : list op :=
  if present data "planets" then
    section_ops insert_planets "Stored planets data successfully."
      (items ← py_items (dict_item data "planets");
       mret (map (planets_params py_int) items))
  else [].

Definition plan (py_int : string -> result Z) (data : pydict) : list op :=
  war_status_ops data ++ war_info_ops data ++ war_news_ops data
    ++ war_campaign_ops data ++ war_major_orders_ops data
    ++ planets_ops py_int data.

(** The plan run against a database, without the monad. *)
Definition apply_op (engine : db_engine) (o : op) (w : database) : result database :=
  match o with
  | OpInsert s ps => exec_insert engine s ps w
  | OpRaise e => Raise e
  | OpLog _ => Ok w
  end.

Fixpoint apply_ops (engine : db_engine) (ops : list op) (w : database)
    : result database :=
  match ops with
  | [] => Ok w
  | o :: ops' => w' ← apply_op engine o w; apply_ops engine ops' w'
  end.

Fixpoint create_all (engine : db_engine) (cs : list create_table) (w : database)
    : result database :=
  match cs with
  | [] => Ok w
  | c :: cs' => w' ← exec_create engine c w; create_all engine cs' w'
  end.

Definition ops_log (ops : list op) : list (level * string) :=
  omap (fun o => match o with OpLog m => Some (INFO, m) | _ => None end) ops.

(** What one run would commit: the schema, then the plan, then the commit
    itself. *)
Definition transaction (py_int : string -> result Z) (engine : db_engine)
    (data : pydict) (db : database) : result database :=
  w ← create_all engine SCHEMA db;
  w' ← apply_ops engine (plan py_int data) w;
  match commit_error engine with
  | Some e => Raise e
  | None => Ok w'
  end.

(** The monadic counterpart of [apply_op]. *)
Definition run_op (engine : db_engine) (o : op) : M unit :=
  match o with
  | OpInsert s ps => cursor_execute engine s ps
  | OpRaise e => lift (Raise e)
  | OpLog m => logging_info m
  end.

Definition run_ops (engine : db_engine) (ops : list op) : M unit :=
  for_each ops (run_op engine).

(** The record the handler of [store_data] writes. *)
Definition error_record (e : exn) : level * string :=
  (ERROR, "Error storing data: " +:+ exn_msg e).

(** ** Rows, slots and keys *)

(** The row stored in relation [t] under key [k], if any. *)
Definition cell (w : database) (t : string) (k : Z) : option row :=
  match w !! t with
  | Some tbl => tbl !! k
  | None => None
  end.

Definition INSERTS : list insert :=
  [insert_war_status; insert_war_info; insert_war_news; insert_war_campaign;
   insert_war_major_orders; insert_planets].

(** The key a statement writes under: the integer that the key column keeps
    of the key parameter, when there is one. *)
Definition insert_key (engine : db_engine) (s : insert) (ps : list param)
    : option Z :=
  match find_table (into s) with
  | Some decl =>
      match key_of engine (excluded (insert_columns s) ps (ct_key decl)) with
      | Ok k => Some k
      | Raise _ => None
      end
  | None => None
  end.

(** The row a statement proposes, as the table would keep it: the values of
    the non-key columns. *)
Definition stored_row (engine : db_engine) (s : insert) (ps : list param)
    : result row :=
  match find_table (into s) with
  | Some decl => proposed_row engine s decl ps
  | None => Raise (undefined_table (into s))
  end.

(** The effect of a statement on the slot of its key. *)
Definition write (engine : db_engine) (s : insert) (ps : list param)
    (o : option row) : option row :=
  match stored_row engine s ps with
  | Ok new =>
      match o, on_conflict s with
      | Some old, DoNothing => Some old
      | _, _ => Some new
      end
  | Raise _ => o
  end.

(** Facts read off the six statements and the six declarations. *)
Definition well_keyed (s : insert) : Prop :=
  exists decl, find_table (into s) = Some decl /\
               String.eqb (conflict_target s) (ct_key decl) = true /\
               match on_conflict s with
               | DoNothing => True
               | DoUpdate set_cols =>
                   forallb (fun c => string_mem c set_cols) (column_names decl) = true
               end.

Definition op_known (o : op) : Prop :=
  match o with
  | OpInsert s _ => In s INSERTS
  | _ => True
  end.

Definition targets (engine : db_engine) (s : insert) (ps : list param)
    (t : string) (k : Z) : Prop :=
  into s = t /\ insert_key engine s ps = Some k.

#[global] Instance targets_dec engine s ps t k : Decision (targets engine s ps t k).
Proof. unfold targets. apply _. Defined.

(** The content of slot [k] of relation [t] after the plan, from its content
    before. *)
Fixpoint slot (engine : db_engine) (ops : list op) (t : string) (k : Z)
    (o : option row) : option row :=
  match ops with
  | [] => o
  | OpInsert s ps :: ops' =>
      slot engine ops' t k
        (if decide (targets engine s ps t k) then write engine s ps o else o)
  | _ :: ops' => slot engine ops' t k o
  end.

(** The keys a plan writes under in relation [t]. *)
Definition op_key (engine : db_engine) (t : string) (o : op) : option Z :=
  match o with
  | OpInsert s ps => if decide (into s = t) then insert_key engine s ps else None
  | _ => None
  end.

Definition written_keys (engine : db_engine) (ops : list op) (t : string)
    : list Z :=
  omap (op_key engine t) ops.

(** ** The keys of a payload *)

(** The key a record carries in [field], when it is an integer. *)
Definition record_key (field : string) (item : pyval) : option Z :=
  match item with
  | PDict d =>
      match dict_get d field with
      | Some (PInt k) => Some k
      | _ => None
      end
  | _ => None
  end.

Definition list_keys (field : string) (v : pyval) : list Z :=
  match v with
  | PList l => omap (record_key field) l
  | _ => []
  end.

(** The string [s] as [int] reads it, if it does. *)
Definition int_of (py_int : string -> result Z) (s : string) : option Z :=
  match py_int s with
  | Ok k => Some k
  | Raise _ => None
  end.

(** The primary keys that appear in the payload as integers, for each
    relation. *)
Definition payload_keys (py_int : string -> result Z) (data : pydict)
    (t : string) : list Z :=
  if String.eqb t "war_status" then
    match dict_item data "status" with
    | PDict d =>
        match dict_get d "planetStatus" with
        | Some v => list_keys "index" v
        | None => []
        end
    | _ => []
    end
  else if String.eqb t "war_info" then
    match dict_item data "info" with
    | PDict d =>
        match dict_get d "planetInfos" with
        | Some v => list_keys "index" v
        | None => []
        end
    | _ => []
    end
  else if String.eqb t "war_news" then list_keys "id" (dict_item data "news")
  else if String.eqb t "war_campaign" then
    list_keys "planetIndex" (dict_item data "campaign")
  else if String.eqb t "war_major_orders" then
    list_keys "id32" (dict_item data "major_orders")
  else if String.eqb t "planets" then
    match dict_item data "planets" with
    | PDict d => omap (fun entry => int_of py_int (fst entry)) d
    | _ => []
    end
  else [].

(** ** What a fetch yields *)

(** What one fetch yields, without the monad. *)
Definition fetch_outcome (net : transport) (url : string) : result pyval :=
  response ← net url;
  _ ← raise_for_status url response;
  json_body response.

(** The failure of a fetch before any body is read: the exception of
    [requests.get] or of [raise_for_status]. *)
Definition fetch_failure (net : transport) (url : string) : option exn :=
  match net url with
  | Raise e => Some e
  | Ok response =>
      match raise_for_status url response with
      | Raise e => Some e
      | Ok _ => None
      end
  end.

Definition fetch_error_record (url : string) (e : exn) : level * string :=
  (ERROR, "Error fetching data from " +:+ url +:+ ": " +:+ exn_msg e).

Definition fetch_success_record (url : string) : level * string :=
  (INFO, "Successfully fetched data from " +:+ url).

(** The value [fetch_json] hands back when it returns. *)
Definition fetch_value (net : transport) (url : string) : pyval :=
  match fetch_outcome net url with
  | Ok v => v
  | Raise _ => PNone
  end.

(** Every exception of this fetch is one that [fetch_json] catches. *)
Definition caught (net : transport) (url : string) : bool :=
  match fetch_outcome net url with
  | Ok _ => true
  | Raise e => is_request_exception e
  end.

(** The records one fetch writes to the log. *)
Definition fetch_log (net : transport) (url : string) : list (level * string) :=
  match net url with
  | Raise e => [fetch_error_record url e]
  | Ok response =>
      match raise_for_status url response with
      | Raise e => [fetch_error_record url e]
      | Ok _ =>
          fetch_success_record url ::
          match json_body response with
          | Raise e => [fetch_error_record url e]
          | Ok _ => []
          end
      end
  end.

(** The records of a fetch that ends in an exception which [fetch_json]
    does not catch: the success record when the transport had answered (the
    exception then came after the status was accepted), nothing otherwise. *)
Definition uncaught_log (net : transport) (url : string) : list (level * string) :=
  match net url with
  | Ok _ => [fetch_success_record url]
  | Raise _ => []
  end.

Definition RESOURCES : list (string * string) :=
  ENDPOINTS ++ [("planets", PLANETS_URL)].

(** ** Resources and their write sections *)

(** The write section of each resource. *)
Definition WRITE_SECTIONS (py_int : string -> result Z)
    : list (string * (db_engine -> pydict -> M unit)) :=
  [("status", store_war_status); ("info", store_war_info);
   ("news", store_war_news); ("campaign", store_war_campaign);
   ("major_orders", store_war_major_orders);
   ("planets", store_planets py_int)].

(** The payload with the entries of the failed fetches left out. *)
Definition fetched_only (net : transport) : pydict :=
  omap (fun r => match fetch_outcome net (snd r) with
                 | Ok v => Some (fst r, v)
                 | Raise _ => None
                 end) RESOURCES.

(** The payload [fetch_all_data] builds. *)
Definition fetched (net : transport) : pydict :=
  map (fun r => (fst r, fetch_value net (snd r))) RESOURCES.

(** ** Absent fields *)

(** The field at the end of [path] is missing from record [d]: the first
    name is not a key of [d], or it leads to an object from which the rest
    is missing. *)
Fixpoint absent (d : pydict) (path : list string) : Prop :=
  match path with
  | [] => False
  | f :: rest =>
      dict_get d f = None \/
      exists d', dict_get d f = Some (PDict d') /\ absent d' rest
  end.

(** The column each field of a record is written to.  The fields that are
    read with a default other than [None] or passed through [json.dumps] are
    not listed: waypoints, environmentals and tasks. *)
Definition war_status_fields : list (string * list string) :=
  [("planetIndex", ["index"]); ("owner", ["owner"]); ("health", ["health"]);
   ("regenPerSecond", ["regenPerSecond"]); ("players", ["players"])].

Definition war_info_fields : list (string * list string) :=
  [("planetIndex", ["index"]); ("settingsHash", ["settingsHash"]);
   ("position_x", ["position"; "x"]); ("position_y", ["position"; "y"]);
   ("sector", ["sector"]); ("maxHealth", ["maxHealth"]);
   ("disabled", ["disabled"]); ("initialOwner", ["initialOwner"])].

Definition war_news_fields : list (string * list string) :=
  [("id", ["id"]); ("published", ["published"]); ("type", ["type"]);
   ("tagIds", ["tagIds"]); ("message", ["message"])].

Definition war_campaign_fields : list (string * list string) :=
  [("planetIndex", ["planetIndex"]); ("name", ["name"]); ("faction", ["faction"]);
   ("players", ["players"]); ("health", ["health"]); ("maxHealth", ["maxHealth"]);
   ("percentage", ["percentage"]); ("defense", ["defense"]);
   ("majorOrder", ["majorOrder"]); ("biome_slug", ["biome"; "slug"]);
   ("biome_description", ["biome"; "description"]);
   ("expireDateTime", ["expireDateTime"])].

Definition war_major_orders_fields : list (string * list string) :=
  [("id32", ["id32"]); ("progress", ["progress"]); ("expiresIn", ["expiresIn"]);
   ("setting_type", ["setting"; "type"]);
   ("setting_overrideTitle", ["setting"; "overrideTitle"]);
   ("setting_overrideBrief", ["setting"; "overrideBrief"]);
   ("setting_taskDescription", ["setting"; "taskDescription"]);
   ("setting_reward_type", ["setting"; "reward"; "type"]);
   ("setting_reward_id32", ["setting"; "reward"; "id32"]);
   ("setting_reward_amount", ["setting"; "reward"; "amount"]);
   ("setting_flags", ["setting"; "flags"])].

Definition planets_fields : list (string * list string) :=
  [("name", ["name"]); ("sector", ["sector"]); ("biome_slug", ["biome"; "slug"]);
   ("biome_description", ["biome"; "description"])].

(** The six builders, each with its statement and its fields.  [c1 .. c4]
    are the values taken from the envelope, [key] the key of a planets
    entry. *)
Definition builders (py_int : string -> result Z) (c1 c2 c3 c4 : pyval)
    (key : string)
    : list (insert * (pyval -> result (list param)) * list (string * list string)) :=
  [(insert_war_status, war_status_params c1 c2 c3 c4, war_status_fields);
   (insert_war_info, war_info_params c1 c2 c3 c4, war_info_fields);
   (insert_war_news, war_news_params, war_news_fields);
   (insert_war_campaign, war_campaign_params, war_campaign_fields);
   (insert_war_major_orders, war_major_orders_params, war_major_orders_fields);
   (insert_planets, (fun planet => planets_params py_int (key, planet)),
    planets_fields)].

(** The parameter a statement binds to a column. *)
Definition column (s : insert) (ps : list param) (c : string) : param :=
  excluded (insert_columns s) ps c.

(** ** The records of a successful run *)

(** The records the write sections leave in the log when none of them
    raises: one per resource that is present, in the order of the sections. *)
Definition SECTION_RECORDS : list (string * string) :=
  [("status", "Stored war_status data successfully.");
   ("info", "Stored war_info data successfully.");
   ("news", "Stored war_news data successfully.");
   ("campaign", "Stored war_campaign data successfully.");
   ("major_orders", "Stored war_major_orders data successfully.");
   ("planets", "Stored planets data successfully.")].

Definition section_records (data : pydict) : list (level * string) :=
  flat_map (fun r => if present data (fst r) then [(INFO, snd r)] else [])
           SECTION_RECORDS.

(** An operation that cannot go through, whatever the rows are: a statement
    that the engine refuses, or whose key or values its columns refuse. *)
Definition op_fails (engine : db_engine) (o : op) : Prop :=
  match o with
  | OpInsert s ps =>
      dml_error engine s ps <> None \/ insert_key engine s ps = None \/
      exists e, stored_row engine s ps = Raise e
  | OpRaise _ => True
  | OpLog _ => False
  end.

(** ** The records of a payload *)

(** The records of the payload that the write section of relation [t] runs
    over, for the five relations fed from a list. *)
Definition payload_records (data : pydict) (t : string) : list pyval :=
  if String.eqb t "war_status" then
    match dict_item data "status" with
    | PDict d =>
        match dict_get d "planetStatus" with
        | Some (PList l) => l
        | _ => []
        end
    | _ => []
    end
  else if String.eqb t "war_info" then
    match dict_item data "info" with
    | PDict d =>
        match dict_get d "planetInfos" with
        | Some (PList l) => l
        | _ => []
        end
    | _ => []
    end
  else if String.eqb t "war_news" then
    match dict_item data "news" with PList l => l | _ => [] end
  else if String.eqb t "war_campaign" then
    match dict_item data "campaign" with PList l => l | _ => [] end
  else if String.eqb t "war_major_orders" then
    match dict_item data "major_orders" with PList l => l | _ => [] end
  else [].

(** The field of a record that holds its primary key. *)
Definition key_field (t : string) : string :=
  if String.eqb t "war_news" then "id"
  else if String.eqb t "war_campaign" then "planetIndex"
  else if String.eqb t "war_major_orders" then "id32"
  else "index".

(** [data[key].get(field)] for an envelope that is an object. *)
Definition envelope_get (data : pydict) (key field : string) : pyval :=
  match dict_item data key with
  | PDict d => match dict_get d field with Some x => x | None => PNone end
  | _ => PNone
  end.

(** The statement of a relation, and the parameters its write section binds
    for a record of the payload. *)
Definition relation_insert (t : string) : insert :=
  if String.eqb t "war_status" then insert_war_status
  else if String.eqb t "war_info" then insert_war_info
  else if String.eqb t "war_news" then insert_war_news
  else if String.eqb t "war_campaign" then insert_war_campaign
  else if String.eqb t "war_major_orders" then insert_war_major_orders
  else insert_planets.

Definition record_params (data : pydict) (t : string) (item : pyval)
    : result (list param) :=
  if String.eqb t "war_status" then
    war_status_params (envelope_get data "status" "warId")
      (envelope_get data "status" "time")
      (envelope_get data "status" "impactMultiplier")
      (envelope_get data "status" "storyBeatId32") item
  else if String.eqb t "war_info" then
    war_info_params (envelope_get data "info" "warId")
      (envelope_get data "info" "startDate")
      (envelope_get data "info" "endDate")
      (envelope_get data "info" "minimumClientVersion") item
  else if String.eqb t "war_news" then war_news_params item
  else if String.eqb t "war_campaign" then war_campaign_params item
  else war_major_orders_params item.

(** The entries of the planets directory. *)
Definition payload_planets (data : pydict) : pydict :=
  match dict_item data "planets" with
  | PDict d => d
  | _ => []
  end.

(** The parameter tuples that the write section of relation [t] builds from
    the payload, in the order of the payload; a record from which none can
    be built stands as the exception it raises. *)
Definition payload_rows (py_int : string -> result Z) (data : pydict)
    (t : string) : list (result (list param)) :=
  if String.eqb t "planets"
  then map (planets_params py_int) (payload_planets data)
  else map (record_params data t) (payload_records data t).

(** The key under which the engine would store a tuple of relation [t]. *)
Definition row_key (engine : db_engine) (t : string)
    (r : result (list param)) : option Z :=
  match r with
  | Ok ps => insert_key engine (relation_insert t) ps
  | Raise _ => None
  end.

(** The primary keys of the payload of relation [t], as the engine reads
    them. *)
Definition engine_keys (py_int : string -> result Z) (engine : db_engine)
    (data : pydict) (t : string) : list Z :=
  omap (row_key engine t) (payload_rows py_int data t).

(** The types of the non-key columns of relation [t], as declared. *)
Definition column_types (t : string) : list sqltype :=
  match find_table t with
  | Some decl => map snd (ct_columns decl)
  | None => []
  end.

(** ** The shape of a payload *)

Definition is_dict (v : pyval) : bool :=
  match v with PDict _ => true | _ => false end.

(** A record from which no key can be read: it is not an object, or the
    field is missing from it or null. *)
Definition keyless (field : string) (item : pyval) : bool :=
  match item with
  | PDict d =>
      match dict_get d field with
      | None | Some PNone => true
      | Some _ => false
      end
  | _ => true
  end.

Definition is_list (v : pyval) : bool :=
  match v with PList _ => true | _ => false end.

(** The JSON type each write section expects of its resource. *)
Definition shape_ok (key : string) (v : pyval) : bool :=
  if String.eqb key "news" || String.eqb key "campaign"
     || String.eqb key "major_orders"
  then is_list v
  else is_dict v.

(** The nested objects that the builders read with the default [{}]. *)
Definition NESTED_OBJECTS : list (string * string) :=
  [("war_info", "position"); ("war_campaign", "biome");
   ("war_major_orders", "setting")].

(** * Scenarios *)

(** An engine that refuses no statement and keeps every value as the driver
    sent it; only an integer is a key for it. *)
Definition sound_engine : db_engine :=
  Engine None (fun _ => None) (fun _ _ => None) None None (fun _ p => Ok p).

(** An engine that refuses every write to war_major_orders. *)
Definition orders_failing_engine : db_engine :=
  Engine None (fun _ => None)
    (fun s _ =>
       if String.eqb (into s) "war_major_orders"
       then Some (Exn (DatabaseError "DataError") "integer out of range")
       else None)
    None None (fun _ p => Ok p).

(** The same engine on a connection that is lost by the time of the
    rollback. *)
Definition connection_lost : exn :=
  Exn (DatabaseError "InterfaceError") "connection already closed".

Definition lost_connection_engine : db_engine :=
  Engine None (fun _ => None) (dml_error orders_failing_engine) None
    (Some connection_lost) (fun _ p => Ok p).

(** An engine that reads a string of decimal digits given for an INTEGER
    column as the number it spells, and keeps every other value. *)
Definition converting_engine : db_engine :=
  Engine None (fun _ => None) (fun _ _ => None) None None
    (fun ty p =>
       match ty, p with
       | INTEGER, Lit (PStr s) => z ← decimal_int s; Ok (Lit (PInt z))
       | _, _ => Ok p
       end).

(** An engine that cannot be reached. *)
Definition unreachable_engine : db_engine :=
  Engine (Some (Exn (DatabaseError "OperationalError") "connection refused"))
    (fun _ => None) (fun _ _ => None) None None (fun _ p => Ok p).

Definition empty_store : state := State ∅ None [].

Definition campaign_and_order : pydict :=
  [("campaign",
    PList [PDict [("planetIndex", PInt 7); ("name", PStr "Malevelon Creek");
                  ("health", PInt 500)]]);
   ("major_orders",
    PList [PDict [("id32", PInt 11); ("expiresIn", PInt 3600)]])].

Definition old_news_row : row :=
  [Lit (PInt 100); Lit (PInt 0); Lit (PList [PInt 1]); Lit (PStr "old message")].

Definition store_with_news : state :=
  State {[ "war_news" := {[ 42 := old_news_row ]} ]} None [].

Definition changed_news : pydict :=
  [("news",
    PList [PDict [("id", PInt 42); ("published", PInt 200); ("type", PInt 1);
                  ("tagIds", PList []); ("message", PStr "new message")]])].

Definition feed_body (url : string) : pyval :=
  if String.eqb url (API_BASE_URL +:+ "/status") then
    PDict [("planetStatus",
            PList [PDict [("index", PInt 1); ("owner", PInt 2);
                          ("health", PInt 9000)]]);
           ("warId", PInt 1); ("time", PInt 100)]
  else if String.eqb url (API_BASE_URL +:+ "/info") then
    PDict [("planetInfos", PList [PDict [("index", PInt 1); ("sector", PInt 3)]]);
           ("warId", PInt 1)]
  else if String.eqb url (API_BASE_URL +:+ "/news") then
    PList [PDict [("id", PInt 42); ("message", PStr "new message")]]
  else if String.eqb url (API_BASE_URL +:+ "/campaign") then
    PList [PDict [("planetIndex", PInt 1); ("name", PStr "Super Earth")]]
  else if String.eqb url (API_BASE_URL +:+ "/major-orders") then
    PList [PDict [("id32", PInt 11); ("expiresIn", PInt 3600)]]
  else
    PDict [("1", PDict [("name", PStr "Super Earth")])].

Definition war_feed : transport := fun url =>
  Ok (Response 200 "OK" (Ok (feed_body url))).

(** The same feed, with the news endpoint out of service. *)
Definition war_feed_without_news : transport := fun url =>
  if String.eqb url (API_BASE_URL +:+ "/news")
  then Ok (Response 503 "Service Unavailable" (Ok PNone))
  else war_feed url.

Definition net_not_found : transport := fun _ =>
  Ok (Response 404 "Not Found" (Ok (PStr "not found"))).

Definition net_timeout : transport := fun _ =>
  Raise (Exn (RequestException "Timeout") "read timed out").

Definition net_null : transport := fun _ => Ok (Response 200 "OK" (Ok PNone)).

(** The feed, with a body at the info endpoint that is nested more deeply
    than the JSON decoder recurses. *)
Definition too_deep : exn :=
  Exn (OtherException "RecursionError")
      "maximum recursion depth exceeded while decoding a JSON array from a unicode string".

Definition war_feed_deep_info : transport := fun url =>
  if String.eqb url (API_BASE_URL +:+ "/info")
  then Ok (Response 200 "OK" (Raise too_deep))
  else war_feed url.

(** The feed, with the news endpoint answering 300 and a body. *)
Definition war_feed_news_300 : transport := fun url =>
  if String.eqb url (API_BASE_URL +:+ "/news")
  then Ok (Response 300 "Multiple Choices" (Ok (feed_body url)))
  else war_feed url.

(** A status payload whose planet index is the string "5". *)
Definition planet_5_as_text : pydict :=
  [("status",
    PDict [("planetStatus",
            PList [PDict [("index", PStr "5"); ("owner", PInt 1);
                          ("health", PInt 80); ("regenPerSecond", PInt 0);
                          ("players", PInt 12)]]);
           ("warId", PInt 1); ("time", PInt 60); ("impactMultiplier", PInt 1);
           ("storyBeatId32", PInt 3)])].

(** A status outside 2xx for which [raise_for_status] does not raise. *)
Definition net_multiple_choices : transport := fun _ =>
  Ok (Response 300 "Multiple Choices" (Ok (PList [PInt 1]))).

Definition planet_5_payload : pydict :=
  [("status",
    PDict [("planetStatus",
            PList [PDict [("index", PInt 5); ("owner", PInt 1);
                          ("health", PInt 80); ("regenPerSecond", PInt 0);
                          ("players", PInt 12)]]);
           ("warId", PInt 1); ("time", PInt 60); ("impactMultiplier", PInt 1);
           ("storyBeatId32", PInt 3)])].

Definition not_found_error : exn :=
  Exn (RequestException "HTTPError")
      ("404 Client Error: Not Found for url: " +:+ PLANETS_URL).

Definition status_of_planets_5_and_6 : database :=
  {[ "war_status" :=
       {[ 5 := [Lit (PInt 1); Lit (PInt 100); Lit (PInt 0); Lit (PInt 10);
                Lit (PInt 1); Lit (PInt 50); Lit (PInt 1); Lit (PInt 3)];
          6 := [Lit (PInt 2); Lit (PInt 700); Lit (PInt 0); Lit (PInt 20);
                Lit (PInt 1); Lit (PInt 50); Lit (PInt 1); Lit (PInt 3)] ]} ]}.

Definition planet_5_health_80 : list param :=
  [Lit (PInt 5); Lit (PInt 1); Lit (PInt 80); Lit (PInt 0); Lit (PInt 12);
   Lit (PInt 1); Lit (PInt 60); Lit (PInt 1); Lit (PInt 3)].

Definition info_without_position_and_waypoints : pydict :=
  [("index", PInt 1); ("sector", PInt 3)].

Definition planet_without_environmentals : pydict :=
  [("name", PStr "Super Earth")].

(** The schema statements run in a transaction on the store that holds one
    news item. *)
Definition schema_on_store_with_news : result unit * state :=
  for_each SCHEMA (cursor_execute_create sound_engine)
    (State ∅ (Some (disk store_with_news)) []).

(** * Verification *)

(** ** The sections run their plan *)

Section Loops.

Variable engine : db_engine.

Lemma run_ops_cons (o : op) (ops : list op) (st : state) :
  run_ops engine (o :: ops) st =
  match run_op engine o st with
  | (Ok _, st') => run_ops engine ops st'
  | (Raise e, st') => (Raise e, st')
  end.
Proof. reflexivity. Qed.

Lemma run_ops_app (a b : list op) (st : state) :
  run_ops engine (a ++ b) st =
  match run_ops engine a st with
  | (Ok _, st') => run_ops engine b st'
  | (Raise e, st') => (Raise e, st')
  end.
Proof.
  revert st. induction a as [|o a IH]; intros st.
  - reflexivity.
  - rewrite <- app_comm_cons, !run_ops_cons.
    destruct (run_op engine o st) as [[[]|e] st']; [apply IH | reflexivity].
Qed.

Lemma loop_runs_rows {A} (b : A -> result (list param)) (s : insert)
    (items : list A) (st : state) :
  for_each items (fun x => ps ← lift (b x); cursor_execute engine s ps) st =
  run_ops engine (map (op_of_row s) (map b items)) st.
Proof.
  revert st. induction items as [|x items IH]; intros st.
  - reflexivity.
  - cbn [map for_each]. rewrite run_ops_cons.
    unfold mbind at 1, M_bind at 1.
    unfold mbind at 1, M_bind at 1, lift at 1.
    destruct (b x) as [ps|e]; cbn [op_of_row run_op].
    + destruct (cursor_execute engine s ps st) as [[[]|e] st'];
        [apply IH | reflexivity].
    + reflexivity.
Qed.

Lemma section_runs {A} (pre : result (list A)) (b : A -> result (list param))
    (s : insert) (msg : string) (st : state) :
  (items ← lift pre;
   _ ← for_each items (fun x => ps ← lift (b x); cursor_execute engine s ps);
   logging_info msg) st =
  run_ops engine (section_ops s msg (items ← pre; mret (map b items))) st.
Proof.
  destruct pre as [items|e]; [|reflexivity].
  unfold mbind at 1, M_bind at 1, lift at 1.
  unfold mbind at 1, M_bind at 1.
  cbn [section_ops mbind result_bind mret result_ret].
  rewrite run_ops_app, loop_runs_rows.
  destruct (run_ops engine (map (op_of_row s) (map b items)) st) as [[[]|e] st'];
    [|reflexivity].
  rewrite run_ops_cons. cbn [run_op].
  destruct (logging_info msg st') as [[[]|e] st''] eqn:E; [reflexivity|].
  discriminate E.
Qed.

Lemma store_war_status_runs (data : pydict) (st : state) :
  store_war_status engine data st = run_ops engine (war_status_ops data) st.
Proof.
  unfold store_war_status, war_status_ops.
  destruct (present data "status"); [|reflexivity].
  destruct (dict_item data "status"); try reflexivity.
  apply section_runs.
Qed.

Lemma store_war_info_runs (data : pydict) (st : state) :
  store_war_info engine data st = run_ops engine (war_info_ops data) st.
Proof.
  unfold store_war_info, war_info_ops.
  destruct (present data "info"); [|reflexivity].
  destruct (dict_item data "info"); try reflexivity.
  apply section_runs.
Qed.

Lemma store_war_news_runs (data : pydict) (st : state) :
  store_war_news engine data st = run_ops engine (war_news_ops data) st.
Proof.
  unfold store_war_news, war_news_ops.
  destruct (present data "news"); [|reflexivity].
  apply section_runs.
Qed.

Lemma store_war_campaign_runs (data : pydict) (st : state) :
  store_war_campaign engine data st = run_ops engine (war_campaign_ops data) st.
Proof.
  unfold store_war_campaign, war_campaign_ops.
  destruct (present data "campaign"); [|reflexivity].
  apply section_runs.
Qed.

Lemma store_war_major_orders_runs (data : pydict) (st : state) :
  store_war_major_orders engine data st =
  run_ops engine (war_major_orders_ops data) st.
Proof.
  unfold store_war_major_orders, war_major_orders_ops.
  destruct (present data "major_orders"); [|reflexivity].
  apply section_runs.
Qed.

End Loops.

Section Bridge.

Variable py_int : string -> result Z.
Variable engine : db_engine.

Lemma store_planets_runs (data : pydict) (st : state) :
  store_planets py_int engine data st = run_ops engine (planets_ops py_int data) st.
Proof.
  unfold store_planets, planets_ops.
  destruct (present data "planets"); [|reflexivity].
  apply section_runs.
Qed.

End Bridge.

(** ** [store_body] in terms of the plan *)

Section Runs.

Variable engine : db_engine.

Lemma bind_ext {A B} (m m' : M A) (k k' : A -> M B) (st : state) :
  m st = m' st ->
  (forall a st', k a st' = k' a st') ->
  (a ← m; k a) st = (a ← m'; k' a) st.
Proof.
  intros Hm Hk. unfold mbind, M_bind. rewrite Hm.
  destruct (m' st) as [[a|e] st']; [apply Hk | reflexivity].
Qed.

Lemma bind_run_ops_app {B} (s : M unit) (tail rest : M B) (a b : list op)
    (st : state) :
  (forall st', s st' = run_ops engine a st') ->
  (forall st', tail st' = (_ ← run_ops engine b; rest) st') ->
  (_ ← s; tail) st = (_ ← run_ops engine (a ++ b); rest) st.
Proof.
  intros Hs Ht. unfold mbind, M_bind.
  rewrite Hs, run_ops_app.
  destruct (run_ops engine a st) as [[[]|e] st']; [|reflexivity].
  rewrite Ht. reflexivity.
Qed.

Lemma run_ops_apply (ops : list op) (d w : database)
    (l : list (level * string)) :
  match apply_ops engine ops w with
  | Ok w' =>
      run_ops engine ops (State d (Some w) l) =
      (Ok (), State d (Some w') (l ++ ops_log ops))
  | Raise e =>
      exists w' l', run_ops engine ops (State d (Some w) l) =
                    (Raise e, State d (Some w') l')
  end.
Proof.
  revert w l. induction ops as [|o ops IH]; intros w l.
  - cbn. rewrite app_nil_r. reflexivity.
  - cbn [apply_ops]. rewrite run_ops_cons.
    destruct o as [s ps|e|m]; cbn [apply_op run_op mbind result_bind].
    + unfold cursor_execute, in_transaction; cbn [conn disk log].
      destruct (exec_insert engine s ps w) as [w1|e]; [apply IH|].
      exists w, l. reflexivity.
    + exists w, l. reflexivity.
    + unfold logging_info; cbn [conn disk log].
      specialize (IH w (l ++ [(INFO, m)])%list).
      destruct (apply_ops engine ops w) as [w'|e]; [|exact IH].
      rewrite IH. cbn [ops_log omap]. rewrite <- app_assoc. reflexivity.
Qed.

Lemma create_all_runs (cs : list create_table) (d w : database)
    (l : list (level * string)) :
  match create_all engine cs w with
  | Ok w' =>
      for_each cs (cursor_execute_create engine) (State d (Some w) l) =
      (Ok (), State d (Some w') l)
  | Raise e =>
      exists w', for_each cs (cursor_execute_create engine) (State d (Some w) l) =
                 (Raise e, State d (Some w') l)
  end.
Proof.
  revert w. induction cs as [|c cs IH]; intros w.
  - reflexivity.
  - cbn [create_all for_each mbind result_bind].
    unfold mbind, M_bind, cursor_execute_create at 1 3, in_transaction;
      cbn [conn disk log].
    destruct (exec_create engine c w) as [w1|e]; [apply IH|].
    exists w. reflexivity.
Qed.

End Runs.

Section Body.

Variable py_int : string -> result Z.
Variable engine : db_engine.

Lemma store_body_plan (data : pydict) (st : state) :
  store_body py_int engine data st =
  (_ ← psycopg2_connect engine;
   _ ← for_each SCHEMA (cursor_execute_create engine);
   _ ← run_ops engine (plan py_int data);
   _ ← conn_commit engine;
   _ ← logging_info "All data stored successfully.";
   conn_close) st.
Proof.
  unfold store_body, plan.
  apply bind_ext; [reflexivity | intros _ st1].
  apply bind_ext; [reflexivity | intros _ st2].
  apply bind_run_ops_app; [apply store_war_status_runs | intros st3].
  apply bind_run_ops_app; [apply store_war_info_runs | intros st4].
  apply bind_run_ops_app; [apply store_war_news_runs | intros st5].
  apply bind_run_ops_app; [apply store_war_campaign_runs | intros st6].
  apply bind_run_ops_app; [apply store_war_major_orders_runs | intros st7].
  apply bind_ext; [apply store_planets_runs | reflexivity].
Qed.

(** The body of the [try] block, once connected: it either commits what
    [transaction] computes, or raises with nothing committed and [conn]
    bound. *)

Lemma store_body_connected (data : pydict) (db : database)
    (l : list (level * string)) :
  connect_error engine = None ->
  match transaction py_int engine data db with
  | Ok w =>
      store_body py_int engine data (State db None l) =
      (Ok (), State w (Some w)
                (l ++ ops_log (plan py_int data) ++ [(INFO, "All data stored successfully.")]))
  | Raise e =>
      exists w l', store_body py_int engine data (State db None l) =
                   (Raise e, State db (Some w) l')
  end.
Proof.
  intros Hc. rewrite store_body_plan. unfold transaction.
  unfold mbind, M_bind, result_bind, psycopg2_connect.
  rewrite Hc. cbn [disk log].
  pose proof (create_all_runs engine SCHEMA db db l) as Hcr.
  destruct (create_all engine SCHEMA db) as [w1|e].
  - pose proof (run_ops_apply engine (plan py_int data) db w1 l) as Hop.
    rewrite Hcr.
    destruct (apply_ops engine (plan py_int data) w1) as [w2|e].
    + rewrite Hop. unfold conn_commit; cbn [conn].
      destruct (commit_error engine) as [e|] eqn:Hce.
      * exists w2, (l ++ ops_log (plan py_int data))%list. reflexivity.
      * unfold logging_info, conn_close; cbn.
        rewrite <- app_assoc. reflexivity.
    + destruct Hop as (w' & l' & Hop). exists w', l'.
      rewrite Hop. reflexivity.
  - destruct Hcr as (w' & Hcr). exists w', l.
    rewrite Hcr. reflexivity.
Qed.

Lemma store_body_unconnected (data : pydict) (st : state) (e : exn) :
  connect_error engine = Some e ->
  store_body py_int engine data st = (Raise e, st).
Proof.
  intros Hc. rewrite store_body_plan.
  unfold mbind, M_bind, psycopg2_connect. rewrite Hc. reflexivity.
Qed.

End Body.

(** ** [store_data] as a whole *)

Section StoreData.

Variable py_int : string -> result Z.
Variable engine : db_engine.

(** When the connection cannot be made, the handler's [conn.rollback()]
    finds [conn] unbound, and that error leaves the function. *)
Lemma store_data_unconnected (data : pydict) (st : state) (e : exn) :
  connect_error engine = Some e ->
  store_data py_int engine data st =
  (Raise (unbound_local "conn"), State (disk st) None (log st)).
Proof.
  intros Hc. unfold store_data, call, try_except, mbind, M_bind.
  rewrite (store_body_unconnected py_int engine data _ e Hc). reflexivity.
Qed.

(** Once connected, a body that raises is rolled back and logged, and the
    call returns [None]; unless the rollback raises in its turn, and then
    that error leaves the function and nothing is logged. *)
Lemma store_data_caught (data : pydict) (st st' : state) (e : exn) :
  connect_error engine = None ->
  store_body py_int engine data (State (disk st) None (log st)) = (Raise e, st') ->
  store_data py_int engine data st =
  match rollback_error engine with
  | None => (Ok PNone, State (disk st) None (log st' ++ [error_record e]))
  | Some e' => (Raise e', State (disk st) None (log st'))
  end.
Proof.
  intros Hc Hb.
  pose proof (store_body_connected py_int engine data (disk st) (log st) Hc) as H.
  destruct (transaction py_int engine data (disk st)) as [w|e0].
  - rewrite H in Hb. discriminate Hb.
  - destruct H as (w & l' & H). rewrite H in Hb. injection Hb as <- <-.
    unfold store_data, call, try_except, store_handler, conn_rollback,
      mbind, M_bind.
    rewrite H. cbn [is_exception conn disk log].
    destruct (rollback_error engine); reflexivity.
Qed.

Lemma store_data_returned (data : pydict) (st st' : state) :
  store_body py_int engine data (State (disk st) None (log st)) = (Ok (), st') ->
  store_data py_int engine data st = (Ok PNone, State (disk st') None (log st')).
Proof.
  intros Hb. unfold store_data, call, try_except, mbind, M_bind.
  rewrite Hb. reflexivity.
Qed.

(** The committed contents after a call: those of [transaction] when it
    goes through, the previous ones otherwise. *)
Lemma store_data_disk (data : pydict) (st : state) :
  disk (snd (store_data py_int engine data st)) =
  match connect_error engine, transaction py_int engine data (disk st) with
  | None, Ok w => w
  | _, _ => disk st
  end.
Proof.
  destruct (connect_error engine) as [e|] eqn:Hc.
  - rewrite (store_data_unconnected data st e Hc). reflexivity.
  - pose proof (store_body_connected py_int engine data (disk st) (log st) Hc) as H.
    destruct (transaction py_int engine data (disk st)) as [w|e].
    + rewrite (store_data_returned data st _ H). reflexivity.
    + destruct H as (w & l' & H).
      rewrite (store_data_caught data st _ e Hc H).
      destruct (rollback_error engine); reflexivity.
Qed.

Lemma store_body_raise_disk (data : pydict) (st st' : state) (e : exn) :
  store_body py_int engine data (State (disk st) None (log st)) = (Raise e, st') ->
  disk (snd (store_data py_int engine data st)) = disk st.
Proof.
  intros Hb. rewrite store_data_disk.
  destruct (connect_error engine) as [e0|] eqn:Hc; [reflexivity|].
  pose proof (store_body_connected py_int engine data (disk st) (log st) Hc) as H.
  destruct (transaction py_int engine data (disk st)) as [w|e']; [|reflexivity].
  rewrite H in Hb. discriminate Hb.
Qed.

End StoreData.

(** ** What a statement does to the rows *)

Lemma store_values_length (engine : db_engine) (tys : list sqltype)
    (ps : list param) (r : row) :
  length tys = length ps ->
  store_values engine tys ps = Ok r ->
  length r = length tys.
Proof.
  revert ps r. induction tys as [|ty tys IH]; intros [|p ps] r Hl H;
    try discriminate Hl.
  - injection H as <-. reflexivity.
  - cbn [store_values] in H. unfold mbind, result_bind in H.
    destruct (store_value engine ty p); [|discriminate].
    destruct (store_values engine tys ps) as [vs|] eqn:E; [|discriminate].
    injection H as <-. cbn. f_equal. apply (IH ps); [|exact E].
    injection Hl as Hl. exact Hl.
Qed.

Lemma proposed_row_length (engine : db_engine) (s : insert)
    (decl : create_table) (ps : list param) (r : row) :
  proposed_row engine s decl ps = Ok r ->
  length r = length (column_names decl).
Proof.
  intros H. unfold proposed_row in H.
  apply store_values_length in H.
  - rewrite H. unfold column_names. rewrite !length_map. reflexivity.
  - unfold column_names. rewrite !length_map. reflexivity.
Qed.

Lemma merge_row_full (cols set_cols : list string) (new old : row) :
  forallb (fun c => string_mem c set_cols) cols = true ->
  length new = length cols ->
  merge_row cols set_cols new old = new.
Proof.
  revert new old. induction cols as [|c cols IH]; intros new old H Hl.
  - destruct new; [reflexivity | discriminate Hl].
  - destruct new as [|x new]; [discriminate Hl|].
    cbn in H. apply andb_prop in H as [Hc H].
    cbn [merge_row hd tl]. rewrite Hc, IH; [reflexivity | exact H |].
    injection Hl as Hl. exact Hl.
Qed.

Lemma INSERTS_well_keyed (s : insert) : In s INSERTS -> well_keyed s.
Proof.
  intros H. repeat (destruct H as [<-|H]; [eexists; repeat split; reflexivity|]).
  destruct H.
Qed.

Lemma upsert_row_write (engine : db_engine) (s : insert) (decl : create_table)
    (ps : list param) (new : row) (k : Z) (t : table) :
  find_table (into s) = Some decl ->
  String.eqb (conflict_target s) (ct_key decl) = true ->
  match on_conflict s with
  | DoNothing => True
  | DoUpdate set_cols =>
      forallb (fun c => string_mem c set_cols) (column_names decl) = true
  end ->
  proposed_row engine s decl ps = Ok new ->
  exists r, write engine s ps (t !! k) = Some r /\
            upsert_row s decl new k t = Ok (<[k := r]> t).
Proof.
  intros Hd Hk Hs Hnew. unfold upsert_row, write, stored_row.
  rewrite Hd, Hk, Hnew.
  destruct (t !! k) as [old|] eqn:Ht.
  - destruct (on_conflict s) as [|set_cols].
    + exists old. split; [reflexivity|]. rewrite insert_id by exact Ht. reflexivity.
    + eexists. split; [reflexivity|].
      rewrite merge_row_full;
        [reflexivity | exact Hs | exact (proposed_row_length _ _ _ _ _ Hnew)].
  - eexists. split; reflexivity.
Qed.

(** A statement that goes through rewrites one slot of one table. *)
Lemma exec_insert_ok (engine : db_engine) (s : insert) (ps : list param)
    (w w' : database) :
  In s INSERTS ->
  exec_insert engine s ps w = Ok w' ->
  exists k tbl r,
    dml_error engine s ps = None /\
    insert_key engine s ps = Some k /\ w !! into s = Some tbl /\
    write engine s ps (tbl !! k) = Some r /\
    w' = <[into s := <[k := r]> tbl]> w.
Proof.
  intros Hs H. destruct (INSERTS_well_keyed s Hs) as (decl & Hd & Hk & Hu).
  unfold exec_insert in H. unfold insert_key. rewrite Hd in *.
  destruct (dml_error engine s ps); [discriminate|].
  destruct (w !! into s) as [tbl|]; [|discriminate].
  unfold mbind, result_bind in H.
  destruct (key_of engine _) as [k|e]; [|discriminate].
  destruct (proposed_row engine s decl ps) as [new|e] eqn:Hnew; [|discriminate].
  destruct (upsert_row_write engine s decl ps new k tbl Hd Hk Hu Hnew)
    as (r & Hw & Hr).
  rewrite Hr in H. injection H as <-. eauto 10.
Qed.

(** A statement that goes through has had its values accepted. *)
Lemma exec_insert_stored (engine : db_engine) (s : insert) (ps : list param)
    (w w' : database) :
  In s INSERTS ->
  exec_insert engine s ps w = Ok w' ->
  exists new, stored_row engine s ps = Ok new.
Proof.
  intros Hs H. destruct (INSERTS_well_keyed s Hs) as (decl & Hd & Hk & Hu).
  unfold exec_insert in H. unfold stored_row. rewrite Hd in *.
  destruct (dml_error engine s ps); [discriminate|].
  destruct (w !! into s) as [tbl|]; [|discriminate].
  unfold mbind, result_bind in H.
  destruct (key_of engine _) as [k|e]; [|discriminate].
  destruct (proposed_row engine s decl ps) as [new|e]; [eauto | discriminate].
Qed.

(** Whether a statement goes through does not depend on the rows. *)
Lemma exec_insert_total (engine : db_engine) (s : insert) (ps : list param)
    (w : database) (k : Z) (new : row) :
  In s INSERTS ->
  dml_error engine s ps = None ->
  insert_key engine s ps = Some k ->
  stored_row engine s ps = Ok new ->
  is_Some (w !! into s) ->
  exists w', exec_insert engine s ps w = Ok w'.
Proof.
  intros Hs He Hkey Hnew [tbl Ht].
  destruct (INSERTS_well_keyed s Hs) as (decl & Hd & Hk & Hu).
  unfold exec_insert. unfold insert_key in Hkey. unfold stored_row in Hnew.
  rewrite Hd in *.
  rewrite He, Ht. unfold mbind, result_bind.
  destruct (key_of engine _) as [k'|e]; [|discriminate].
  rewrite Hnew.
  destruct (upsert_row_write engine s decl ps new k' tbl Hd Hk Hu Hnew)
    as (r & _ & Hr).
  rewrite Hr. eauto.
Qed.

Lemma cell_insert (w : database) (t t' : string) (tbl : table) (k k' : Z)
    (r : row) :
  w !! t = Some tbl ->
  cell (<[t := <[k := r]> tbl]> w) t' k' =
  if decide (t = t' /\ k = k') then Some r else cell w t' k'.
Proof.
  intros Ht. unfold cell. destruct (decide (t = t')) as [<-|Hne].
  - rewrite lookup_insert_eq, Ht.
    destruct (decide (k = k')) as [<-|Hk].
    + rewrite lookup_insert_eq, decide_True by done. reflexivity.
    + rewrite lookup_insert_ne, decide_False by tauto. reflexivity.
  - rewrite lookup_insert_ne by done. rewrite decide_False by tauto. reflexivity.
Qed.

(** Two databases with the same relations and the same rows are equal. *)
Lemma database_ext (w w' : database) :
  (forall t, is_Some (w !! t) <-> is_Some (w' !! t)) ->
  (forall t k, cell w t k = cell w' t k) ->
  w = w'.
Proof.
  intros Hdom Hcell. apply map_eq. intros t.
  specialize (Hdom t). pose proof (Hcell t) as Ht. unfold cell in Ht.
  destruct (w !! t) as [tbl|], (w' !! t) as [tbl'|].
  - f_equal. apply map_eq. exact Ht.
  - destruct Hdom as [H _]. destruct H; eauto; discriminate.
  - destruct Hdom as [_ H]. destruct H; eauto; discriminate.
  - reflexivity.
Qed.

(** ** What a plan does to the rows *)

Section Plans.

Variable engine : db_engine.

Lemma apply_ops_cells (ops : list op) (w w' : database) :
  Forall op_known ops ->
  apply_ops engine ops w = Ok w' ->
  (forall t, is_Some (w' !! t) <-> is_Some (w !! t)) /\
  (forall t k, cell w' t k = slot engine ops t k (cell w t k)).
Proof.
  intros Hk. revert w. induction Hk as [|o ops Ho _ IH]; intros w H.
  - injection H as <-. split; reflexivity.
  - cbn [apply_ops] in H. unfold mbind, result_bind in H.
    destruct o as [s ps|e|m]; cbn [apply_op] in H; [|discriminate|].
    + destruct (exec_insert engine s ps w) as [w1|e] eqn:E; [|discriminate].
      destruct (exec_insert_ok engine s ps w w1 Ho E)
        as (k0 & tbl & r & _ & Hkey & Ht & Hw & ->).
      destruct (IH _ H) as [Hdom Hcell]. split.
      * intros t. rewrite Hdom. destruct (decide (into s = t)) as [<-|Hne].
        -- rewrite lookup_insert_eq, Ht. split; eauto.
        -- rewrite lookup_insert_ne by done. reflexivity.
      * intros t k. rewrite Hcell, (cell_insert w _ _ _ _ _ _ Ht).
        cbn [slot]. f_equal.
        destruct (decide (into s = t /\ k0 = k)) as [[<- <-]|Hno].
        -- rewrite decide_True by (split; [reflexivity|exact Hkey]).
           unfold cell. rewrite Ht. symmetry. exact Hw.
        -- rewrite decide_False; [reflexivity|].
           intros [? Hk']. rewrite Hkey in Hk'. injection Hk' as ->. tauto.
    + apply (IH _ H).
Qed.

Lemma apply_ops_total (ops : list op) (w1 w1' w2 : database) :
  Forall op_known ops ->
  apply_ops engine ops w1 = Ok w1' ->
  (forall t, is_Some (w1 !! t) -> is_Some (w2 !! t)) ->
  exists w2', apply_ops engine ops w2 = Ok w2'.
Proof.
  intros Hk. revert w1 w2. induction Hk as [|o ops Ho _ IH]; intros w1 w2 H Hdom.
  - eexists. reflexivity.
  - cbn [apply_ops] in *. unfold mbind, result_bind in *.
    destruct o as [s ps|e|m]; cbn [apply_op] in *; [|discriminate|].
    + destruct (exec_insert engine s ps w1) as [w3|e] eqn:E; [|discriminate].
      destruct (exec_insert_ok engine s ps w1 w3 Ho E)
        as (k0 & tbl & r & Herr & Hkey & Ht & _ & ->).
      destruct (exec_insert_stored engine s ps w1 _ Ho E) as [new Hnew].
      destruct (exec_insert_total engine s ps w2 k0 new Ho Herr Hkey Hnew)
        as [w4 E2].
      { apply Hdom. eauto. }
      rewrite E2. apply (IH _ _ H).
      destruct (exec_insert_ok engine s ps w2 w4 Ho E2)
        as (k1 & tbl1 & r1 & _ & _ & Ht1 & _ & ->).
      intros t. destruct (decide (into s = t)) as [<-|Hne].
      * rewrite !lookup_insert_eq. eauto.
      * rewrite !lookup_insert_ne by done. apply Hdom.
    + apply (IH _ _ H Hdom).
Qed.

Lemma known_kind (s : insert) :
  In s INSERTS ->
  (into s = "war_news" /\ on_conflict s = DoNothing) \/
  (into s <> "war_news" /\ exists set_cols, on_conflict s = DoUpdate set_cols).
Proof.
  intros H.
  repeat (destruct H as [<-|H];
          [first [left; split; [reflexivity|reflexivity]
                 |right; split; [discriminate|eexists; reflexivity]]|]).
  destruct H.
Qed.

(** On war_news a plan only ever fills empty slots. *)
Lemma slot_insert_only (ops : list op) (k : Z) :
  Forall op_known ops ->
  exists x, forall o,
    slot engine ops "war_news" k o = match o with Some r => Some r | None => x end.
Proof.
  induction 1 as [|o ops Ho _ [x IH]].
  - exists None. intros []; reflexivity.
  - destruct o as [s ps|e|m]; cbn [slot]; [|exists x; exact IH..].
    destruct (decide (targets engine s ps "war_news" k)) as [[Ht _]|_];
      [|exists x; exact IH].
    destruct (known_kind s Ho) as [[_ Hc]|[Hne _]]; [|contradiction].
    exists (match stored_row engine s ps with Ok new => Some new | Raise _ => x end).
    intros o. rewrite IH.
    unfold write. rewrite Hc.
    destruct (stored_row engine s ps), o; reflexivity.
Qed.

(** On the other relations a plan overwrites the slots it touches. *)
Lemma slot_overwrite (ops : list op) (t : string) (k : Z) :
  Forall op_known ops ->
  t <> "war_news" ->
  exists x, forall o,
    slot engine ops t k o = match x with Some r => Some r | None => o end.
Proof.
  intros Hk Hne. induction Hk as [|o ops Ho _ [x IH]].
  - exists None. reflexivity.
  - destruct o as [s ps|e|m]; cbn [slot]; [|exists x; exact IH..].
    destruct (decide (targets engine s ps t k)) as [[Ht _]|_];
      [|exists x; exact IH].
    destruct (known_kind s Ho) as [[Hn _]|[_ [cs Hc]]]; [congruence|].
    exists (match x, stored_row engine s ps with
            | Some r, _ => Some r
            | None, Ok new => Some new
            | None, Raise _ => None
            end).
    intros o. rewrite IH. unfold write. rewrite Hc.
    destruct x, (stored_row engine s ps), o; reflexivity.
Qed.

Lemma slot_idempotent (ops : list op) (t : string) (k : Z) (o : option row) :
  Forall op_known ops ->
  slot engine ops t k (slot engine ops t k o) = slot engine ops t k o.
Proof.
  intros Hk. destruct (decide (t = "war_news")) as [->|Hne].
  - destruct (slot_insert_only ops k Hk) as [x Hx].
    rewrite !Hx. destruct o, x; reflexivity.
  - destruct (slot_overwrite ops t k Hk Hne) as [x Hx].
    rewrite !Hx. destruct x; reflexivity.
Qed.

(** A slot is never emptied. *)
Lemma slot_is_Some (ops : list op) (t : string) (k : Z) (o : option row) :
  is_Some o -> is_Some (slot engine ops t k o).
Proof.
  revert o. induction ops as [|[s ps|e|m] ops IH]; intros o Ho; cbn [slot];
    [exact Ho|apply IH|apply IH; exact Ho..].
  destruct (decide (targets engine s ps t k)); [|exact Ho].
  unfold write. destruct (stored_row engine s ps), o, (on_conflict s); eauto.
Qed.

Lemma written_keys_insert (s : insert) (ps : list param) (ops : list op)
    (t : string) (k : Z) :
  k ∈ written_keys engine (OpInsert s ps :: ops) t <->
  targets engine s ps t k \/ k ∈ written_keys engine ops t.
Proof.
  unfold written_keys, targets. rewrite !list_elem_of_omap. split.
  - intros (o & Ho & Hf). apply elem_of_cons in Ho as [->|Ho].
    + left. unfold op_key in Hf. case_decide; [tauto | discriminate].
    + right. eauto.
  - intros [[Ht Hk]|(o & Ho & Hf)].
    + exists (OpInsert s ps). split; [left|].
      unfold op_key. rewrite decide_True by exact Ht. exact Hk.
    + exists o. split; [right; exact Ho | exact Hf].
Qed.

(** A slot whose key the plan does not write under keeps its content. *)
Lemma slot_frame (ops : list op) (t : string) (k : Z) (o : option row) :
  k ∉ written_keys engine ops t -> slot engine ops t k o = o.
Proof.
  revert o. induction ops as [|[s ps|e|m] ops IH]; intros o Hk; cbn [slot];
    [reflexivity| |apply IH; exact Hk..].
  rewrite written_keys_insert in Hk.
  destruct (decide (targets engine s ps t k)) as [Ht|_]; [tauto|].
  apply IH. tauto.
Qed.

End Plans.

(** ** The transaction of a run *)

Lemma section_ops_known (s : insert) (msg : string)
    (rows : result (list (result (list param)))) :
  In s INSERTS -> Forall op_known (section_ops s msg rows).
Proof.
  intros Hs. destruct rows as [rs|e]; cbn [section_ops].
  - apply Forall_app. split.
    + apply Forall_forall. intros o Ho. apply list_elem_of_fmap in Ho as (r & -> & _).
      destruct r; [exact Hs | exact I].
    + repeat constructor.
  - repeat constructor.
Qed.

Lemma plan_known (py_int : string -> result Z) (data : pydict) :
  Forall op_known (plan py_int data).
Proof.
  unfold plan, war_status_ops, war_info_ops, war_news_ops, war_campaign_ops,
    war_major_orders_ops, planets_ops.
  repeat (apply Forall_app; split);
    (destruct (present data _); [|constructor]);
    apply section_ops_known; cbn; tauto.
Qed.

Section Schema.

Variable engine : db_engine.

Lemma cell_create_if_absent (c : create_table) (w : database) (t : string)
    (k : Z) :
  cell (create_if_absent c w) t k = cell w t k.
Proof.
  unfold create_if_absent. destruct (w !! ct_name c) eqn:E; [reflexivity|].
  unfold cell. destruct (decide (ct_name c = t)) as [<-|Hne].
  - rewrite lookup_insert_eq, E. apply lookup_empty.
  - rewrite lookup_insert_ne by done. reflexivity.
Qed.

Lemma dom_create_if_absent (c : create_table) (w : database) (t : string) :
  is_Some (create_if_absent c w !! t) <-> is_Some (w !! t) \/ t = ct_name c.
Proof.
  unfold create_if_absent. destruct (w !! ct_name c) eqn:E.
  - split; [tauto|]. intros [H| ->]; [exact H | rewrite E; eauto].
  - destruct (decide (ct_name c = t)) as [<-|Hne].
    + rewrite lookup_insert_eq. split; eauto.
    + rewrite lookup_insert_ne by done. split; [tauto|].
      intros [H| ->]; [exact H | contradiction].
Qed.

Lemma create_all_ok (cs : list create_table) (db w : database) :
  create_all engine cs db = Ok w ->
  (forall t k, cell w t k = cell db t k) /\
  (forall t, is_Some (w !! t) <-> is_Some (db !! t) \/ t ∈ map ct_name cs) /\
  Forall (fun c => ddl_error engine c = None) cs.
Proof.
  revert db. induction cs as [|c cs IH]; intros db H.
  - injection H as <-. repeat split; [tauto | | constructor].
    intros [H|H]; [exact H | inversion H].
  - cbn [create_all] in H. unfold mbind, result_bind, exec_create in H.
    destruct (ddl_error engine c) eqn:E; [discriminate|].
    destruct (IH _ H) as (Hcell & Hdom & Hall). repeat split.
    + intros t k. rewrite Hcell. apply cell_create_if_absent.
    + rewrite Hdom, dom_create_if_absent. cbn [map]. rewrite elem_of_cons. tauto.
    + rewrite Hdom, dom_create_if_absent. cbn [map]. rewrite elem_of_cons. tauto.
    + constructor; assumption.
Qed.

Lemma create_all_again (cs : list create_table) (w : database) :
  Forall (fun c => ddl_error engine c = None) cs ->
  (forall t, t ∈ map ct_name cs -> is_Some (w !! t)) ->
  create_all engine cs w = Ok w.
Proof.
  intros Hall Hw. induction Hall as [|c cs Hc _ IH]; [reflexivity|].
  cbn [create_all]. unfold mbind, result_bind, exec_create. rewrite Hc.
  unfold create_if_absent.
  destruct (Hw (ct_name c)) as [tbl ->]; [cbn [map]; left|].
  apply IH. intros t Ht. apply Hw. cbn [map]. right. exact Ht.
Qed.

End Schema.

Section Transaction.

Variable py_int : string -> result Z.
Variable engine : db_engine.

Lemma transaction_ok (data : pydict) (db w : database) :
  transaction py_int engine data db = Ok w ->
  exists w1, create_all engine SCHEMA db = Ok w1 /\
             apply_ops engine (plan py_int data) w1 = Ok w /\
             commit_error engine = None.
Proof.
  unfold transaction, mbind, result_bind. intros H.
  destruct (create_all engine SCHEMA db) as [w1|]; [|discriminate].
  destruct (apply_ops engine (plan py_int data) w1) as [w2|] eqn:Ha; [|discriminate].
  destruct (commit_error engine); [discriminate|].
  injection H as <-. exists w1. repeat split. exact Ha.
Qed.

(** The rows after a committed run, slot by slot, and its relations. *)

Lemma transaction_cells (data : pydict) (db w : database) :
  transaction py_int engine data db = Ok w ->
  (forall t k, cell w t k = slot engine (plan py_int data) t k (cell db t k)) /\
  (forall t, is_Some (w !! t) <-> is_Some (db !! t) \/ t ∈ relations).
Proof.
  intros H. destruct (transaction_ok data db w H) as (w1 & Hc & Ha & _).
  destruct (create_all_ok engine _ _ _ Hc) as (Hcell1 & Hdom1 & _).
  destruct (apply_ops_cells engine _ _ _ (plan_known py_int data) Ha)
    as (Hdom2 & Hcell2).
  split.
  - intros t k. rewrite Hcell2, Hcell1. reflexivity.
  - intros t. rewrite Hdom2, Hdom1. reflexivity.
Qed.

(** A run that committed commits the same contents again. *)

Lemma transaction_idempotent (data : pydict) (db w : database) :
  transaction py_int engine data db = Ok w ->
  transaction py_int engine data w = Ok w.
Proof.
  intros H. destruct (transaction_cells data db w H) as (Hcell & Hdom).
  destruct (transaction_ok data db w H) as (w1 & Hc & Ha & Hcommit).
  destruct (create_all_ok engine _ _ _ Hc) as (_ & Hdom1 & Hddl).
  destruct (apply_ops_cells engine _ _ _ (plan_known py_int data) Ha) as (Hdom2 & _).
  assert (Hagain : create_all engine SCHEMA w = Ok w).
  { apply (create_all_again engine); [exact Hddl|].
    intros t Ht. apply Hdom. right. exact Ht. }
  destruct (apply_ops_total engine (plan py_int data) w1 w w
              (plan_known py_int data) Ha)
    as [w2 Ha2].
  { intros t. rewrite Hdom2. tauto. }
  destruct (apply_ops_cells engine _ _ _ (plan_known py_int data) Ha2)
    as (Hdom3 & Hcell3).
  assert (w2 = w) as ->.
  { apply database_ext; [exact Hdom3|].
    intros t k. rewrite Hcell3, Hcell.
    apply slot_idempotent, plan_known. }
  unfold transaction, mbind, result_bind. rewrite Hagain, Ha2, Hcommit. reflexivity.
Qed.

End Transaction.

(** ** Plans that fail, plans that go through *)

Section Failures.

Variable engine : db_engine.

Lemma apply_ops_app (a b : list op) (w : database) :
  apply_ops engine (a ++ b) w =
  match apply_ops engine a w with
  | Ok w1 => apply_ops engine b w1
  | Raise e => Raise e
  end.
Proof.
  revert w. induction a as [|o a IH]; intros w; [reflexivity|].
  cbn [app apply_ops]. unfold mbind, result_bind.
  destruct (apply_op engine o w); [apply IH | reflexivity].
Qed.

Lemma exec_insert_fails (s : insert) (ps : list param) (w : database) :
  op_fails engine (OpInsert s ps) ->
  exists e, exec_insert engine s ps w = Raise e.
Proof.
  intros [He|[Hk|[e0 Hr]]]; unfold exec_insert.
  - destruct (dml_error engine s ps) as [e|]; [eauto | contradiction].
  - destruct (dml_error engine s ps) as [e|]; [eauto|].
    unfold insert_key in Hk.
    destruct (w !! into s); [|eauto].
    destruct (find_table (into s)) as [decl|]; [|eauto].
    unfold mbind, result_bind.
    destruct (key_of engine _) as [k|e]; [discriminate | eauto].
  - destruct (dml_error engine s ps) as [e|]; [eauto|].
    unfold stored_row in Hr.
    destruct (w !! into s); [|eauto].
    destruct (find_table (into s)) as [decl|]; [|eauto].
    unfold mbind, result_bind.
    destruct (key_of engine _) as [k|e]; [|eauto].
    rewrite Hr. eauto.
Qed.

(** A plan with an operation that cannot go through raises. *)
Lemma apply_ops_fails (ops : list op) (o : op) (w : database) :
  In o ops -> op_fails engine o -> exists e, apply_ops engine ops w = Raise e.
Proof.
  revert w. induction ops as [|o' ops IH]; intros w Hin Hf; [destruct Hin|].
  cbn [apply_ops]. unfold mbind, result_bind.
  destruct (apply_op engine o' w) as [w1|e] eqn:E; [|eauto].
  destruct Hin as [->|Hin]; [|apply (IH _ Hin Hf)].
  destruct o as [s ps|e|m]; cbn [apply_op] in E.
  - destruct (exec_insert_fails s ps w Hf) as [e He]. congruence.
  - discriminate.
  - destruct Hf.
Qed.

Lemma ops_log_app (a b : list op) :
  ops_log (a ++ b) = (ops_log a ++ ops_log b)%list.
Proof. apply omap_app. Qed.

Lemma ops_log_rows (s : insert) (rs : list (result (list param))) :
  ops_log (map (op_of_row s) rs) = [].
Proof.
  induction rs as [|[ps|e] rs IH]; [reflexivity|exact IH..].
Qed.

Lemma section_ops_log (s : insert) (msg : string)
    (rows : result (list (result (list param)))) (w w' : database) :
  apply_ops engine (section_ops s msg rows) w = Ok w' ->
  ops_log (section_ops s msg rows) = [(INFO, msg)].
Proof.
  destruct rows as [rs|e]; cbn [section_ops]; [|discriminate].
  intros _. rewrite ops_log_app, ops_log_rows. reflexivity.
Qed.

Lemma section_ops_log_if (b : bool) (s : insert) (msg : string)
    (rows : result (list (result (list param)))) (w w' : database) :
  apply_ops engine (if b then section_ops s msg rows else []) w = Ok w' ->
  ops_log (if b then section_ops s msg rows else []) =
  if b then [(INFO, msg)] else [].
Proof. destruct b; [apply section_ops_log | reflexivity]. Qed.

Lemma create_all_total (cs : list create_table) (db : database) :
  Forall (fun c => ddl_error engine c = None) cs ->
  exists w, create_all engine cs db = Ok w.
Proof.
  intros H. revert db. induction H as [|c cs Hc _ IH]; intros db.
  - eexists. reflexivity.
  - cbn [create_all]. unfold mbind, result_bind, exec_create. rewrite Hc.
    apply IH.
Qed.

Lemma table_ext (w w' : database) (t : string) :
  (is_Some (w' !! t) <-> is_Some (w !! t)) ->
  (forall k, cell w' t k = cell w t k) ->
  w' !! t = w !! t.
Proof.
  intros Hdom Hcell. unfold cell in Hcell.
  destruct (w' !! t) as [tbl'|], (w !! t) as [tbl|].
  - f_equal. apply map_eq. exact Hcell.
  - destruct Hdom as [H _]. destruct H; eauto; discriminate.
  - destruct Hdom as [_ H]. destruct H; eauto; discriminate.
  - reflexivity.
Qed.

Lemma slot_other_relation (ops : list op) (t : string) (k : Z)
    (o : option row) :
  Forall op_known ops -> t ∉ relations -> slot engine ops t k o = o.
Proof.
  intros Hk Ht. apply slot_frame. intros Hin.
  unfold written_keys in Hin. apply list_elem_of_omap in Hin as (x & Hx & Hkey).
  rewrite Forall_forall in Hk. specialize (Hk x Hx).
  destruct x as [s ps|e|m]; try discriminate. cbn [op_key op_known] in *.
  case_decide as Hs; [|discriminate]. apply Ht. subst t.
  apply list_elem_of_In.
  repeat (destruct Hk as [<-|Hk]; [cbn; tauto|]). destruct Hk.
Qed.

End Failures.

Section MorePlans.

Variable py_int : string -> result Z.
Variable engine : db_engine.

Lemma transaction_fails (data : pydict) (db : database) (o : op) :
  In o (plan py_int data) -> op_fails engine o ->
  exists e, transaction py_int engine data db = Raise e.
Proof.
  intros Hin Hf. unfold transaction, mbind, result_bind.
  destruct (create_all engine SCHEMA db) as [w|e]; [|eauto].
  destruct (apply_ops_fails engine (plan py_int data) o w Hin Hf) as [e ->]. eauto.
Qed.

(** Once connected, [store_data] has committed what [transaction] computes
    and returns [None], or it has committed nothing; it has then logged the
    error and returns [None], unless the rollback raised. *)
Lemma store_data_connected (data : pydict) (st : state) :
  connect_error engine = None ->
  match transaction py_int engine data (disk st) with
  | Ok w =>
      store_data py_int engine data st =
      (Ok PNone,
       State w None
         (log st ++ ops_log (plan py_int data) ++ [(INFO, "All data stored successfully.")]))
  | Raise e =>
      exists l, store_data py_int engine data st =
                match rollback_error engine with
                | None => (Ok PNone, State (disk st) None (l ++ [error_record e]))
                | Some e' => (Raise e', State (disk st) None l)
                end
  end.
Proof.
  intros Hc.
  pose proof (store_body_connected py_int engine data (disk st) (log st) Hc) as H.
  destruct (transaction py_int engine data (disk st)) as [w|e].
  - rewrite (store_data_returned py_int engine data st _ H). reflexivity.
  - destruct H as (w & l & H). exists l.
    rewrite (store_data_caught py_int engine data st _ e Hc H). reflexivity.
Qed.

(** A run with an operation that cannot go through commits nothing; when
    the connection and the rollback work, it logs the error and returns. *)
Lemma store_data_fails (data : pydict) (st : state) (o : op) :
  In o (plan py_int data) -> op_fails engine o ->
  disk (snd (store_data py_int engine data st)) = disk st /\
  (connect_error engine = None -> rollback_error engine = None ->
   exists l e, store_data py_int engine data st =
               (Ok PNone, State (disk st) None (l ++ [error_record e]))).
Proof.
  intros Hin Hf.
  destruct (transaction_fails data (disk st) o Hin Hf) as [e He].
  split.
  - rewrite store_data_disk, He. destruct (connect_error engine); reflexivity.
  - intros Hc Hr. pose proof (store_data_connected data st Hc) as H.
    rewrite He, Hr in H. destruct H as [l H]. eauto.
Qed.

Lemma plan_log (data : pydict) (w w' : database) :
  apply_ops engine (plan py_int data) w = Ok w' ->
  ops_log (plan py_int data) = section_records data.
Proof.
  unfold plan, section_records, SECTION_RECORDS. cbn [flat_map fst snd].
  unfold war_status_ops, war_info_ops, war_news_ops, war_campaign_ops,
    war_major_orders_ops, planets_ops. cbv zeta.
  rewrite !ops_log_app. intros H.
  repeat (rewrite apply_ops_app in H;
          match type of H with
          | match apply_ops engine ?a ?w with _ => _ end = _ =>
              let E := fresh "E" in
              destruct (apply_ops engine a w) eqn:E; [|discriminate H]
          end).
  repeat match goal with
         | E : apply_ops engine (if ?b then section_ops ?s ?m ?r else []) ?w0 = Ok ?w1
           |- _ => rewrite (section_ops_log_if engine b s m r w0 w1 E); clear E
         end.
  rewrite app_nil_r. reflexivity.
Qed.

Lemma store_body_returned (data : pydict) (st st' : state) :
  store_body py_int engine data (State (disk st) None (log st)) = (Ok (), st') ->
  connect_error engine = None /\
  exists w, transaction py_int engine data (disk st) = Ok w /\
            st' = State w (Some w)
                    (log st ++ section_records data
                       ++ [(INFO, "All data stored successfully.")]).
Proof.
  intros Hb. destruct (connect_error engine) as [e|] eqn:Hc.
  { rewrite (store_body_unconnected py_int engine data _ e Hc) in Hb.
    discriminate Hb. }
  split; [reflexivity|].
  pose proof (store_body_connected py_int engine data (disk st) (log st) Hc) as H.
  destruct (transaction py_int engine data (disk st)) as [w|e] eqn:Ht.
  - exists w. split; [reflexivity|]. rewrite H in Hb. injection Hb as <-.
    destruct (transaction_ok py_int engine data _ _ Ht) as (w1 & _ & Ha & _).
    rewrite (plan_log data _ _ Ha). reflexivity.
  - destruct H as (w & l & H). rewrite H in Hb. discriminate Hb.
Qed.

End MorePlans.

(** ** From the payload to the plan *)

Lemma written_keys_app (engine : db_engine) (a b : list op) (t : string) :
  written_keys engine (a ++ b) t =
  (written_keys engine a t ++ written_keys engine b t)%list.
Proof. apply omap_app. Qed.

Lemma written_keys_rows (engine : db_engine) (s : insert)
    (rs : list (result (list param))) (t : string) (k : Z) :
  k ∈ written_keys engine (map (op_of_row s) rs) t ->
  into s = t /\ exists ps, Ok ps ∈ rs /\ insert_key engine s ps = Some k.
Proof.
  unfold written_keys. rewrite list_elem_of_omap.
  intros (o & Ho & Hk). apply list_elem_of_fmap in Ho as (r & -> & Hr).
  destruct r as [ps|e]; [|discriminate]. cbn [op_of_row op_key] in Hk.
  case_decide; [|discriminate]. eauto.
Qed.

Lemma written_keys_section (engine : db_engine) (s : insert) (msg : string)
    (rows : result (list (result (list param)))) (t : string) (k : Z) :
  k ∈ written_keys engine (section_ops s msg rows) t ->
  into s = t /\
  exists rs ps, rows = Ok rs /\ Ok ps ∈ rs /\ insert_key engine s ps = Some k.
Proof.
  destruct rows as [rs|e]; cbn [section_ops].
  - rewrite written_keys_app, elem_of_app. intros [H|H].
    + apply written_keys_rows in H as (Ht & ps & Hps & Hk). eauto 10.
    + cbn in H. inversion H.
  - intros H. cbn in H. inversion H.
Qed.

Lemma slot_app (engine : db_engine) (a b : list op) (t : string) (k : Z)
    (o : option row) :
  slot engine (a ++ b) t k o = slot engine b t k (slot engine a t k o).
Proof.
  revert o. induction a as [|[s ps|e|m] a IH]; intros o; cbn [app slot];
    [reflexivity | apply IH..].
Qed.

Lemma in_written_keys (engine : db_engine) (ops : list op) (s : insert)
    (ps : list param) (k : Z) :
  In (OpInsert s ps) ops -> insert_key engine s ps = Some k ->
  k ∈ written_keys engine ops (into s).
Proof.
  intros Hin Hk. unfold written_keys. apply list_elem_of_omap.
  exists (OpInsert s ps). split; [apply list_elem_of_In, Hin|].
  cbn [op_key]. rewrite decide_True by reflexivity. exact Hk.
Qed.

Lemma apply_ops_no_failure (engine : db_engine) (ops : list op) (o : op)
    (w w' : database) :
  apply_ops engine ops w = Ok w' -> In o ops -> ~ op_fails engine o.
Proof.
  intros Ha Hin Hf.
  destruct (apply_ops_fails engine ops o w Hin Hf) as [e He]. congruence.
Qed.

(** In a plan that goes through, the engine has accepted the values of
    every statement. *)
Lemma apply_ops_stored (engine : db_engine) (ops : list op) (w w' : database)
    (s : insert) (ps : list param) :
  apply_ops engine ops w = Ok w' ->
  In (OpInsert s ps) ops ->
  dml_error engine s ps = None /\
  (exists k, insert_key engine s ps = Some k) /\
  (exists new, stored_row engine s ps = Ok new).
Proof.
  intros Ha Hin. pose proof (apply_ops_no_failure engine _ _ _ _ Ha Hin) as Hnf.
  cbn [op_fails] in Hnf.
  destruct (dml_error engine s ps) eqn:E1; [destruct Hnf; left; discriminate|].
  destruct (insert_key engine s ps) eqn:E2; [|tauto].
  destruct (stored_row engine s ps) eqn:E3; [eauto 10|].
  destruct Hnf. right. right. eauto.
Qed.

(** A key that a plan writes under is stored afterwards, when the engine
    accepts the values of its statements. *)
Lemma slot_written (engine : db_engine) (ops : list op) (t : string) (k : Z)
    (o : option row) :
  (forall s ps, In (OpInsert s ps) ops ->
                exists new, stored_row engine s ps = Ok new) ->
  k ∈ written_keys engine ops t -> is_Some (slot engine ops t k o).
Proof.
  revert o. induction ops as [|[s ps|e|m] ops IH]; intros o Hok Hk; cbn [slot].
  - inversion Hk.
  - apply written_keys_insert in Hk as [Hk|Hk].
    + rewrite decide_True by exact Hk. apply slot_is_Some.
      destruct (Hok s ps (or_introl eq_refl)) as [new Hnew].
      unfold write. rewrite Hnew. destruct o, (on_conflict s); eauto.
    + apply IH; [|exact Hk]. intros s' ps' H. apply Hok. right. exact H.
  - apply IH; [|exact Hk]. intros s' ps' H. apply Hok. right. exact H.
  - apply IH; [|exact Hk]. intros s' ps' H. apply Hok. right. exact H.
Qed.

Lemma dict_item_get (data : pydict) (key : string) (v : pyval) :
  dict_item data key = v -> v <> PNone -> dict_get data key = Some v.
Proof.
  unfold dict_item. destruct (dict_get data key); intros <- H; [reflexivity|].
  contradiction.
Qed.

Lemma present_item (data : pydict) (key : string) (v : pyval) :
  dict_item data key = v -> truthy v = true -> present data key = true.
Proof.
  intros Hv Ht. unfold present, dict_contains.
  rewrite (dict_item_get data key v Hv), Hv by (intros ->; discriminate Ht).
  exact Ht.
Qed.

Lemma in_plan (py_int : string -> result Z) (data : pydict) (o : op) :
  In o (war_status_ops data) \/ In o (war_info_ops data) \/
  In o (war_news_ops data) \/ In o (war_campaign_ops data) \/
  In o (war_major_orders_ops data) \/ In o (planets_ops py_int data) ->
  In o (plan py_int data).
Proof. unfold plan. rewrite !in_app_iff. tauto. Qed.

Lemma in_section_rows {A} (s : insert) (msg : string)
    (b : A -> result (list param)) (items : list A) (item : A) :
  In item items ->
  In (op_of_row s (b item)) (section_ops s msg (Ok (map b items))).
Proof.
  intros H. cbn [section_ops]. apply in_or_app. left.
  apply in_map, in_map, H.
Qed.

Lemma truthy_dict (d : pydict) (f : string) (v : pyval) :
  dict_get d f = Some v -> truthy (PDict d) = true.
Proof. destruct d; [discriminate | reflexivity]. Qed.

Lemma truthy_list (l : list pyval) (x : pyval) :
  In x l -> truthy (PList l) = true.
Proof. destruct l; [intros [] | reflexivity]. Qed.

(** Each record of the payload is an operation of the plan: the statement of
    its relation with the record's parameters, or the exception that
    building them raises. *)
Lemma records_in_plan (py_int : string -> result Z) (data : pydict)
    (t : string) (item : pyval) :
  In item (payload_records data t) ->
  In (relation_insert t) INSERTS /\ into (relation_insert t) = t /\
  In (op_of_row (relation_insert t) (record_params data t item)) (plan py_int data).
Proof.
  unfold payload_records, relation_insert, record_params, envelope_get.
  destruct (String.eqb t "war_status") eqn:E1;
    [apply String.eqb_eq in E1 as ->
    |destruct (String.eqb t "war_info") eqn:E2;
     [apply String.eqb_eq in E2 as ->
     |destruct (String.eqb t "war_news") eqn:E3;
      [apply String.eqb_eq in E3 as ->
      |destruct (String.eqb t "war_campaign") eqn:E4;
       [apply String.eqb_eq in E4 as ->
       |destruct (String.eqb t "war_major_orders") eqn:E5;
        [apply String.eqb_eq in E5 as -> | intros []]]]]].
  - destruct (dict_item data "status") as [| | | | | |d] eqn:Ed; try (intros []; fail).
    destruct (dict_get d "planetStatus") as [[| | | | |l|]|] eqn:El;
      try (intros []; fail).
    intros Hin. split; [cbn; tauto|]. split; [reflexivity|].
    apply in_plan. left. unfold war_status_ops.
    rewrite (present_item data "status" _ Ed (truthy_dict _ _ _ El)), Ed.
    unfold py_get at 1 2 3 4 5, mbind at 1 2 3 4 5, result_bind at 1 2 3 4 5.
    rewrite El. apply (in_section_rows _ _ _ l item Hin).
  - destruct (dict_item data "info") as [| | | | | |d] eqn:Ed; try (intros []; fail).
    destruct (dict_get d "planetInfos") as [[| | | | |l|]|] eqn:El;
      try (intros []; fail).
    intros Hin. split; [cbn; tauto|]. split; [reflexivity|].
    apply in_plan. right. left. unfold war_info_ops.
    rewrite (present_item data "info" _ Ed (truthy_dict _ _ _ El)), Ed.
    unfold py_get at 1 2 3 4 5, mbind at 1 2 3 4 5, result_bind at 1 2 3 4 5.
    rewrite El. apply (in_section_rows _ _ _ l item Hin).
  - destruct (dict_item data "news") as [| | | | |l|] eqn:Ed; try (intros []; fail).
    intros Hin. split; [cbn; tauto|]. split; [reflexivity|].
    apply in_plan. do 2 right. left. unfold war_news_ops.
    rewrite (present_item data "news" _ Ed (truthy_list _ _ Hin)), Ed.
    apply (in_section_rows _ _ _ l item Hin).
  - destruct (dict_item data "campaign") as [| | | | |l|] eqn:Ed; try (intros []; fail).
    intros Hin. split; [cbn; tauto|]. split; [reflexivity|].
    apply in_plan. do 3 right. left. unfold war_campaign_ops.
    rewrite (present_item data "campaign" _ Ed (truthy_list _ _ Hin)), Ed.
    apply (in_section_rows _ _ _ l item Hin).
  - destruct (dict_item data "major_orders") as [| | | | |l|] eqn:Ed;
      try (intros []; fail).
    intros Hin. split; [cbn; tauto|]. split; [reflexivity|].
    apply in_plan. do 4 right. left. unfold war_major_orders_ops.
    rewrite (present_item data "major_orders" _ Ed (truthy_list _ _ Hin)), Ed.
    apply (in_section_rows _ _ _ l item Hin).
Qed.

Lemma planets_in_plan (py_int : string -> result Z) (data : pydict)
    (entry : string * pyval) :
  In entry (payload_planets data) ->
  In (op_of_row insert_planets (planets_params py_int entry)) (plan py_int data).
Proof.
  unfold payload_planets.
  destruct (dict_item data "planets") as [| | | | | |d] eqn:Ed; try (intros []; fail).
  intros Hin. apply in_plan. do 5 right. unfold planets_ops.
  assert (Ht : truthy (PDict d) = true) by (destruct d; [destruct Hin | reflexivity]).
  rewrite (present_item data "planets" _ Ed Ht), Ed.
  apply (in_section_rows _ _ _ d entry Hin).
Qed.

(** Each tuple of the payload is an operation of the plan: its statement,
    or the exception that building it raised. *)
Lemma rows_in_plan (py_int : string -> result Z) (data : pydict) (t : string)
    (r : result (list param)) :
  In r (payload_rows py_int data t) ->
  In (relation_insert t) INSERTS /\ into (relation_insert t) = t /\
  In (op_of_row (relation_insert t) r) (plan py_int data).
Proof.
  unfold payload_rows. destruct (String.eqb t "planets") eqn:E.
  - apply String.eqb_eq in E as ->. intros H.
    apply in_map_iff in H as (entry & <- & Hin).
    split; [cbn; tauto|]. split; [reflexivity|].
    apply planets_in_plan, Hin.
  - intros H. apply in_map_iff in H as (item & <- & Hin).
    apply records_in_plan, Hin.
Qed.

(** No builder makes a tuple of a record that is not an object. *)
Lemma record_params_non_dict (data : pydict) (t : string) (item : pyval) :
  is_dict item = false -> exists e, record_params data t item = Raise e.
Proof.
  intros H. unfold record_params.
  destruct item; try discriminate H;
    repeat match goal with
           | |- context [if ?b then _ else _] => destruct b
           end;
    eexists; reflexivity.
Qed.

Lemma section_inserts (s s' : insert) (msg : string)
    (rows : result (list (result (list param)))) (ps : list param) :
  In (OpInsert s' ps) (section_ops s msg rows) ->
  s' = s /\ exists rs, rows = Ok rs /\ In (Ok ps) rs.
Proof.
  destruct rows as [rs|e]; cbn [section_ops].
  - rewrite in_app_iff. intros [H|[H|[]]]; [|discriminate H].
    apply in_map_iff in H as ([ps'|e] & Hr & Hin); [|discriminate Hr].
    injection Hr as <- <-. eauto.
  - intros [H|[]]. discriminate H.
Qed.

Lemma iter_rows (b : pyval -> result (list param)) (v : pyval)
    (rs : list (result (list param))) (ps : list param) :
  (forall s, exists e, b (PStr s) = Raise e) ->
  (items ← py_iter v; mret (map b items)) = Ok rs ->
  In (Ok ps) rs ->
  exists l, v = PList l /\ In (Ok ps) (map b l).
Proof.
  intros Hb Hrs Hin. unfold mbind, result_bind in Hrs.
  destruct v as [| | | |s|l|d]; try discriminate Hrs;
    cbn [py_iter] in Hrs; injection Hrs as <-.
  - apply in_map_iff in Hin as (x & Hx & Hin).
    apply in_map_iff in Hin as (c & <- & _).
    destruct (Hb (String c EmptyString)) as [e He]. congruence.
  - eauto.
  - apply in_map_iff in Hin as (x & Hx & Hin).
    apply in_map_iff in Hin as (kv & <- & _).
    destruct (Hb (fst kv)) as [e He]. congruence.
Qed.

(** Every statement of the plan binds a tuple of the payload of its
    relation. *)
Lemma plan_inserts (py_int : string -> result Z) (data : pydict) (s : insert)
    (ps : list param) :
  In (OpInsert s ps) (plan py_int data) ->
  s = relation_insert (into s) /\ In (Ok ps) (payload_rows py_int data (into s)).
Proof.
  unfold plan. rewrite !in_app_iff.
  unfold war_status_ops, war_info_ops, war_news_ops, war_campaign_ops,
    war_major_orders_ops, planets_ops.
  intros [H|[H|[H|[H|[H|H]]]]];
    (destruct (present data _); [|destruct H]);
    apply section_inserts in H as (-> & rs & Hrs & Hin);
    (split; [reflexivity|]);
    unfold payload_rows, payload_records, record_params, envelope_get, payload_planets;
    cbn [into insert_war_status insert_war_info insert_war_news insert_war_campaign
           insert_war_major_orders insert_planets String.eqb Ascii.eqb Bool.eqb].
  - destruct (dict_item data "status") as [| | | | | |d]; try discriminate Hrs.
    unfold py_get at 1 2 3 4 5 in Hrs.
    unfold mbind at 1 2 3 4 5, result_bind at 1 2 3 4 5 in Hrs.
    eapply iter_rows in Hrs as (l & Hl & Hin');
      [|intros x; eexists; reflexivity|exact Hin].
    destruct (dict_get d "planetStatus") as [x|]; [subst x; exact Hin'|].
    injection Hl as <-. destruct Hin'.
  - destruct (dict_item data "info") as [| | | | | |d]; try discriminate Hrs.
    unfold py_get at 1 2 3 4 5 in Hrs.
    unfold mbind at 1 2 3 4 5, result_bind at 1 2 3 4 5 in Hrs.
    eapply iter_rows in Hrs as (l & Hl & Hin');
      [|intros x; eexists; reflexivity|exact Hin].
    destruct (dict_get d "planetInfos") as [x|]; [subst x; exact Hin'|].
    injection Hl as <-. destruct Hin'.
  - eapply iter_rows in Hrs as (l & -> & Hin');
      [exact Hin'|intros x; eexists; reflexivity|exact Hin].
  - eapply iter_rows in Hrs as (l & -> & Hin');
      [exact Hin'|intros x; eexists; reflexivity|exact Hin].
  - eapply iter_rows in Hrs as (l & -> & Hin');
      [exact Hin'|intros x; eexists; reflexivity|exact Hin].
  - unfold mbind, result_bind in Hrs.
    destruct (dict_item data "planets") as [| | | | | |d]; try discriminate Hrs.
    injection Hrs as <-. exact Hin.
Qed.

(** The plan writes only under keys that the engine reads in the payload. *)
Lemma written_keys_plan (py_int : string -> result Z) (engine : db_engine)
    (data : pydict) (t : string) (k : Z) :
  k ∈ written_keys engine (plan py_int data) t ->
  k ∈ engine_keys py_int engine data t.
Proof.
  unfold written_keys. rewrite list_elem_of_omap. intros (o & Ho & Hk).
  destruct o as [s ps|e|m]; try discriminate Hk. cbn [op_key] in Hk.
  case_decide as Ht; [|discriminate Hk]. apply list_elem_of_In in Ho.
  destruct (plan_inserts py_int data s ps Ho) as [Hs Hin]. subst t.
  unfold engine_keys. apply list_elem_of_omap.
  exists (Ok ps). split; [apply list_elem_of_In, Hin|].
  cbn [row_key]. rewrite <- Hs. exact Hk.
Qed.

Ltac other_sections :=
  let H := fresh "H" in
  intros ?k; rewrite ?written_keys_app, ?elem_of_app;
  unfold war_status_ops, war_info_ops, war_news_ops, war_campaign_ops,
    war_major_orders_ops, planets_ops;
  intros H;
  repeat match type of H with _ \/ _ => destruct H as [H|H] end;
  (destruct (present _ _);
   [apply written_keys_section in H as [H _]; discriminate H | inversion H]).

(** The plan around the section of a relation: the tuples of its payload
    and its log record, between operations that do not write to it. *)
Lemma plan_split (py_int : string -> result Z) (engine : db_engine)
    (data : pydict) (t : string) :
  payload_rows py_int data t <> [] ->
  exists A B msg,
    plan py_int data =
      (A ++ (map (op_of_row (relation_insert t)) (payload_rows py_int data t)
             ++ [OpLog msg]) ++ B)%list /\
    (forall k, k ∉ written_keys engine A t) /\
    (forall k, k ∉ written_keys engine B t).
Proof.
  unfold payload_rows, payload_planets.
  destruct (String.eqb t "planets") eqn:E0.
  { apply String.eqb_eq in E0 as ->.
    destruct (dict_item data "planets") as [| | | | | |d] eqn:Ed;
      try (intros []; reflexivity).
    intros Hne.
    exists (war_status_ops data ++ war_info_ops data ++ war_news_ops data
              ++ war_campaign_ops data ++ war_major_orders_ops data)%list,
      []. eexists.
    split; [|split; [other_sections | intros k Hk; inversion Hk]].
    unfold plan. rewrite app_nil_r, <- !app_assoc. do 5 f_equal.
    unfold planets_ops.
    assert (Ht : truthy (PDict d) = true)
      by (destruct d; [destruct Hne; reflexivity | reflexivity]).
    rewrite (present_item data "planets" _ Ed Ht), Ed. reflexivity. }
  unfold payload_records, relation_insert, record_params, envelope_get.
  destruct (String.eqb t "war_status") eqn:E1;
    [apply String.eqb_eq in E1 as ->
    |destruct (String.eqb t "war_info") eqn:E2;
     [apply String.eqb_eq in E2 as ->
     |destruct (String.eqb t "war_news") eqn:E3;
      [apply String.eqb_eq in E3 as ->
      |destruct (String.eqb t "war_campaign") eqn:E4;
       [apply String.eqb_eq in E4 as ->
       |destruct (String.eqb t "war_major_orders") eqn:E5;
        [apply String.eqb_eq in E5 as -> | intros []; reflexivity]]]]].
  - destruct (dict_item data "status") as [| | | | | |d] eqn:Ed;
      try (intros []; reflexivity).
    destruct (dict_get d "planetStatus") as [[| | | | |l|]|] eqn:El;
      try (intros []; reflexivity).
    intros Hne.
    exists [], (war_info_ops data ++ war_news_ops data ++ war_campaign_ops data
                  ++ war_major_orders_ops data ++ planets_ops py_int data)%list. eexists.
    split; [|split; [intros k Hk; inversion Hk | other_sections]].
    unfold plan. cbn [app]. f_equal. unfold war_status_ops.
    rewrite (present_item data "status" _ Ed (truthy_dict _ _ _ El)), Ed.
    unfold py_get at 1 2 3 4 5, mbind at 1 2 3 4 5, result_bind at 1 2 3 4 5.
    rewrite El. reflexivity.
  - destruct (dict_item data "info") as [| | | | | |d] eqn:Ed;
      try (intros []; reflexivity).
    destruct (dict_get d "planetInfos") as [[| | | | |l|]|] eqn:El;
      try (intros []; reflexivity).
    intros Hne.
    exists (war_status_ops data),
      (war_news_ops data ++ war_campaign_ops data
         ++ war_major_orders_ops data ++ planets_ops py_int data)%list. eexists.
    split; [|split; other_sections].
    unfold plan. do 2 f_equal. unfold war_info_ops.
    rewrite (present_item data "info" _ Ed (truthy_dict _ _ _ El)), Ed.
    unfold py_get at 1 2 3 4 5, mbind at 1 2 3 4 5, result_bind at 1 2 3 4 5.
    rewrite El. reflexivity.
  - destruct (dict_item data "news") as [| | | | |l|] eqn:Ed;
      try (intros []; reflexivity).
    intros Hne.
    exists (war_status_ops data ++ war_info_ops data)%list,
      (war_campaign_ops data ++ war_major_orders_ops data ++ planets_ops py_int data)%list. eexists.
    split; [|split; other_sections].
    unfold plan. rewrite <- !app_assoc. do 2 f_equal.
    rewrite (app_assoc _ [OpLog _] _). f_equal.
    unfold war_news_ops.
    assert (Ht : truthy (PList l) = true)
      by (destruct l; [destruct Hne; reflexivity | reflexivity]).
    rewrite (present_item data "news" _ Ed Ht), Ed. reflexivity.
  - destruct (dict_item data "campaign") as [| | | | |l|] eqn:Ed;
      try (intros []; reflexivity).
    intros Hne.
    exists (war_status_ops data ++ war_info_ops data ++ war_news_ops data)%list,
      (war_major_orders_ops data ++ planets_ops py_int data)%list. eexists.
    split; [|split; other_sections].
    unfold plan. rewrite <- !app_assoc. do 3 f_equal.
    rewrite (app_assoc _ [OpLog _] _). f_equal.
    unfold war_campaign_ops.
    assert (Ht : truthy (PList l) = true)
      by (destruct l; [destruct Hne; reflexivity | reflexivity]).
    rewrite (present_item data "campaign" _ Ed Ht), Ed. reflexivity.
  - destruct (dict_item data "major_orders") as [| | | | |l|] eqn:Ed;
      try (intros []; reflexivity).
    intros Hne.
    exists (war_status_ops data ++ war_info_ops data ++ war_news_ops data
              ++ war_campaign_ops data)%list,
      (planets_ops py_int data). eexists.
    split; [|split; other_sections].
    unfold plan. rewrite <- !app_assoc. do 4 f_equal.
    rewrite (app_assoc _ [OpLog _] _). f_equal.
    unfold war_major_orders_ops.
    assert (Ht : truthy (PList l) = true)
      by (destruct l; [destruct Hne; reflexivity | reflexivity]).
    rewrite (present_item data "major_orders" _ Ed Ht), Ed. reflexivity.
Qed.

Lemma rows_keys (engine : db_engine) (t : string)
    (l : list (result (list param))) (k : Z) :
  k ∈ written_keys engine (map (op_of_row (relation_insert t)) l) t ->
  k ∈ omap (row_key engine t) l.
Proof.
  intros Hk. apply written_keys_rows in Hk as (_ & ps & Hps & Hkey).
  apply list_elem_of_omap. exists (Ok ps). split; [exact Hps | exact Hkey].
Qed.

(** The plan around the statement of one tuple of the payload. *)
Lemma plan_around_row (py_int : string -> result Z) (engine : db_engine)
    (data : pydict) (t : string) (r1 r2 : list (result (list param)))
    (ps : list param) (k : Z) :
  payload_rows py_int data t = (r1 ++ Ok ps :: r2)%list ->
  exists A B,
    plan py_int data = (A ++ OpInsert (relation_insert t) ps :: B)%list /\
    (k ∉ omap (row_key engine t) r1 -> k ∉ written_keys engine A t) /\
    (k ∉ omap (row_key engine t) r2 -> k ∉ written_keys engine B t).
Proof.
  intros Hrows.
  destruct (plan_split py_int engine data t) as (A & B & msg & Hplan & HA & HB).
  { rewrite Hrows. destruct r1; discriminate. }
  rewrite Hrows, !map_app in Hplan. cbn [map op_of_row] in Hplan.
  exists (A ++ map (op_of_row (relation_insert t)) r1)%list,
    ((map (op_of_row (relation_insert t)) r2 ++ [OpLog msg]) ++ B)%list.
  split; [|split].
  - rewrite Hplan, <- !app_assoc. reflexivity.
  - intros Hk. rewrite written_keys_app, elem_of_app. intros [H|H].
    + exact (HA k H).
    + apply Hk, rows_keys, H.
  - intros Hk. rewrite !written_keys_app, !elem_of_app. intros [[H|H]|H].
    + apply Hk, rows_keys, H.
    + cbn in H. inversion H.
    + exact (HB k H).
Qed.

Lemma record_params_length (data : pydict) (t : string) (item : pyval)
    (ps : list param) :
  In item (payload_records data t) ->
  record_params data t item = Ok ps ->
  length ps = length (insert_columns (relation_insert t)).
Proof.
  unfold payload_records, relation_insert, record_params.
  destruct (String.eqb t "war_status") eqn:E1.
  { intros _. destruct item as [| | | | | |d]; try discriminate.
    unfold war_status_params, mbind, result_bind, mret, result_ret, py_get.
    intros [= <-]. reflexivity. }
  destruct (String.eqb t "war_info") eqn:E2.
  { intros _. destruct item as [| | | | | |d]; try discriminate.
    unfold war_info_params, mbind, result_bind, mret, result_ret, py_get.
    destruct (dict_get d "position") as [[]|]; try discriminate;
      intros [= <-]; reflexivity. }
  destruct (String.eqb t "war_news") eqn:E3.
  { intros _. destruct item as [| | | | | |d]; try discriminate.
    unfold war_news_params, mbind, result_bind, mret, result_ret, py_get.
    intros [= <-]. reflexivity. }
  destruct (String.eqb t "war_campaign") eqn:E4.
  { intros _. destruct item as [| | | | | |d]; try discriminate.
    unfold war_campaign_params, mbind, result_bind, mret, result_ret, py_get.
    destruct (dict_get d "biome") as [[]|]; try discriminate;
      intros [= <-]; reflexivity. }
  destruct (String.eqb t "war_major_orders") eqn:E5; [|intros []].
  intros _. destruct item as [| | | | | |d]; try discriminate.
  unfold war_major_orders_params, mbind, result_bind, mret, result_ret, py_get.
  destruct (dict_get d "setting") as [[| | | | | |d1]|]; try discriminate.
  - destruct (dict_get d1 "reward") as [[]|]; try discriminate;
      intros [= <-]; reflexivity.
  - cbn. intros [= <-]. reflexivity.
Qed.

Lemma planets_params_length (py_int : string -> result Z)
    (entry : string * pyval) (ps : list param) :
  planets_params py_int entry = Ok ps ->
  length ps = length (insert_columns insert_planets).
Proof.
  destruct entry as [key [| | | | | |d]]; try discriminate.
  unfold planets_params, mbind, result_bind, mret, result_ret, py_get.
  destruct (dict_get d "biome") as [[]|]; try discriminate;
    (destruct (py_int key); [|discriminate]);
    intros [= <-]; reflexivity.
Qed.

(** A tuple of the payload has one parameter per column of its statement. *)
Lemma payload_rows_length (py_int : string -> result Z) (data : pydict)
    (t : string) (ps : list param) :
  In (Ok ps) (payload_rows py_int data t) ->
  length ps = length (insert_columns (relation_insert t)).
Proof.
  unfold payload_rows. destruct (String.eqb t "planets") eqn:E.
  - apply String.eqb_eq in E as ->. intros H.
    apply in_map_iff in H as (entry & Hps & _).
    apply (planets_params_length py_int entry ps Hps).
  - intros H. apply in_map_iff in H as (item & Hps & Hin).
    apply (record_params_length data t item ps Hin Hps).
Qed.

(** With one parameter per column, the row a statement proposes is what the
    declared columns keep of the parameters after the key, in order. *)
Lemma stored_row_params (engine : db_engine) (s : insert) (ps : list param) :
  In s INSERTS ->
  length ps = length (insert_columns s) ->
  stored_row engine s ps = store_values engine (column_types (into s)) (tl ps).
Proof.
  intros H Hl.
  repeat (destruct H as [<-|H];
          [cbn in Hl;
           repeat (destruct ps as [|? ps]; [discriminate Hl|]; cbn in Hl);
           destruct ps; [reflexivity | discriminate Hl]|]).
  destruct H.
Qed.

(** The key of a statement is what the key column keeps of its first
    parameter. *)
Lemma insert_key_hd (engine : db_engine) (s : insert) (p : param)
    (ps : list param) :
  In s INSERTS ->
  insert_key engine s (p :: ps) =
  match key_of engine p with Ok k => Some k | Raise _ => None end.
Proof.
  intros H. repeat (destruct H as [<-|H]; [reflexivity|]). destruct H.
Qed.

Lemma key_of_int (engine : db_engine) (k : Z) :
  key_of engine (Lit (PInt k)) = if int4 k then Ok k else Raise out_of_range.
Proof.
  unfold key_of, store_value, mbind, result_bind.
  destruct (int4 k); reflexivity.
Qed.

(** Each builder puts the record's own key first. *)
Lemma record_params_hd (data : pydict) (t : string) (d : pydict)
    (ps : list param) :
  In t ["war_status"; "war_info"; "war_news"; "war_campaign"; "war_major_orders"] ->
  record_params data t (PDict d) = Ok ps ->
  exists ps', ps = Lit (match dict_get d (key_field t) with
                        | Some v => v
                        | None => PNone
                        end) :: ps'.
Proof.
  intros Ht.
  repeat (destruct Ht as [<-|Ht];
          [unfold record_params, key_field;
           cbn [String.eqb Ascii.eqb Bool.eqb];
           unfold war_status_params, war_info_params, war_news_params,
             war_campaign_params, war_major_orders_params,
             mbind, result_bind, mret, result_ret, py_get;
           repeat match goal with
                  | |- context [match dict_get d ?f with _ => _ end] =>
                      lazymatch f with
                      | "position" => destruct (dict_get d f) as [[]|]
                      | "biome" => destruct (dict_get d f) as [[]|]
                      | "setting" => destruct (dict_get d f) as [[| | | | | |?ds]|]
                      end
                  | |- context [match dict_get ?ds "reward" with _ => _ end] =>
                      destruct (dict_get ds "reward") as [[]|]
                  end;
           try discriminate; intros [= <-]; eexists; reflexivity|]).
  destruct Ht.
Qed.

Lemma planets_params_hd (py_int : string -> result Z) (key : string)
    (planet : pyval) (ps : list param) :
  planets_params py_int (key, planet) = Ok ps ->
  exists k ps', py_int key = Ok k /\ ps = Lit (PInt k) :: ps'.
Proof.
  destruct planet as [| | | | | |d]; try discriminate.
  unfold planets_params, mbind, result_bind, mret, result_ret, py_get.
  destruct (dict_get d "biome") as [[]|]; try discriminate;
    (destruct (py_int key) as [k|]; [|discriminate]);
    intros [= <-]; eexists _, _; split; reflexivity.
Qed.

Lemma payload_records_relation (data : pydict) (t : string) (item : pyval) :
  In item (payload_records data t) ->
  In t ["war_status"; "war_info"; "war_news"; "war_campaign"; "war_major_orders"].
Proof.
  unfold payload_records.
  repeat match goal with
         | |- context [String.eqb t ?x] =>
             let E := fresh "E" in
             destruct (String.eqb t x) eqn:E;
             [apply String.eqb_eq in E as ->; intros _; cbn; tauto|]
         end.
  intros [].
Qed.

(** ** Fetching *)

Lemma raise_for_status_request_exception (url : string) (r : response)
    (e : exn) :
  raise_for_status url r = Raise e -> is_request_exception e = true.
Proof.
  unfold raise_for_status.
  repeat (destruct (_ && _)); intros [= <-]; reflexivity.
Qed.

Section Fetch.

Variable net : transport.

Lemma fetch_json_caught (url : string) (st : state) :
  caught net url = true ->
  fetch_json net url st =
  (Ok (fetch_value net url),
   State (disk st) (conn st) (log st ++ fetch_log net url)).
Proof.
  unfold caught, fetch_value, fetch_outcome, fetch_log, fetch_json, try_except.
  unfold mbind, M_bind, result_bind, lift, logging_info, logging_error,
    fetch_error_record; cbn [disk conn log].
  destruct (net url) as [r|e]; [|intros ->; reflexivity].
  destruct (raise_for_status url r) as [[]|e] eqn:E.
  - destruct (json_body r) as [v|e].
    + intros _. reflexivity.
    + intros ->. cbn [disk conn log]. rewrite <- app_assoc. reflexivity.
  - intros ->. reflexivity.
Qed.

(** A fetch that fails with a [RequestException] hands back [None] and writes
    one ERROR record. *)
Lemma fetch_json_failure (url : string) (st : state) (e : exn) :
  fetch_failure net url = Some e ->
  is_request_exception e = true ->
  fetch_json net url st =
  (Ok PNone, State (disk st) (conn st) (log st ++ [fetch_error_record url e])).
Proof.
  intros Hf He.
  assert (fetch_outcome net url = Raise e /\ fetch_log net url = [fetch_error_record url e])
    as [Ho Hl].
  { unfold fetch_failure in Hf. unfold fetch_outcome, fetch_log, mbind, result_bind.
    destruct (net url) as [r|e']; [|injection Hf as ->; split; reflexivity].
    destruct (raise_for_status url r) as [[]|e']; [discriminate|].
    injection Hf as ->. split; reflexivity. }
  rewrite fetch_json_caught by (unfold caught; rewrite Ho; exact He).
  unfold fetch_value. rewrite Ho, Hl. reflexivity.
Qed.

Lemma fetch_all_data_caught (st : state) :
  Forall (fun r => caught net (snd r) = true) RESOURCES ->
  fetch_all_data net st =
  (Ok (map (fun r => (fst r, fetch_value net (snd r))) RESOURCES),
   State (disk st) (conn st)
         (log st ++ flat_map (fun r => fetch_log net (snd r)) RESOURCES)).
Proof.
  intros H. unfold RESOURCES, ENDPOINTS in *. cbn [app] in H.
  repeat (apply Forall_cons_1 in H as [? H]). cbn [snd] in *.
  unfold fetch_all_data, ENDPOINTS, fetch_endpoints, mbind, M_bind, mret, M_ret.
  repeat (rewrite fetch_json_caught by assumption; cbn [disk conn log]).
  cbn [app map flat_map fst snd].
  rewrite app_nil_r, <- !app_assoc. reflexivity.
Qed.

End Fetch.

(** ** Failed fetches and the write sections *)

Lemma fetched_entry (net : transport) (key url : string) :
  (key, url) ∈ RESOURCES -> dict_get (fetched net) key = Some (fetch_value net url).
Proof.
  intros H. unfold RESOURCES, ENDPOINTS in H. cbn [app] in H.
  repeat (apply elem_of_cons in H as [[= -> ->]|H]; [reflexivity|]).
  inversion H.
Qed.

Lemma skipped_section (py_int : string -> result Z) (engine : db_engine)
    (data : pydict) (key : string) (section : db_engine -> pydict -> M unit)
    (st : state) :
  (key, section) ∈ WRITE_SECTIONS py_int ->
  dict_get data key = Some PNone ->
  section engine data st = (Ok (), st).
Proof.
  intros H Hd. unfold WRITE_SECTIONS in H.
  repeat (apply elem_of_cons in H as [[= -> ->]|H];
          [unfold store_war_status, store_war_info, store_war_news,
             store_war_campaign, store_war_major_orders, store_planets,
             present, dict_contains, dict_item;
           rewrite Hd; reflexivity|]).
  inversion H.
Qed.

Lemma plan_fetched_only (py_int : string -> result Z) (net : transport) :
  plan py_int (fetched net) = plan py_int (fetched_only net).
Proof.
  unfold fetched, fetched_only, fetch_value, RESOURCES, ENDPOINTS.
  cbn [app map omap list_omap fst snd].
  destruct (fetch_outcome net (API_BASE_URL +:+ "/status"));
    destruct (fetch_outcome net (API_BASE_URL +:+ "/info"));
    destruct (fetch_outcome net (API_BASE_URL +:+ "/news"));
    destruct (fetch_outcome net (API_BASE_URL +:+ "/campaign"));
    destruct (fetch_outcome net (API_BASE_URL +:+ "/major-orders"));
    destruct (fetch_outcome net PLANETS_URL);
    reflexivity.
Qed.

Lemma store_data_plan_ext (py_int : string -> result Z) (engine : db_engine)
    (data data' : pydict) (st : state) :
  plan py_int data = plan py_int data' ->
  store_data py_int engine data st = store_data py_int engine data' st.
Proof.
  intros H. unfold store_data, call, try_except, mbind, M_bind.
  rewrite !store_body_plan, H. reflexivity.
Qed.

(** The records of fetches depend on the transport only at their URLs. *)
Lemma fetch_log_ext (net net' : transport) (l : list (string * string)) :
  (forall r, In r l -> net' (snd r) = net (snd r)) ->
  flat_map (fun r => fetch_log net' (snd r)) l =
  flat_map (fun r => fetch_log net (snd r)) l.
Proof.
  induction l as [|r l IH]; intros H; [reflexivity|].
  cbn [flat_map]. rewrite IH by (intros r' Hr'; apply H; right; exact Hr').
  unfold fetch_log. rewrite (H r (or_introl eq_refl)). reflexivity.
Qed.

(** ** Fetches that raise *)

Section MoreFetch.

Variable net : transport.

(** An exception that [fetch_json] does not catch leaves it, after the
    success record if the status had been accepted, and with no ERROR
    record. *)
Lemma fetch_json_uncaught (url : string) (st : state) :
  caught net url = false ->
  exists e l,
    fetch_outcome net url = Raise e /\ is_request_exception e = false /\
    fetch_json net url st = (Raise e, State (disk st) (conn st) (log st ++ l)) /\
    l `prefix_of` fetch_log net url /\
    Forall (fun r => fst r = INFO) l.
Proof.
  unfold caught, fetch_outcome, fetch_log, fetch_json, try_except.
  unfold mbind, M_bind, result_bind, lift, logging_info; cbn [disk conn log].
  destruct (net url) as [r|e].
  - destruct (raise_for_status url r) as [[]|e] eqn:E.
    + destruct (json_body r) as [v|e]; [discriminate|].
      intros He. exists e, [fetch_success_record url]. rewrite He.
      repeat split; [eexists; reflexivity | repeat constructor].
    + intros He. rewrite (raise_for_status_request_exception url r e E) in He.
      discriminate He.
  - intros He. exists e, []. rewrite He, app_nil_r. destruct st.
    repeat split; [apply prefix_nil | constructor].
Qed.

Lemma fetch_endpoints_caught (eps : list (string * string)) (data : pydict)
    (st : state) :
  Forall (fun r => caught net (snd r) = true) eps ->
  fetch_endpoints net eps data st =
  (Ok (fold_left (fun d r => dict_set d (fst r) (fetch_value net (snd r))) eps data),
   State (disk st) (conn st)
         (log st ++ flat_map (fun r => fetch_log net (snd r)) eps)).
Proof.
  intros H. revert data st. induction H as [|[key url] eps Hc _ IH]; intros data st.
  - cbn. rewrite app_nil_r. destruct st. reflexivity.
  - cbn [fetch_endpoints fold_left flat_map fst snd] in *.
    unfold mbind, M_bind. rewrite (fetch_json_caught net url st Hc), IH.
    cbn [disk conn log]. rewrite <- app_assoc. reflexivity.
Qed.

Lemma fetch_json_raises (url : string) (st : state) (e : exn) :
  fetch_outcome net url = Raise e ->
  is_request_exception e = false ->
  fetch_json net url st =
  (Raise e, State (disk st) (conn st) (log st ++ uncaught_log net url)).
Proof.
  unfold fetch_outcome, uncaught_log, fetch_json, try_except.
  unfold mbind, M_bind, result_bind, lift, logging_info; cbn [disk conn log].
  destruct (net url) as [r|e0].
  - destruct (raise_for_status url r) as [[]|e0] eqn:E.
    + destruct (json_body r) as [v|e0]; [discriminate|].
      intros [= ->] He. rewrite He. reflexivity.
    + intros [= ->] He.
      rewrite (raise_for_status_request_exception url r e E) in He.
      discriminate He.
  - intros [= ->] He. rewrite He, app_nil_r. destruct st. reflexivity.
Qed.

Lemma fetch_endpoints_stops (pre post : list (string * string))
    (key url : string) (data : pydict) (st : state) (e : exn) :
  Forall (fun r => caught net (snd r) = true) pre ->
  fetch_outcome net url = Raise e ->
  is_request_exception e = false ->
  fetch_endpoints net (pre ++ (key, url) :: post) data st =
  (Raise e,
   State (disk st) (conn st)
     (log st ++ flat_map (fun r => fetch_log net (snd r)) pre
        ++ uncaught_log net url)).
Proof.
  intros Hpre He Hne. revert data st.
  induction Hpre as [|[k u] pre Hc _ IH]; intros data st.
  - cbn [app fetch_endpoints flat_map]. unfold mbind, M_bind.
    rewrite (fetch_json_raises url st e He Hne). reflexivity.
  - cbn [app fetch_endpoints flat_map snd] in *. unfold mbind, M_bind.
    rewrite (fetch_json_caught net u st Hc), IH. cbn [disk conn log].
    rewrite <- !app_assoc. reflexivity.
Qed.

(** [fetch_all_data] stops at the first fetch that raises an exception
    which [fetch_json] does not catch. *)
Lemma fetch_all_data_stops (st : state) (pre post : list (string * string))
    (key url : string) (e : exn) :
  RESOURCES = (pre ++ (key, url) :: post)%list ->
  Forall (fun r => caught net (snd r) = true) pre ->
  fetch_outcome net url = Raise e ->
  is_request_exception e = false ->
  fetch_all_data net st =
  (Raise e,
   State (disk st) (conn st)
     (log st ++ flat_map (fun r => fetch_log net (snd r)) pre
        ++ uncaught_log net url)).
Proof.
  intros Hres Hpre He Hne. unfold fetch_all_data, mbind, M_bind.
  unfold RESOURCES in Hres.
  destruct post as [|p post _] using rev_ind.
  - apply app_inj_tail in Hres as [<- [= <- <-]].
    rewrite (fetch_endpoints_caught ENDPOINTS [] st Hpre).
    rewrite (fetch_json_raises PLANETS_URL _ e He Hne). cbn [disk conn log].
    rewrite <- app_assoc. reflexivity.
  - rewrite app_comm_cons, app_assoc in Hres.
    apply app_inj_tail in Hres as [-> _].
    rewrite (fetch_endpoints_stops pre post key url [] st e Hpre He Hne).
    reflexivity.
Qed.

End MoreFetch.

(** ** Absent fields *)

Ltac absent_cases :=
  repeat match goal with
         | H : absent _ _ |- _ => cbn [absent] in H
         | H : _ \/ _ |- _ => destruct H as [H|H]
         | H : exists _, _ /\ _ |- _ => destruct H as (? & ? & H)
         | H : False |- _ => destruct H
         end.

Ltac null_column :=
  absent_cases; simplify_eq; cbn;
  repeat match goal with
         | H : dict_get ?d ?f = _ |- context [dict_get ?d ?f] => rewrite H
         end;
  reflexivity.

Lemma absent_field_null (py_int : string -> result Z) (c1 c2 c3 c4 : pyval)
    (key : string) (s : insert) (b : pyval -> result (list param))
    (fields : list (string * list string)) (d : pydict) (ps : list param)
    (col : string) (path : list string) :
  In (s, b, fields) (builders py_int c1 c2 c3 c4 key) ->
  b (PDict d) = Ok ps ->
  In (col, path) fields ->
  absent d path ->
  column s ps col = SqlNull.
Proof.
  intros Hb Hps Hin Habs. unfold column, builders in *.
  destruct Hb as [[= <- <- <-]|[[= <- <- <-]|[[= <- <- <-]|[[= <- <- <-]
                 |[[= <- <- <-]|[[= <- <- <-]|[]]]]]]].
  - unfold war_status_params, mbind, result_bind, mret, result_ret, py_get in Hps.
    injection Hps as <-.
    repeat (destruct Hin as [[= <- <-]|Hin]; [null_column|]). destruct Hin.
  - unfold war_info_params, mbind, result_bind, mret, result_ret, py_get in Hps.
    destruct (dict_get d "position") as [[| | | | | |dp]|] eqn:Hpos;
      try discriminate Hps; cbn in Hps; injection Hps as <-;
      repeat (destruct Hin as [[= <- <-]|Hin]; [null_column|]); destruct Hin.
  - unfold war_news_params, mbind, result_bind, mret, result_ret, py_get in Hps.
    injection Hps as <-.
    repeat (destruct Hin as [[= <- <-]|Hin]; [null_column|]). destruct Hin.
  - unfold war_campaign_params, mbind, result_bind, mret, result_ret, py_get in Hps.
    destruct (dict_get d "biome") as [[| | | | | |dp]|] eqn:Hbiome;
      try discriminate Hps; cbn in Hps; injection Hps as <-;
      repeat (destruct Hin as [[= <- <-]|Hin]; [null_column|]); destruct Hin.
  - unfold war_major_orders_params, mbind, result_bind, mret, result_ret, py_get in Hps.
    destruct (dict_get d "setting") as [[| | | | | |ds]|] eqn:Hsetting;
      try discriminate Hps.
    + destruct (dict_get ds "reward") as [[| | | | | |dr]|] eqn:Hreward;
        try discriminate Hps; cbn in Hps; injection Hps as <-;
        repeat (destruct Hin as [[= <- <-]|Hin]; [null_column|]); destruct Hin.
    + cbn in Hps. injection Hps as <-.
      repeat (destruct Hin as [[= <- <-]|Hin]; [null_column|]). destruct Hin.
  - unfold planets_params, mbind, result_bind, mret, result_ret, py_get in Hps.
    destruct (py_int key) as [idx|];
      destruct (dict_get d "biome") as [[| | | | | |dp]|] eqn:Hbiome;
      try discriminate Hps;
      cbn in Hps; injection Hps as <-;
      repeat (destruct Hin as [[= <- <-]|Hin]; [null_column|]); destruct Hin.
Qed.

(** ** Which tuple of the payload a stored row comes from *)

(** After a committed run, a row whose key the engine does not read in the
    payload of its relation is as it was. *)
Lemma transaction_frame (py_int : string -> result Z) (engine : db_engine)
    (data : pydict) (db w : database) (t : string) (k : Z) :
  transaction py_int engine data db = Ok w ->
  k ∉ engine_keys py_int engine data t ->
  cell w t k = cell db t k.
Proof.
  intros Hw Hk.
  destruct (transaction_cells py_int engine data _ _ Hw) as [Hcell _].
  rewrite Hcell. apply slot_frame. intros H.
  apply Hk, written_keys_plan, H.
Qed.

(** A tuple of a committed run was accepted by the engine: its values are
    what the columns keep of its parameters after the key. *)
Lemma row_accepted (py_int : string -> result Z) (engine : db_engine)
    (data : pydict) (db w : database) (t : string) (ps : list param) :
  transaction py_int engine data db = Ok w ->
  In (Ok ps) (payload_rows py_int data t) ->
  In (relation_insert t) INSERTS /\ into (relation_insert t) = t /\
  exists new, stored_row engine (relation_insert t) ps = Ok new /\
              store_values engine (column_types t) (tl ps) = Ok new.
Proof.
  intros Hw Hin.
  destruct (transaction_ok py_int engine data _ _ Hw) as (w1 & _ & Ha & _).
  destruct (rows_in_plan py_int data t _ Hin) as (Hs & Ht & Hop).
  cbn [op_of_row] in Hop.
  destruct (apply_ops_stored engine _ _ _ _ _ Ha Hop) as (_ & _ & new & Hnew).
  split; [exact Hs|]. split; [exact Ht|]. exists new. split; [exact Hnew|].
  pose proof (stored_row_params engine _ ps Hs
                (payload_rows_length py_int data t ps Hin)) as H.
  rewrite Ht in H. rewrite <- H. exact Hnew.
Qed.

(** In the relations that overwrite, the last tuple of a key is the one
    stored after a committed run. *)
Lemma last_row_stored (py_int : string -> result Z) (engine : db_engine)
    (data : pydict) (db w : database) (t : string)
    (r1 r2 : list (result (list param))) (ps : list param) (k : Z) :
  transaction py_int engine data db = Ok w ->
  t <> "war_news" ->
  payload_rows py_int data t = (r1 ++ Ok ps :: r2)%list ->
  insert_key engine (relation_insert t) ps = Some k ->
  k ∉ omap (row_key engine t) r2 ->
  exists new, store_values engine (column_types t) (tl ps) = Ok new /\
              cell w t k = Some new.
Proof.
  intros Hw Hnews Hrows Hk Hlast.
  assert (Hin : In (Ok ps) (payload_rows py_int data t)).
  { rewrite Hrows. apply in_or_app. right. left. reflexivity. }
  destruct (row_accepted py_int engine data db w t ps Hw Hin)
    as (Hs & Ht & new & Hnew & Hvals).
  exists new. split; [exact Hvals|].
  destruct (transaction_cells py_int engine data _ _ Hw) as [Hcell _].
  destruct (plan_around_row py_int engine data t r1 r2 ps k Hrows)
    as (A & B & Hplan & _ & HB).
  rewrite Hcell, Hplan, slot_app. cbn [slot].
  rewrite decide_True by (split; [exact Ht | exact Hk]).
  rewrite (slot_frame engine B t k _ (HB Hlast)).
  destruct (known_kind _ Hs) as [[Hn _]|[_ [cs Hcs]]]; [congruence|].
  unfold write. rewrite Hnew, Hcs.
  destruct (slot engine A t k _); reflexivity.
Qed.

(** In war_news, the first tuple of an id that was not stored is the one
    stored after a committed run. *)
Lemma first_row_stored (py_int : string -> result Z) (engine : db_engine)
    (data : pydict) (db w : database)
    (r1 r2 : list (result (list param))) (ps : list param) (k : Z) :
  transaction py_int engine data db = Ok w ->
  payload_rows py_int data "war_news" = (r1 ++ Ok ps :: r2)%list ->
  insert_key engine insert_war_news ps = Some k ->
  k ∉ omap (row_key engine "war_news") r1 ->
  cell db "war_news" k = None ->
  exists new, store_values engine (column_types "war_news") (tl ps) = Ok new /\
              cell w "war_news" k = Some new.
Proof.
  intros Hw Hrows Hk Hfirst Hnone.
  assert (Hin : In (Ok ps) (payload_rows py_int data "war_news")).
  { rewrite Hrows. apply in_or_app. right. left. reflexivity. }
  destruct (row_accepted py_int engine data db w "war_news" ps Hw Hin)
    as (Hs & Ht & new & Hnew & Hvals).
  exists new. split; [exact Hvals|].
  destruct (transaction_cells py_int engine data _ _ Hw) as [Hcell _].
  destruct (plan_around_row py_int engine data "war_news" r1 r2 ps k Hrows)
    as (A & B & Hplan & HA & _).
  pose proof (plan_known py_int data) as Hknown. rewrite Hplan in Hknown.
  apply Forall_app in Hknown as [_ Hknown].
  apply Forall_cons_1 in Hknown as [_ HB].
  rewrite Hcell, Hplan, slot_app, Hnone. cbn [slot].
  rewrite decide_True by (split; [reflexivity | exact Hk]).
  rewrite (slot_frame engine A "war_news" k _ (HA Hfirst)).
  destruct (slot_insert_only engine B k HB) as [x ->].
  change (relation_insert "war_news") with insert_war_news in *.
  unfold write. rewrite Hnew. reflexivity.
Qed.

(** ** Records that abort the run *)

(** A record from which no key can be read gives an operation that cannot
    go through, whatever the engine. *)
Lemma keyless_fails (engine : db_engine) (data : pydict) (t : string)
    (item : pyval) :
  In item (payload_records data t) ->
  keyless (key_field t) item = true ->
  op_fails engine (op_of_row (relation_insert t) (record_params data t item)).
Proof.
  intros Hin Hk.
  destruct (record_params data t item) as [ps|e] eqn:E; [|exact I].
  cbn [op_of_row op_fails]. right. left.
  destruct item as [| | | | | |d];
    try (match type of E with
         | record_params _ _ ?x = _ =>
             destruct (record_params_non_dict data t x eq_refl) as [e' He]
         end; rewrite He in E; discriminate E).
  destruct (record_params_hd data t d ps (payload_records_relation data t _ Hin) E)
    as [ps' ->].
  assert (Hs : In (relation_insert t) INSERTS)
    by (destruct (records_in_plan decimal_int data t _ Hin) as (Hs & _); exact Hs).
  rewrite (insert_key_hd engine _ _ _ Hs).
  cbn [keyless] in Hk.
  destruct (dict_get d (key_field t)) as [[]|]; try discriminate Hk; reflexivity.
Qed.

Lemma nested_non_dict_raises (data : pydict) (t obj : string) (d : pydict)
    (v : pyval) :
  In (t, obj) NESTED_OBJECTS ->
  dict_get d obj = Some v ->
  is_dict v = false ->
  exists e, record_params data t (PDict d) = Raise e.
Proof.
  intros Hin Hd Hv. unfold NESTED_OBJECTS in Hin.
  destruct Hin as [[= <- <-]|[[= <- <-]|[[= <- <-]|[]]]];
    unfold record_params; cbn [String.eqb Ascii.eqb Bool.eqb];
    unfold war_info_params, war_campaign_params, war_major_orders_params,
      mbind, result_bind, py_get; rewrite Hd;
    destruct v; try discriminate Hv; eexists; reflexivity.
Qed.

Lemma planets_entry_raises (py_int : string -> result Z) (key : string)
    (planet : pyval) :
  (exists e, py_int key = Raise e) \/ is_dict planet = false ->
  exists e, planets_params py_int (key, planet) = Raise e.
Proof.
  intros H. unfold planets_params, mbind, result_bind, py_get.
  destruct planet as [| | | | | |d]; try (eexists; reflexivity).
  destruct H as [[e H]|H]; [|discriminate H]. rewrite H.
  destruct (dict_get d "biome") as [[]|]; eexists; reflexivity.
Qed.

Lemma op_of_row_raise (engine : db_engine) (s : insert)
    (r : result (list param)) (e : exn) :
  r = Raise e -> op_fails engine (op_of_row s r).
Proof. intros ->. exact I. Qed.

(** A truthy resource of the wrong JSON type puts a raising operation in
    the plan. *)
Lemma wrong_shape_in_plan (py_int : string -> result Z) (data : pydict)
    (key : string) (v : pyval) :
  In key (map fst RESOURCES) ->
  dict_get data key = Some v ->
  truthy v = true ->
  shape_ok key v = false ->
  exists e, In (OpRaise e) (plan py_int data).
Proof.
  intros Hkey Hget Ht Hs.
  assert (Hp : present data key = true).
  { unfold present, dict_contains, dict_item. rewrite Hget. exact Ht. }
  assert (Hi : dict_item data key = v).
  { unfold dict_item. rewrite Hget. reflexivity. }
  unfold RESOURCES, ENDPOINTS in Hkey. cbn in Hkey.
  destruct Hkey as [<-|[<-|[<-|[<-|[<-|[<-|[]]]]]]]; cbn in Hs.
  - destruct v; try discriminate Hs; eexists; apply in_plan; left;
      unfold war_status_ops; rewrite Hp, Hi; left; reflexivity.
  - destruct v; try discriminate Hs; eexists; apply in_plan; right; left;
      unfold war_info_ops; rewrite Hp, Hi; left; reflexivity.
  - destruct v as [| | | |s|l|d]; try discriminate Hs;
      try (destruct s; [discriminate Ht|]); try (destruct d as [|[]]; [discriminate Ht|]);
      eexists; apply in_plan; do 2 right; left;
      unfold war_news_ops; rewrite Hp, Hi; left; reflexivity.
  - destruct v as [| | | |s|l|d]; try discriminate Hs;
      try (destruct s; [discriminate Ht|]); try (destruct d as [|[]]; [discriminate Ht|]);
      eexists; apply in_plan; do 3 right; left;
      unfold war_campaign_ops; rewrite Hp, Hi; left; reflexivity.
  - destruct v as [| | | |s|l|d]; try discriminate Hs;
      try (destruct s; [discriminate Ht|]); try (destruct d as [|[]]; [discriminate Ht|]);
      eexists; apply in_plan; do 4 right; left;
      unfold war_major_orders_ops; rewrite Hp, Hi; left; reflexivity.
  - destruct v; try discriminate Hs; eexists; apply in_plan; do 5 right;
      unfold planets_ops; rewrite Hp, Hi; left; reflexivity.
Qed.

(** ** The integer keys of a payload *)

(** A record that carries an integer as its key is written under that
    integer, or refused when the integer does not fit the column. *)
Lemma record_params_int_key (engine : db_engine) (data : pydict) (t : string)
    (item : pyval) (ps : list param) (k : Z) :
  In item (payload_records data t) ->
  record_key (key_field t) item = Some k ->
  record_params data t item = Ok ps ->
  insert_key engine (relation_insert t) ps = if int4 k then Some k else None.
Proof.
  intros Hin Hk Hps.
  assert (Hs : In (relation_insert t) INSERTS)
    by (destruct (records_in_plan decimal_int data t _ Hin) as (Hs & _); exact Hs).
  destruct item as [| | | | | |d]; try discriminate Hk.
  destruct (record_params_hd data t d ps (payload_records_relation data t _ Hin) Hps)
    as [ps' ->].
  rewrite (insert_key_hd engine _ _ _ Hs).
  cbn [record_key] in Hk.
  destruct (dict_get d (key_field t)) as [[]|]; try discriminate Hk.
  injection Hk as ->. rewrite key_of_int. destruct (int4 k); reflexivity.
Qed.

Lemma planets_params_int_key (py_int : string -> result Z) (engine : db_engine)
    (entry : string * pyval) (ps : list param) (k : Z) :
  int_of py_int (fst entry) = Some k ->
  planets_params py_int entry = Ok ps ->
  insert_key engine insert_planets ps = if int4 k then Some k else None.
Proof.
  destruct entry as [key planet]. cbn [fst]. intros Hk Hps.
  destruct (planets_params_hd py_int key planet ps Hps) as (k' & ps' & Hk' & ->).
  unfold int_of in Hk. rewrite Hk' in Hk. injection Hk as ->.
  rewrite (insert_key_hd engine insert_planets _ _ ltac:(cbn; tauto)).
  rewrite key_of_int. destruct (int4 k); reflexivity.
Qed.

(** In a plan that goes through, a record of the payload was written under
    its own key. *)
Lemma record_written (py_int : string -> result Z) (engine : db_engine)
    (data : pydict) (t : string) (item : pyval) (k : Z) (w w' : database) :
  apply_ops engine (plan py_int data) w = Ok w' ->
  In item (payload_records data t) ->
  record_key (key_field t) item = Some k ->
  exists ps, record_params data t item = Ok ps /\
             insert_key engine (relation_insert t) ps = Some k /\
             In (OpInsert (relation_insert t) ps) (plan py_int data).
Proof.
  intros Ha Hin Hk.
  destruct (records_in_plan py_int data t item Hin) as (_ & _ & Hop).
  pose proof (apply_ops_no_failure engine _ _ _ _ Ha Hop) as Hnf.
  destruct (record_params data t item) as [ps|e] eqn:E; [|destruct Hnf; exact I].
  exists ps. split; [reflexivity|]. split; [|exact Hop].
  cbn [op_of_row op_fails] in Hnf.
  rewrite (record_params_int_key engine data t item ps k Hin Hk E) in Hnf |- *.
  destruct (int4 k); [reflexivity | tauto].
Qed.

Lemma planet_written (py_int : string -> result Z) (engine : db_engine)
    (data : pydict) (entry : string * pyval) (k : Z) (w w' : database) :
  apply_ops engine (plan py_int data) w = Ok w' ->
  In entry (payload_planets data) ->
  int_of py_int (fst entry) = Some k ->
  exists ps, planets_params py_int entry = Ok ps /\
             insert_key engine insert_planets ps = Some k /\
             In (OpInsert insert_planets ps) (plan py_int data).
Proof.
  intros Ha Hin Hk. pose proof (planets_in_plan py_int data entry Hin) as Hop.
  pose proof (apply_ops_no_failure engine _ _ _ _ Ha Hop) as Hnf.
  destruct (planets_params py_int entry) as [ps|e] eqn:E; [|destruct Hnf; exact I].
  exists ps. split; [reflexivity|]. split; [|exact Hop].
  cbn [op_of_row op_fails] in Hnf.
  rewrite (planets_params_int_key py_int engine entry ps k Hk E) in Hnf |- *.
  destruct (int4 k); [reflexivity | tauto].
Qed.

Lemma payload_keys_records (py_int : string -> result Z) (data : pydict)
    (t : string) (k : Z) :
  k ∈ payload_keys py_int data t ->
  (exists item, In item (payload_records data t) /\
                record_key (key_field t) item = Some k) \/
  (t = "planets" /\
   exists entry, In entry (payload_planets data) /\
                 int_of py_int (fst entry) = Some k).
Proof.
  unfold payload_keys, payload_records, key_field, payload_planets, list_keys.
  intros H.
  destruct (String.eqb t "war_status") eqn:E1.
  { left. destruct (dict_item data "status") as [| | | | | |d]; try (inversion H; fail).
    destruct (dict_get d "planetStatus") as [[| | | | |l|]|]; try (inversion H; fail).
    apply String.eqb_eq in E1 as ->. cbn.
    apply list_elem_of_omap in H as (item & Hin & Hk).
    exists item. split; [apply list_elem_of_In, Hin | exact Hk]. }
  destruct (String.eqb t "war_info") eqn:E2.
  { left. destruct (dict_item data "info") as [| | | | | |d]; try (inversion H; fail).
    destruct (dict_get d "planetInfos") as [[| | | | |l|]|]; try (inversion H; fail).
    apply String.eqb_eq in E2 as ->. cbn.
    apply list_elem_of_omap in H as (item & Hin & Hk).
    exists item. split; [apply list_elem_of_In, Hin | exact Hk]. }
  destruct (String.eqb t "war_news") eqn:E3.
  { left. destruct (dict_item data "news") as [| | | | |l|]; try (inversion H; fail).
    apply list_elem_of_omap in H as (item & Hin & Hk).
    exists item. split; [apply list_elem_of_In, Hin | exact Hk]. }
  destruct (String.eqb t "war_campaign") eqn:E4.
  { left. destruct (dict_item data "campaign") as [| | | | |l|]; try (inversion H; fail).
    apply list_elem_of_omap in H as (item & Hin & Hk).
    exists item. split; [apply list_elem_of_In, Hin | exact Hk]. }
  destruct (String.eqb t "war_major_orders") eqn:E5.
  { left. destruct (dict_item data "major_orders") as [| | | | |l|];
      try (inversion H; fail).
    apply list_elem_of_omap in H as (item & Hin & Hk).
    exists item. split; [apply list_elem_of_In, Hin | exact Hk]. }
  destruct (String.eqb t "planets") eqn:E6; [|inversion H].
  right. apply String.eqb_eq in E6 as ->. split; [reflexivity|].
  destruct (dict_item data "planets") as [| | | | | |d]; try (inversion H; fail).
  apply list_elem_of_omap in H as (entry & Hin & Hk).
  exists entry. split; [apply list_elem_of_In, Hin | exact Hk].
Qed.

(** ** Worked examples *)

(** The scenario of the specification: one planet status in the feed. *)
Example status_of_planet_1 :
  cell (disk (snd (main war_feed decimal_int sound_engine empty_store)))
       "war_status" 1 =
  Some [Lit (PInt 2); Lit (PInt 9000); SqlNull; SqlNull; Lit (PInt 1);
        Lit (PInt 100); SqlNull; SqlNull].
Proof. vm_compute. reflexivity. Qed.

(** Planet 5 is stored with health 100; a payload with health 80 for it
    overwrites its row and leaves planet 6 alone. *)
Example planet_5_reingested :
  let before := State status_of_planets_5_and_6 None [] in
  let after := snd (store_data decimal_int sound_engine planet_5_payload before) in
  cell (disk before) "war_status" 5 =
    Some [Lit (PInt 1); Lit (PInt 100); Lit (PInt 0); Lit (PInt 10);
          Lit (PInt 1); Lit (PInt 50); Lit (PInt 1); Lit (PInt 3)] /\
  cell (disk after) "war_status" 5 = Some (tl planet_5_health_80) /\
  cell (disk after) "war_status" 6 = cell (disk before) "war_status" 6.
Proof. vm_compute. repeat split. Qed.

(** The campaign row written before the refused major order is not kept. *)
Example campaign_rolled_back :
  cell (disk (snd (store_data decimal_int sound_engine campaign_and_order
                     empty_store)))
       "war_campaign" 7 <> None /\
  cell (disk (snd (store_data decimal_int orders_failing_engine
                     campaign_and_order empty_store)))
       "war_campaign" 7 = None.
Proof. vm_compute. split; [discriminate | reflexivity]. Qed.

(** The same payload on a connection that is lost by the time of the
    rollback: nothing is committed, the call raises and logs nothing. *)
Example rollback_raises :
  store_data decimal_int lost_connection_engine campaign_and_order empty_store =
  (Raise connection_lost,
   State ∅ None [(INFO, "Stored war_campaign data successfully.")]).
Proof. reflexivity. Qed.

(** An engine that reads the string "5" as the key 5 overwrites the row of
    planet 5 when the payload gives its index as text; an engine that keeps
    the string refuses the statement, and the run commits nothing. *)
Example text_key_overwrites :
  let before := State status_of_planets_5_and_6 None [] in
  cell (disk (snd (store_data decimal_int converting_engine planet_5_as_text before)))
       "war_status" 5 = Some (tl planet_5_health_80) /\
  engine_keys decimal_int converting_engine planet_5_as_text "war_status" = [5] /\
  disk (snd (store_data decimal_int sound_engine planet_5_as_text before)) =
  disk before /\
  engine_keys decimal_int sound_engine planet_5_as_text "war_status" = [].
Proof. vm_compute. repeat split. Qed.

(** An engine that cannot be reached: the call raises, nothing is logged. *)
Example unreachable_engine_raises :
  store_data decimal_int unreachable_engine campaign_and_order empty_store =
  (Raise (unbound_local "conn"), empty_store).
Proof. reflexivity. Qed.

(** * The claims *)

(** C1.  If the body of [store_data] raises (while creating the tables,
    while executing an upsert, or anywhere else in the [try] block), nothing
    of the run is committed: the committed contents after the call are
    exactly the ones before it. *)
Theorem store_data_rollback (py_int : string -> result Z) (engine : db_engine)
    (data : pydict) (st st' : state) (e : exn) :
  store_body py_int engine data (State (disk st) None (log st)) = (Raise e, st') ->
  disk (snd (store_data py_int engine data st)) = disk st.
Proof. apply store_body_raise_disk. Qed.

Lemma store_data_rollback_witness :
  disk (snd (store_data decimal_int orders_failing_engine campaign_and_order
               empty_store))
  = disk empty_store.
Proof.
  eapply (store_data_rollback decimal_int orders_failing_engine
            campaign_and_order empty_store).
  vm_compute. reflexivity.
Defined.

(** C2.  A row of war_news that is stored before a call of [store_data] is
    stored unchanged after it, whatever the payload: a news item with the
    same id and other values does not touch it. *)
Theorem war_news_insert_only (py_int : string -> result Z)
    (engine : db_engine) (data : pydict) (st : state) (k : Z) (r : row) :
  cell (disk st) "war_news" k = Some r ->
  cell (disk (snd (store_data py_int engine data st))) "war_news" k = Some r.
Proof.
  intros H. rewrite store_data_disk.
  destruct (connect_error engine); [exact H|].
  destruct (transaction py_int engine data (disk st)) as [w|e] eqn:E; [|exact H].
  destruct (transaction_cells py_int engine data _ _ E) as [Hcell _].
  rewrite Hcell, H.
  destruct (slot_insert_only engine (plan py_int data) k (plan_known py_int data))
    as [x ->].
  reflexivity.
Qed.

Lemma war_news_insert_only_witness :
  cell (disk (snd (store_data decimal_int sound_engine changed_news store_with_news)))
       "war_news" 42 = Some old_news_row.
Proof.
  apply (war_news_insert_only decimal_int sound_engine changed_news
           store_with_news 42).
  vm_compute. reflexivity.
Defined.

(** C3.  Storing the same payload twice in succession leaves the committed
    contents that storing it once leaves: the second call adds no row and
    changes no value. *)
Theorem store_data_idempotent (py_int : string -> result Z)
    (engine : db_engine) (data : pydict) (st : state) :
  disk (snd (store_data py_int engine data
               (snd (store_data py_int engine data st)))) =
  disk (snd (store_data py_int engine data st)).
Proof.
  rewrite (store_data_disk py_int engine data
             (snd (store_data py_int engine data st))).
  rewrite (store_data_disk py_int engine data st).
  destruct (connect_error engine); [reflexivity|].
  destruct (transaction py_int engine data (disk st)) as [w|e] eqn:E.
  - rewrite (transaction_idempotent py_int engine data _ _ E). reflexivity.
  - rewrite E. reflexivity.
Qed.

(** C4 as the code has it.  When every failure of the six fetches is one
    that [fetch_json] catches (a [RequestException]: a 4xx or 5xx status, or
    an error of the transport or of the decoding that the requests library
    raises), [fetch_all_data] attempts all six resources in order and returns
    a payload with an entry for each; a resource whose fetch failed has the
    entry [None], its write section does nothing and does not raise, and
    [store_data] treats the payload exactly as if the failed entries were not
    there: it commits what the successful resources alone produce. *)
Theorem fetch_failures_do_not_abort (py_int : string -> result Z)
    (net : transport) (engine : db_engine) (st : state) :
  Forall (fun r => caught net (snd r) = true) RESOURCES ->
  exists data st1,
    fetch_all_data net st = (Ok data, st1) /\
    data = map (fun r => (fst r, fetch_value net (snd r))) RESOURCES /\
    disk st1 = disk st /\
    log st1 = (log st ++ flat_map (fun r => fetch_log net (snd r)) RESOURCES)%list /\
    (forall key url section e s,
        (key, url) ∈ RESOURCES ->
        (key, section) ∈ WRITE_SECTIONS py_int ->
        fetch_outcome net url = Raise e ->
        dict_get data key = Some PNone /\ section engine data s = (Ok (), s)) /\
    (forall s, store_data py_int engine data s =
               store_data py_int engine (fetched_only net) s) /\
    (forall w, connect_error engine = None ->
               transaction py_int engine (fetched_only net) (disk st) = Ok w ->
               disk (snd (store_data py_int engine data st1)) = w).
Proof.
  intros H. rewrite (fetch_all_data_caught net st H).
  eexists _, _. split; [reflexivity|]. split; [reflexivity|].
  split; [reflexivity|]. split; [reflexivity|].
  fold (fetched net).
  assert (Hext : forall s, store_data py_int engine (fetched net) s =
                           store_data py_int engine (fetched_only net) s).
  { intros s. apply store_data_plan_ext, plan_fetched_only. }
  split; [|split; [exact Hext|]].
  - intros key url section e s Hr Hs He.
    assert (Hd : dict_get (fetched net) key = Some PNone).
    { rewrite (fetched_entry net key url Hr). unfold fetch_value. rewrite He.
      reflexivity. }
    split; [exact Hd|]. apply (skipped_section py_int engine _ key section s Hs Hd).
  - intros w Hc Ht. rewrite Hext, store_data_disk, Hc. cbn [disk]. rewrite Ht.
    reflexivity.
Qed.

Lemma fetch_failures_do_not_abort_witness :
  exists data st1,
    fetch_all_data war_feed_without_news empty_store = (Ok data, st1) /\
    dict_get data "news" = Some PNone /\
    cell (disk (snd (store_data decimal_int sound_engine data st1))) "war_status" 1 =
      Some [Lit (PInt 2); Lit (PInt 9000); SqlNull; SqlNull; Lit (PInt 1);
            Lit (PInt 100); SqlNull; SqlNull] /\
    cell (disk (snd (store_data decimal_int sound_engine data st1)))
         "war_news" 42 = None.
Proof.
  destruct (fetch_failures_do_not_abort decimal_int war_feed_without_news
              sound_engine empty_store)
    as (data & st1 & Hf & Hdata & Hdisk & _).
  { repeat constructor. }
  exists data, st1. split; [exact Hf|].
  rewrite store_data_disk, Hdisk, Hdata.
  vm_compute. repeat split.
Defined.

(** C4 as stated fails.  A fetch may fail with an exception that
    [fetch_json] does not catch: here the body of the info endpoint is
    nested too deeply for the JSON decoder.  The exception leaves [main];
    news, campaign, major orders and planets are never requested, and the
    status that was fetched is not stored, although it is stored when the
    info endpoint answers well.  And a fetch that ends in a status outside
    2xx need not contribute zero rows: the body of a 300 answer is stored. *)
Lemma uncaught_fetch_failure_aborts :
  main war_feed_deep_info decimal_int sound_engine empty_store =
  (Raise too_deep,
   State ∅ None
     [(INFO, "Pipeline started.");
      fetch_success_record (API_BASE_URL +:+ "/status");
      fetch_success_record (API_BASE_URL +:+ "/info")]) /\
  is_Some (cell (disk (snd (main war_feed decimal_int sound_engine empty_store)))
                "war_status" 1) /\
  fetch_log war_feed_news_300 (API_BASE_URL +:+ "/news") =
    [fetch_success_record (API_BASE_URL +:+ "/news")] /\
  is_Some (cell (disk (snd (main war_feed_news_300 decimal_int sound_engine
                              empty_store))) "war_news" 42).
Proof. vm_compute. repeat split; eauto. Qed.

(** C5 as the code has it: a fetch that ends in a 4xx or 5xx status, or in a
    [RequestException] of the transport, makes [fetch_json] return [None] and
    write one ERROR record naming the URL and the cause; nothing is raised. *)
Theorem fetch_json_returns_None (net : transport) (url : string) (st : state)
    (e : exn) :
  fetch_failure net url = Some e ->
  is_request_exception e = true ->
  fetch_json net url st =
  (Ok PNone, State (disk st) (conn st) (log st ++ [fetch_error_record url e])).
Proof. apply fetch_json_failure. Qed.

Lemma fetch_json_returns_None_witness :
  fetch_json net_not_found PLANETS_URL empty_store =
  (Ok PNone,
   State ∅ None ([] ++ [fetch_error_record PLANETS_URL not_found_error])).
Proof.
  apply (fetch_json_returns_None net_not_found PLANETS_URL empty_store
           not_found_error); reflexivity.
Defined.

(** C5 as stated fails: the value returned for a failed fetch is [None]
    whatever the resource and whatever the cause, the same value that a
    successful fetch of a JSON [null] returns; and a status outside 2xx that
    is neither 4xx nor 5xx is no failure at all. *)
Lemma fetch_json_failure_carries_nothing :
  fetch_failure net_not_found (API_BASE_URL +:+ "/status") <> None /\
  fetch_failure net_timeout (API_BASE_URL +:+ "/news") <> None /\
  fetch_failure net_null PLANETS_URL = None /\
  fst (fetch_json net_not_found (API_BASE_URL +:+ "/status") empty_store) = Ok PNone /\
  fst (fetch_json net_timeout (API_BASE_URL +:+ "/news") empty_store) = Ok PNone /\
  fst (fetch_json net_null PLANETS_URL empty_store) = Ok PNone /\
  fst (fetch_json net_multiple_choices PLANETS_URL empty_store) = Ok (PList [PInt 1]).
Proof. repeat split; discriminate. Qed.

(** C6 as the code has it.  For a record [d] of any resource, a field that
    is missing from it (or from a nested object of it, or whose nested object
    is missing) is written as NULL, and a missing [position] gives NULL
    [position_x] and [position_y] without raising; but a missing [waypoints]
    is written as the empty list, a missing [environmentals] as the JSON text
    of the empty list, and missing [tasks] as the JSON text of [None]. *)
Theorem absent_fields (py_int : string -> result Z) (c1 c2 c3 c4 : pyval)
    (key : string) (d : pydict) :
  (forall s b fields ps col path,
      In (s, b, fields) (builders py_int c1 c2 c3 c4 key) ->
      b (PDict d) = Ok ps ->
      In (col, path) fields ->
      absent d path ->
      column s ps col = SqlNull) /\
  (dict_get d "position" = None ->
   exists ps, war_info_params c1 c2 c3 c4 (PDict d) = Ok ps /\
              column insert_war_info ps "position_x" = SqlNull /\
              column insert_war_info ps "position_y" = SqlNull) /\
  (forall ps, war_info_params c1 c2 c3 c4 (PDict d) = Ok ps ->
              dict_get d "waypoints" = None ->
              column insert_war_info ps "waypoints" = Lit (PList [])) /\
  (forall ps, planets_params py_int (key, PDict d) = Ok ps ->
              dict_get d "environmentals" = None ->
              column insert_planets ps "environmentals" = JsonDumps (PList [])) /\
  (forall ps, war_major_orders_params (PDict d) = Ok ps ->
              absent d ["setting"; "tasks"] ->
              column insert_war_major_orders ps "setting_tasks" = JsonDumps PNone).
Proof.
  split; [|split; [|split; [|split]]].
  - intros s b fields ps col path. apply absent_field_null.
  - intros Hpos.
    unfold war_info_params, mbind, result_bind, mret, result_ret, py_get.
    rewrite Hpos. eexists. split; [reflexivity|]. split; reflexivity.
  - intros ps Hps Hw.
    unfold war_info_params, mbind, result_bind, mret, result_ret, py_get in Hps.
    rewrite Hw in Hps.
    destruct (dict_get d "position") as [[]|]; try discriminate Hps;
      cbn in Hps; injection Hps as <-; reflexivity.
  - intros ps Hps He.
    unfold planets_params, mbind, result_bind, mret, result_ret, py_get in Hps.
    rewrite He in Hps.
    destruct (py_int key); destruct (dict_get d "biome") as [[]|];
      try discriminate Hps; cbn in Hps; injection Hps as <-; reflexivity.
  - intros ps Hps Habs.
    unfold war_major_orders_params, mbind, result_bind, mret, result_ret, py_get in Hps.
    destruct (dict_get d "setting") as [[| | | | | |ds]|] eqn:Hsetting;
      try discriminate Hps.
    + destruct (dict_get ds "reward") as [[]|]; try discriminate Hps;
        cbn in Hps; injection Hps as <-; null_column.
    + cbn in Hps. injection Hps as <-. reflexivity.
Qed.

Lemma absent_fields_witness :
  exists ps,
    war_info_params PNone PNone PNone PNone
      (PDict info_without_position_and_waypoints) = Ok ps /\
    column insert_war_info ps "position_x" = SqlNull /\
    column insert_war_info ps "position_y" = SqlNull.
Proof.
  apply (absent_fields decimal_int PNone PNone PNone PNone "1"
           info_without_position_and_waypoints).
  reflexivity.
Defined.

(** C6 as stated fails: a planet info record without [waypoints] is stored
    with the empty list in that column, and a planet without
    [environmentals] with the JSON text of the empty list; neither is NULL. *)
Lemma missing_lists_are_not_null :
  dict_get info_without_position_and_waypoints "waypoints" = None /\
  dict_get planet_without_environmentals "environmentals" = None /\
  cell (disk (snd (store_data decimal_int sound_engine
                     [("info", PDict [("planetInfos",
                                       PList [PDict info_without_position_and_waypoints])]);
                      ("planets", PDict [("1", PDict planet_without_environmentals)])]
                     empty_store))) "war_info" 1
  = Some [SqlNull; SqlNull; SqlNull; Lit (PList []); Lit (PInt 3); SqlNull;
          SqlNull; SqlNull; SqlNull; SqlNull; SqlNull; SqlNull] /\
  cell (disk (snd (store_data decimal_int sound_engine
                     [("info", PDict [("planetInfos",
                                       PList [PDict info_without_position_and_waypoints])]);
                      ("planets", PDict [("1", PDict planet_without_environmentals)])]
                     empty_store))) "planets" 1
  = Some [Lit (PStr "Super Earth"); SqlNull; SqlNull; SqlNull;
          JsonDumps (PList [])] /\
  Lit (PList []) <> SqlNull /\ JsonDumps (PList []) <> SqlNull.
Proof.
  split; [reflexivity|]. split; [reflexivity|].
  split; [vm_compute; reflexivity|]. split; [vm_compute; reflexivity|].
  split; discriminate.
Qed.

(** C7.  A call of [store_data] whose [try] body goes through, on a payload
    that carries a tuple for key [k] of a relation other than war_news, with
    a row already stored under [k]: afterwards the row under [k] holds, in
    every non-key column, what the column keeps of the parameter that the
    last such tuple binds to it, and nothing of the old row; and the rows
    of the relation under the keys that the payload does not carry are
    unchanged. *)
Theorem upsert_replaces_row (py_int : string -> result Z) (engine : db_engine)
    (data : pydict) (st st' : state) (t : string)
    (r1 r2 : list (result (list param))) (ps : list param) (k : Z) (old : row) :
  store_body py_int engine data (State (disk st) None (log st)) = (Ok (), st') ->
  t <> "war_news" ->
  payload_rows py_int data t = (r1 ++ Ok ps :: r2)%list ->
  insert_key engine (relation_insert t) ps = Some k ->
  k ∉ omap (row_key engine t) r2 ->
  cell (disk st) t k = Some old ->
  exists new,
    store_values engine (column_types t) (tl ps) = Ok new /\
    cell (disk (snd (store_data py_int engine data st))) t k = Some new /\
    (forall k', k' ∉ engine_keys py_int engine data t ->
       cell (disk (snd (store_data py_int engine data st))) t k' =
       cell (disk st) t k').
Proof.
  intros Hb Hnews Hrows Hk Hlast _.
  destruct (store_body_returned py_int engine data st st' Hb) as (Hc & w & Hw & _).
  destruct (last_row_stored py_int engine data _ w t r1 r2 ps k
              Hw Hnews Hrows Hk Hlast)
    as (new & Hvals & Hcell).
  exists new. rewrite store_data_disk, Hc, Hw.
  split; [exact Hvals|]. split; [exact Hcell|].
  intros k' Hk'. apply (transaction_frame py_int engine data _ _ t k' Hw Hk').
Qed.

Lemma upsert_replaces_row_witness :
  let before := State status_of_planets_5_and_6 None [] in
  let after := snd (store_data decimal_int sound_engine planet_5_payload before) in
  cell (disk after) "war_status" 5 = Some (tl planet_5_health_80) /\
  cell (disk after) "war_status" 6 = cell (disk before) "war_status" 6.
Proof.
  intros before after.
  destruct (upsert_replaces_row decimal_int sound_engine planet_5_payload before
              (snd (store_body decimal_int sound_engine planet_5_payload before))
              "war_status" [] [] planet_5_health_80 5
              [Lit (PInt 1); Lit (PInt 100); Lit (PInt 0); Lit (PInt 10);
               Lit (PInt 1); Lit (PInt 50); Lit (PInt 1); Lit (PInt 3)])
    as (new & Hnew & H5 & H6).
  - vm_compute. reflexivity.
  - discriminate.
  - reflexivity.
  - reflexivity.
  - intros H. inversion H.
  - vm_compute. reflexivity.
  - vm_compute in Hnew. injection Hnew as <-.
    split; [exact H5|]. apply H6.
    intros H. vm_compute in H. apply list_elem_of_In in H. cbn in H.
    destruct H as [H|[]]. discriminate H.
Defined.


(** C9 as the code has it: once connected, a run whose body raises commits
    nothing.  When the rollback goes through, the run writes one ERROR
    record with the cause and returns [None] to its caller, as a successful
    run does; when the rollback raises in its turn, that exception leaves
    [store_data] and nothing is logged. *)
Theorem store_data_failure_logged (py_int : string -> result Z)
    (engine : db_engine) (data : pydict) (st st' : state) (e : exn) :
  connect_error engine = None ->
  store_body py_int engine data (State (disk st) None (log st)) = (Raise e, st') ->
  store_data py_int engine data st =
  match rollback_error engine with
  | None => (Ok PNone, State (disk st) None (log st' ++ [error_record e]))
  | Some e' => (Raise e', State (disk st) None (log st'))
  end.
Proof. apply store_data_caught. Qed.

Lemma store_data_failure_logged_witness :
  store_data decimal_int orders_failing_engine campaign_and_order empty_store =
  (Ok PNone,
   State ∅ None
     [(INFO, "Stored war_campaign data successfully.");
      (ERROR, "Error storing data: integer out of range")]).
Proof.
  etransitivity.
  - eapply (store_data_failure_logged decimal_int orders_failing_engine
              campaign_and_order empty_store); [reflexivity|].
    vm_compute. reflexivity.
  - reflexivity.
Defined.

(** C9 as stated fails: a run whose upsert is refused returns to its caller
    exactly what a successful run returns, and [main] goes on to log that
    the pipeline finished successfully. *)
Lemma hard_failure_not_surfaced :
  (exists e st', store_body decimal_int orders_failing_engine campaign_and_order
                   empty_store = (Raise e, st')) /\
  disk (snd (store_data decimal_int orders_failing_engine campaign_and_order
               empty_store)) = ∅ /\
  disk (snd (store_data decimal_int sound_engine campaign_and_order
               empty_store)) <> ∅ /\
  fst (store_data decimal_int orders_failing_engine campaign_and_order empty_store) =
  fst (store_data decimal_int sound_engine campaign_and_order empty_store) /\
  fst (main war_feed decimal_int orders_failing_engine empty_store) =
  fst (main war_feed decimal_int sound_engine empty_store) /\
  last (log (snd (main war_feed decimal_int orders_failing_engine empty_store))) =
  Some (INFO, "Pipeline finished successfully.").
Proof.
  split; [eexists _, _; vm_compute; reflexivity|].
  split; [vm_compute; reflexivity|].
  split; [|repeat split].
  intros H. apply (f_equal (fun db => db !! "war_campaign")) in H.
  vm_compute in H. discriminate H.
Qed.

(** C10.  When [psycopg2.connect] raises, the handler's use of the unbound
    name [conn] raises [UnboundLocalError] in its turn, and that error
    reaches the caller of [store_data], with nothing committed and nothing
    logged; so [store_data] returns only when the connection was made. *)
Theorem store_data_unbound_conn (py_int : string -> result Z)
    (engine : db_engine) (data : pydict) (st : state) :
  (forall e, connect_error engine = Some e ->
     exists msg, store_data py_int engine data st =
                 (Raise (Exn UnboundLocalError msg),
                  State (disk st) None (log st))) /\
  (forall v st', store_data py_int engine data st = (Ok v, st') ->
     connect_error engine = None).
Proof.
  split.
  - intros e Hc. eexists.
    rewrite (store_data_unconnected py_int engine data st e Hc). reflexivity.
  - intros v st' H. destruct (connect_error engine) as [e|] eqn:Hc; [|reflexivity].
    rewrite (store_data_unconnected py_int engine data st e Hc) in H.
    discriminate H.
Qed.

Lemma store_data_unbound_conn_witness :
  exists msg,
    store_data decimal_int unreachable_engine campaign_and_order empty_store =
    (Raise (Exn UnboundLocalError msg), State ∅ None []).
Proof.
  apply (proj1 (store_data_unbound_conn decimal_int unreachable_engine
                  campaign_and_order empty_store)
           (Exn (DatabaseError "OperationalError") "connection refused")).
  reflexivity.
Defined.

(** * Further properties *)

(** ** Properties of [store_data] *)

(** X1.  A call of [store_data] whose [try] body goes through returns [None],
    and adds to the log one record for each resource that is present in the
    payload, in the order of the write sections, and then the record that
    all data was stored. *)
Theorem store_data_success_log (py_int : string -> result Z)
    (engine : db_engine) (data : pydict) (st st' : state) :
  store_body py_int engine data (State (disk st) None (log st)) = (Ok (), st') ->
  store_data py_int engine data st =
  (Ok PNone,
   State (disk st') None
     (log st ++ section_records data
        ++ [(INFO, "All data stored successfully.")])).
Proof.
  intros Hb. rewrite (store_data_returned py_int engine data st st' Hb).
  destruct (store_body_returned py_int engine data st st' Hb) as (_ & w & _ & ->).
  reflexivity.
Qed.

Lemma store_data_success_log_witness :
  store_data decimal_int sound_engine campaign_and_order empty_store =
  (Ok PNone,
   State (disk (snd (store_data decimal_int sound_engine campaign_and_order
                       empty_store))) None
     [(INFO, "Stored war_campaign data successfully.");
      (INFO, "Stored war_major_orders data successfully.");
      (INFO, "All data stored successfully.")]).
Proof.
  etransitivity.
  - eapply (store_data_success_log decimal_int sound_engine campaign_and_order
              empty_store).
    vm_compute. reflexivity.
  - vm_compute. reflexivity.
Defined.

(** X2.  When no resource of the payload is present (each is missing, [None]
    or empty) and the engine refuses nothing, the run commits: it creates
    the relations that did not exist, changes no row, and logs only that all
    data was stored. *)
Theorem store_data_nothing_present (py_int : string -> result Z)
    (engine : db_engine) (data : pydict) (st : state) :
  connect_error engine = None ->
  Forall (fun c => ddl_error engine c = None) SCHEMA ->
  commit_error engine = None ->
  Forall (fun r => present data (fst r) = false) RESOURCES ->
  exists w,
    store_data py_int engine data st =
    (Ok PNone, State w None (log st ++ [(INFO, "All data stored successfully.")])) /\
    (forall t k, cell w t k = cell (disk st) t k) /\
    (forall t, is_Some (w !! t) <-> is_Some (disk st !! t) \/ t ∈ relations).
Proof.
  intros Hc Hddl Hcommit Hp.
  assert (Hplan : plan py_int data = []).
  { unfold RESOURCES, ENDPOINTS in Hp. cbn [app] in Hp.
    repeat (apply Forall_cons_1 in Hp as [? Hp]). cbn [fst] in *.
    unfold plan, war_status_ops, war_info_ops, war_news_ops, war_campaign_ops,
      war_major_orders_ops, planets_ops.
    repeat match goal with H : present data _ = false |- _ => rewrite H; clear H end.
    reflexivity. }
  destruct (create_all_total engine SCHEMA (disk st) Hddl) as [w Hw].
  assert (Ht : transaction py_int engine data (disk st) = Ok w).
  { unfold transaction, mbind, result_bind. rewrite Hw, Hplan, Hcommit. reflexivity. }
  exists w. pose proof (store_data_connected py_int engine data st Hc) as H.
  rewrite Ht, Hplan in H. split; [exact H|].
  destruct (transaction_cells py_int engine data _ _ Ht) as [Hcell Hdom].
  rewrite Hplan in Hcell. split; [exact Hcell | exact Hdom].
Qed.

Lemma store_data_nothing_present_witness :
  exists w,
    store_data decimal_int sound_engine [("news", PList []); ("planets", PNone)]
      store_with_news =
    (Ok PNone, State w None [(INFO, "All data stored successfully.")]) /\
    cell w "war_news" 42 = Some old_news_row /\
    is_Some (w !! "planets").
Proof.
  destruct (store_data_nothing_present decimal_int sound_engine
              [("news", PList []); ("planets", PNone)] store_with_news)
    as (w & H & Hcell & Hdom).
  - reflexivity.
  - repeat constructor.
  - reflexivity.
  - repeat constructor.
  - exists w. split; [exact H|]. split.
    + rewrite Hcell. reflexivity.
    + apply Hdom. right. apply list_elem_of_In. cbn. tauto.
Defined.

(** X3.  [store_data] never touches a relation other than its six; and
    after a call whose [try] body went through, all six exist. *)
Theorem store_data_only_six_relations (py_int : string -> result Z)
    (engine : db_engine) (data : pydict) (st : state) :
  (forall t, t ∉ relations ->
     disk (snd (store_data py_int engine data st)) !! t = disk st !! t) /\
  (forall st',
      store_body py_int engine data (State (disk st) None (log st)) = (Ok (), st') ->
      forall t, t ∈ relations ->
                is_Some (disk (snd (store_data py_int engine data st)) !! t)).
Proof.
  split.
  - intros t Ht. rewrite store_data_disk.
    destruct (connect_error engine); [reflexivity|].
    destruct (transaction py_int engine data (disk st)) as [w|e] eqn:E; [|reflexivity].
    destruct (transaction_cells py_int engine data _ _ E) as [Hcell Hdom].
    apply table_ext.
    + rewrite Hdom. tauto.
    + intros k. rewrite Hcell. apply slot_other_relation; [apply plan_known|exact Ht].
  - intros st' Hb t Ht.
    destruct (store_body_returned py_int engine data st st' Hb) as (Hc & w & Hw & _).
    rewrite store_data_disk, Hc, Hw.
    apply (transaction_cells py_int engine data _ _ Hw). right. exact Ht.
Qed.

Lemma store_data_only_six_relations_witness :
  is_Some (disk (snd (store_data decimal_int sound_engine campaign_and_order
                        empty_store))
             !! "war_news").
Proof.
  eapply (store_data_only_six_relations decimal_int sound_engine
            campaign_and_order empty_store).
  - vm_compute. reflexivity.
  - apply list_elem_of_In. cbn. tauto.
Defined.

(** ** Properties of [fetch_json], [fetch_all_data] and [main] *)

(** X4.  Once the status of a response has been accepted, [fetch_json] has
    logged the fetch as successful before it reads the body: a body that
    parses is returned; a body whose decoding raises a [RequestException]
    gives [None] and an ERROR record after the success record; any other
    exception of the decoding leaves [fetch_json]. *)
Theorem fetch_json_after_status (net : transport) (url : string) (st : state)
    (r : response) :
  net url = Ok r ->
  raise_for_status url r = Ok () ->
  fetch_json net url st =
  match json_body r with
  | Ok v =>
      (Ok v, State (disk st) (conn st) (log st ++ [fetch_success_record url]))
  | Raise e =>
      if is_request_exception e then
        (Ok PNone,
         State (disk st) (conn st)
           (log st ++ [fetch_success_record url; fetch_error_record url e]))
      else
        (Raise e,
         State (disk st) (conn st) (log st ++ [fetch_success_record url]))
  end.
Proof.
  intros Hn Hs. unfold fetch_json, try_except.
  unfold mbind, M_bind, lift, logging_info, logging_error; cbn [disk conn log].
  rewrite Hn, Hs. cbn [disk conn log].
  destruct (json_body r) as [v|e]; [reflexivity|].
  destruct (is_request_exception e); [|reflexivity].
  cbn [disk conn log]. rewrite <- app_assoc. reflexivity.
Qed.

Lemma fetch_json_after_status_witness :
  fetch_json
    (fun _ => Ok (Response 200 "OK"
                    (Raise (Exn (RequestException "JSONDecodeError") "Expecting value"))))
    PLANETS_URL empty_store =
  (Ok PNone,
   State ∅ None
     [fetch_success_record PLANETS_URL;
      fetch_error_record PLANETS_URL
        (Exn (RequestException "JSONDecodeError") "Expecting value")]).
Proof.
  etransitivity.
  - eapply (fetch_json_after_status _ PLANETS_URL empty_store); reflexivity.
  - reflexivity.
Defined.

(** X5.  An exception that is not a [RequestException] is not caught by
    [fetch_json]: it reaches the caller, and no ERROR record is written for
    it. *)
Theorem fetch_json_propagates (net : transport) (url : string) (st : state)
    (e : exn) :
  fetch_outcome net url = Raise e ->
  is_request_exception e = false ->
  exists l,
    fetch_json net url st = (Raise e, State (disk st) (conn st) (log st ++ l)) /\
    Forall (fun r => fst r = INFO) l.
Proof.
  intros Ho He.
  destruct (fetch_json_uncaught net url st) as (e' & l & Ho' & _ & Hf & _ & Hl).
  { unfold caught. rewrite Ho. exact He. }
  rewrite Ho in Ho'. injection Ho' as <-. eauto.
Qed.

Lemma fetch_json_propagates_witness :
  exists l,
    fetch_json (fun _ => Raise (Exn ValueError "Invalid URL")) PLANETS_URL empty_store
    = (Raise (Exn ValueError "Invalid URL"), State ∅ None ([] ++ l)) /\
    Forall (fun r => fst r = INFO) l.
Proof.
  apply (fetch_json_propagates (fun _ => Raise (Exn ValueError "Invalid URL"))
           PLANETS_URL empty_store); reflexivity.
Defined.

(** X6.  If the fetch of one resource raises an exception that [fetch_json]
    does not catch, and no fetch before it does, [main] raises that
    exception.  The log has gained the start record, the records of the
    fetches before it and, when the status of the failing fetch had been
    accepted, its success record; nothing is committed.  The resources
    after it are not requested and [store_data] is not reached: the outcome
    is the same for every transport that answers alike up to the failing
    resource, and for every engine. *)
Theorem main_stops_at_uncaught_fetch (py_int : string -> result Z)
    (net : transport) (engine : db_engine) (st : state)
    (pre post : list (string * string)) (key url : string) (e : exn) :
  RESOURCES = (pre ++ (key, url) :: post)%list ->
  Forall (fun r => caught net (snd r) = true) pre ->
  fetch_outcome net url = Raise e ->
  is_request_exception e = false ->
  main net py_int engine st =
    (Raise e,
     State (disk st) (conn st)
       (log st ++ (INFO, "Pipeline started.")
          :: flat_map (fun r => fetch_log net (snd r)) pre
          ++ uncaught_log net url)) /\
  (forall net' engine',
      (forall r, In r pre -> net' (snd r) = net (snd r)) ->
      net' url = net url ->
      main net' py_int engine' st = main net py_int engine st).
Proof.
  intros Hres Hpre He Hne.
  assert (Hmain : forall net0 engine0,
             Forall (fun r => caught net0 (snd r) = true) pre ->
             fetch_outcome net0 url = Raise e ->
             main net0 py_int engine0 st =
             (Raise e,
              State (disk st) (conn st)
                (log st ++ (INFO, "Pipeline started.")
                   :: flat_map (fun r => fetch_log net0 (snd r)) pre
                   ++ uncaught_log net0 url))).
  { intros net0 engine0 Hpre0 He0. unfold main, mbind, M_bind, logging_info.
    rewrite (fetch_all_data_stops net0 _ pre post key url e Hres Hpre0 He0 Hne).
    cbn [disk conn log]. rewrite <- app_assoc. reflexivity. }
  split; [apply Hmain; assumption|].
  intros net' engine' Hsame Hurl.
  assert (Hlog : flat_map (fun r => fetch_log net' (snd r)) pre =
                 flat_map (fun r => fetch_log net (snd r)) pre).
  { apply fetch_log_ext, Hsame. }
  rewrite (Hmain net engine Hpre He), (Hmain net' engine').
  - rewrite Hlog. unfold uncaught_log. rewrite Hurl. reflexivity.
  - rewrite Forall_forall in Hpre |- *. intros r Hr.
    specialize (Hpre r Hr). apply list_elem_of_In in Hr.
    unfold caught, fetch_outcome in *. rewrite (Hsame r Hr). exact Hpre.
  - unfold fetch_outcome in *. rewrite Hurl. exact He.
Qed.

Lemma main_stops_at_uncaught_fetch_witness :
  main war_feed_deep_info decimal_int sound_engine empty_store =
  (Raise too_deep,
   State ∅ None
     [(INFO, "Pipeline started.");
      fetch_success_record (API_BASE_URL +:+ "/status");
      fetch_success_record (API_BASE_URL +:+ "/info")]).
Proof.
  destruct (main_stops_at_uncaught_fetch decimal_int war_feed_deep_info
              sound_engine empty_store [("status", API_BASE_URL +:+ "/status")]
              [("news", API_BASE_URL +:+ "/news");
               ("campaign", API_BASE_URL +:+ "/campaign");
               ("major_orders", API_BASE_URL +:+ "/major-orders");
               ("planets", PLANETS_URL)]
              "info" (API_BASE_URL +:+ "/info") too_deep) as [H _].
  - reflexivity.
  - repeat constructor.
  - reflexivity.
  - reflexivity.
  - exact H.
Defined.

(** X7.  When every failure of the six fetches is one that [fetch_json]
    catches, the outcome of [main] is the one of the store step.  If the
    connection cannot be made, [main] raises the error of the unbound
    [conn] and the log ends with the fetch records.  If the store step
    commits, or fails and is rolled back, [main] returns [None] and its
    last log record says that the pipeline finished successfully; the
    committed contents are the ones of the transaction in the first case and
    the previous ones in the second.  If the store step fails and the
    rollback raises, [main] raises that exception with nothing committed. *)
Theorem main_outcome (py_int : string -> result Z) (net : transport)
    (engine : db_engine) (st : state) :
  Forall (fun r => caught net (snd r) = true) RESOURCES ->
  match connect_error engine with
  | Some _ =>
      exists msg,
        main net py_int engine st =
        (Raise (Exn UnboundLocalError msg),
         State (disk st) None
           (log st ++ (INFO, "Pipeline started.")
              :: flat_map (fun r => fetch_log net (snd r)) RESOURCES))
  | None =>
      match transaction py_int engine (fetched net) (disk st),
            rollback_error engine with
      | Ok w, _ =>
          fst (main net py_int engine st) = Ok PNone /\
          disk (snd (main net py_int engine st)) = w /\
          last (log (snd (main net py_int engine st))) =
            Some (INFO, "Pipeline finished successfully.")
      | Raise _, None =>
          fst (main net py_int engine st) = Ok PNone /\
          disk (snd (main net py_int engine st)) = disk st /\
          last (log (snd (main net py_int engine st))) =
            Some (INFO, "Pipeline finished successfully.")
      | Raise _, Some e' =>
          exists l, main net py_int engine st =
                    (Raise e', State (disk st) None l)
      end
  end.
Proof.
  intros H. unfold main, mbind, M_bind, logging_info.
  rewrite (fetch_all_data_caught net _ H). cbn [disk conn log].
  fold (fetched net).
  destruct (connect_error engine) as [e|] eqn:Hc.
  - eexists. rewrite (store_data_unconnected py_int engine (fetched net) _ e Hc).
    cbn [disk log]. rewrite <- app_assoc. reflexivity.
  - pose proof (store_data_connected py_int engine (fetched net)
                  (State (disk st) (conn st)
                     ((log st ++ [(INFO, "Pipeline started.")]) ++
                      flat_map (fun r => fetch_log net (snd r)) RESOURCES)) Hc) as Hs.
    cbn [disk log] in Hs.
    destruct (transaction py_int engine (fetched net) (disk st)) as [w|e].
    + rewrite Hs. cbn [fst snd disk log]. repeat split. apply last_snoc.
    + destruct Hs as [l Hs]. rewrite Hs.
      destruct (rollback_error engine) as [e'|].
      * eexists. reflexivity.
      * cbn [fst snd disk log]. repeat split. apply last_snoc.
Qed.

Lemma main_outcome_witness :
  (fst (main war_feed decimal_int orders_failing_engine empty_store) = Ok PNone /\
   disk (snd (main war_feed decimal_int orders_failing_engine empty_store)) = ∅ /\
   last (log (snd (main war_feed decimal_int orders_failing_engine empty_store))) =
     Some (INFO, "Pipeline finished successfully.")) /\
  (exists l, main war_feed decimal_int lost_connection_engine empty_store =
             (Raise connection_lost, State ∅ None l)).
Proof.
  split.
  - apply (main_outcome decimal_int war_feed orders_failing_engine empty_store).
    repeat constructor.
  - apply (main_outcome decimal_int war_feed lost_connection_engine empty_store).
    repeat constructor.
Defined.

(** ** Properties of the schema statements *)

(** X8.  The six [CREATE TABLE IF NOT EXISTS] statements, when they go
    through, leave every stored row as it was and every relation that
    existed in place, make the six relations exist, and can be run again on
    the result without changing anything. *)
Theorem ensure_schema_idempotent (engine : db_engine) (d w : database)
    (l : list (level * string)) (st1 : state) :
  for_each SCHEMA (cursor_execute_create engine) (State d (Some w) l) = (Ok (), st1) ->
  exists w1,
    st1 = State d (Some w1) l /\
    (forall t k, cell w1 t k = cell w t k) /\
    (forall t, is_Some (w1 !! t) <-> is_Some (w !! t) \/ t ∈ relations) /\
    for_each SCHEMA (cursor_execute_create engine) st1 = (Ok (), st1).
Proof.
  intros H. pose proof (create_all_runs engine SCHEMA d w l) as Hr.
  destruct (create_all engine SCHEMA w) as [w1|e] eqn:E.
  - rewrite Hr in H. injection H as <-. exists w1.
    destruct (create_all_ok engine SCHEMA w w1 E) as (Hcell & Hdom & Hddl).
    repeat split; [exact Hcell | apply Hdom | apply Hdom |].
    pose proof (create_all_runs engine SCHEMA d w1 l) as Hr1.
    rewrite (create_all_again engine SCHEMA w1 Hddl) in Hr1; [exact Hr1|].
    intros t Ht. apply Hdom. right. exact Ht.
  - destruct Hr as [w' Hr]. rewrite Hr in H. discriminate H.
Qed.

Lemma ensure_schema_idempotent_witness :
  exists w1,
    snd schema_on_store_with_news = State ∅ (Some w1) [] /\
    (forall t k, cell w1 t k = cell (disk store_with_news) t k) /\
    (forall t, is_Some (w1 !! t) <->
               is_Some (disk store_with_news !! t) \/ t ∈ relations) /\
    for_each SCHEMA (cursor_execute_create sound_engine)
      (snd schema_on_store_with_news) = (Ok (), snd schema_on_store_with_news).
Proof.
  apply (ensure_schema_idempotent sound_engine ∅ (disk store_with_news) []).
  vm_compute. reflexivity.
Defined.

(** ** Payloads that abort the run *)

(** X11.  A record of a list-fed relation from which no key can be read (it
    is not an object, or its key field is missing or [null]) makes the
    whole run fail, whatever the engine: nothing is committed, and when the
    connection and the rollback work, [store_data] logs the error and
    returns [None]. *)
Theorem record_without_key_aborts (py_int : string -> result Z)
    (engine : db_engine) (data : pydict) (st : state) (t : string)
    (item : pyval) :
  In item (payload_records data t) ->
  keyless (key_field t) item = true ->
  disk (snd (store_data py_int engine data st)) = disk st /\
  (connect_error engine = None -> rollback_error engine = None ->
   exists l e, store_data py_int engine data st =
               (Ok PNone, State (disk st) None (l ++ [error_record e]))).
Proof.
  intros Hin Hk.
  destruct (records_in_plan py_int data t item Hin) as (_ & _ & Hop).
  apply (store_data_fails py_int engine data st _ Hop).
  apply keyless_fails; assumption.
Qed.

Lemma record_without_key_aborts_witness :
  disk (snd (store_data decimal_int sound_engine
               [("campaign", PList [PDict [("planetIndex", PInt 7)]]);
                ("news", PList [PDict [("message", PStr "no id")]])]
               empty_store)) = ∅ /\
  exists l e,
    store_data decimal_int sound_engine
      [("campaign", PList [PDict [("planetIndex", PInt 7)]]);
       ("news", PList [PDict [("message", PStr "no id")]])]
      empty_store =
    (Ok PNone, State ∅ None (l ++ [error_record e])).
Proof.
  destruct (record_without_key_aborts decimal_int sound_engine
              [("campaign", PList [PDict [("planetIndex", PInt 7)]]);
               ("news", PList [PDict [("message", PStr "no id")]])]
              empty_store "war_news" (PDict [("message", PStr "no id")]))
    as [Hd Hr].
  - left. reflexivity.
  - reflexivity.
  - split; [exact Hd|]. apply Hr; reflexivity.
Defined.

(** X12.  A record whose [position], [biome] or [setting] is present but is
    not an object makes the whole run fail: nothing is committed, and when
    the connection and the rollback work, [store_data] logs the error and
    returns [None]. *)
Theorem nested_non_object_aborts (py_int : string -> result Z)
    (engine : db_engine) (data : pydict) (st : state) (t obj : string)
    (d : pydict) (v : pyval) :
  In (t, obj) NESTED_OBJECTS ->
  In (PDict d) (payload_records data t) ->
  dict_get d obj = Some v ->
  is_dict v = false ->
  disk (snd (store_data py_int engine data st)) = disk st /\
  (connect_error engine = None -> rollback_error engine = None ->
   exists l e, store_data py_int engine data st =
               (Ok PNone, State (disk st) None (l ++ [error_record e]))).
Proof.
  intros Hobj Hin Hd Hv.
  destruct (records_in_plan py_int data t _ Hin) as (_ & _ & Hop).
  apply (store_data_fails py_int engine data st _ Hop).
  destruct (nested_non_dict_raises data t obj d v Hobj Hd Hv) as [e He].
  apply (op_of_row_raise engine _ _ e He).
Qed.

Lemma nested_non_object_aborts_witness :
  disk (snd (store_data decimal_int sound_engine
               [("campaign",
                 PList [PDict [("planetIndex", PInt 7); ("biome", PNone)]])]
               empty_store)) = ∅ /\
  exists l e,
    store_data decimal_int sound_engine
      [("campaign", PList [PDict [("planetIndex", PInt 7); ("biome", PNone)]])]
      empty_store =
    (Ok PNone, State ∅ None (l ++ [error_record e])).
Proof.
  destruct (nested_non_object_aborts decimal_int sound_engine
              [("campaign",
                PList [PDict [("planetIndex", PInt 7); ("biome", PNone)]])]
              empty_store "war_campaign" "biome"
              [("planetIndex", PInt 7); ("biome", PNone)] PNone)
    as [Hd Hr].
  - cbn. tauto.
  - left. reflexivity.
  - reflexivity.
  - reflexivity.
  - split; [exact Hd|]. apply Hr; reflexivity.
Defined.

(** X13.  An entry of the planets directory whose key [int] refuses, or
    whose value is not an object, makes the whole run fail: nothing is
    committed, and when the connection and the rollback work, [store_data]
    logs the error and returns [None]. *)
Theorem planets_entry_aborts (py_int : string -> result Z)
    (engine : db_engine) (data : pydict) (st : state) (key : string)
    (planet : pyval) :
  In (key, planet) (payload_planets data) ->
  (exists e, py_int key = Raise e) \/ is_dict planet = false ->
  disk (snd (store_data py_int engine data st)) = disk st /\
  (connect_error engine = None -> rollback_error engine = None ->
   exists l e, store_data py_int engine data st =
               (Ok PNone, State (disk st) None (l ++ [error_record e]))).
Proof.
  intros Hin Hbad.
  destruct (planets_entry_raises py_int key planet Hbad) as [e He].
  apply (store_data_fails py_int engine data st _
           (planets_in_plan py_int data _ Hin)).
  apply (op_of_row_raise engine _ _ e He).
Qed.

Lemma planets_entry_aborts_witness :
  disk (snd (store_data decimal_int sound_engine
               [("planets", PDict [("one", PDict [("name", PStr "Super Earth")])])]
               empty_store)) = ∅ /\
  exists l e,
    store_data decimal_int sound_engine
      [("planets", PDict [("one", PDict [("name", PStr "Super Earth")])])]
      empty_store =
    (Ok PNone, State ∅ None (l ++ [error_record e])).
Proof.
  destruct (planets_entry_aborts decimal_int sound_engine
              [("planets", PDict [("one", PDict [("name", PStr "Super Earth")])])]
              empty_store "one" (PDict [("name", PStr "Super Earth")]))
    as [Hd Hr].
  - left. reflexivity.
  - left. eexists. reflexivity.
  - split; [exact Hd|]. apply Hr; reflexivity.
Defined.

(** X14.  A resource that is present and truthy but not of the JSON type its
    write section expects (an object for status, info and planets, a list
    for news, campaign and major_orders) makes the whole run fail, whatever
    the other resources hold: nothing is committed, and when the connection
    and the rollback work, [store_data] logs the error and returns [None]. *)
Theorem wrong_shape_aborts (py_int : string -> result Z) (engine : db_engine)
    (data : pydict) (st : state) (key : string) (v : pyval) :
  In key (map fst RESOURCES) ->
  dict_get data key = Some v ->
  truthy v = true ->
  shape_ok key v = false ->
  disk (snd (store_data py_int engine data st)) = disk st /\
  (connect_error engine = None -> rollback_error engine = None ->
   exists l e, store_data py_int engine data st =
               (Ok PNone, State (disk st) None (l ++ [error_record e]))).
Proof.
  intros Hkey Hget Ht Hs.
  destruct (wrong_shape_in_plan py_int data key v Hkey Hget Ht Hs) as [e He].
  apply (store_data_fails py_int engine data st _ He). exact I.
Qed.

Lemma wrong_shape_aborts_witness :
  disk (snd (store_data decimal_int sound_engine
               [("campaign", PList [PDict [("planetIndex", PInt 7)]]);
                ("news", PDict [("error", PStr "rate limited")])]
               empty_store)) = ∅ /\
  exists l e,
    store_data decimal_int sound_engine
      [("campaign", PList [PDict [("planetIndex", PInt 7)]]);
       ("news", PDict [("error", PStr "rate limited")])]
      empty_store =
    (Ok PNone, State ∅ None (l ++ [error_record e])).
Proof.
  destruct (wrong_shape_aborts decimal_int sound_engine
              [("campaign", PList [PDict [("planetIndex", PInt 7)]]);
               ("news", PDict [("error", PStr "rate limited")])]
              empty_store "news" (PDict [("error", PStr "rate limited")]))
    as [Hd Hr].
  - cbn. tauto.
  - reflexivity.
  - reflexivity.
  - reflexivity.
  - split; [exact Hd|]. apply Hr; reflexivity.
Defined.

(** ** What a committed run has stored *)

(** X15.  After a call of [store_data] whose [try] body went through, every
    primary key that appears in the payload of a relation is stored in that
    relation. *)
Theorem payload_keys_stored (py_int : string -> result Z) (engine : db_engine)
    (data : pydict) (st st' : state) (t : string) (k : Z) :
  store_body py_int engine data (State (disk st) None (log st)) = (Ok (), st') ->
  k ∈ payload_keys py_int data t ->
  is_Some (cell (disk (snd (store_data py_int engine data st))) t k).
Proof.
  intros Hb Hk.
  destruct (store_body_returned py_int engine data st st' Hb) as (Hc & w & Hw & _).
  rewrite store_data_disk, Hc, Hw.
  destruct (transaction_cells py_int engine data _ _ Hw) as [Hcell _].
  destruct (transaction_ok py_int engine data _ _ Hw) as (w1 & _ & Ha & _).
  rewrite Hcell. apply slot_written.
  { intros s ps Hin. apply (apply_ops_stored engine _ _ _ s ps Ha Hin). }
  destruct (payload_keys_records py_int data t k Hk)
    as [(item & Hin & Hrec)|(-> & entry & Hin & Hrec)].
  - destruct (record_written py_int engine data t item k _ _ Ha Hin Hrec)
      as (ps & _ & Hkey & Hop).
    destruct (records_in_plan py_int data t item Hin) as (_ & Ht & _).
    pose proof (in_written_keys engine _ _ ps k Hop Hkey) as H.
    rewrite Ht in H. exact H.
  - destruct (planet_written py_int engine data entry k _ _ Ha Hin Hrec)
      as (ps & _ & Hkey & Hop).
    apply (in_written_keys engine _ insert_planets ps k Hop Hkey).
Qed.

Lemma payload_keys_stored_witness :
  is_Some (cell (disk (snd (store_data decimal_int sound_engine
                             campaign_and_order empty_store)))
                "war_major_orders" 11).
Proof.
  eapply (payload_keys_stored decimal_int sound_engine campaign_and_order
            empty_store).
  - vm_compute. reflexivity.
  - vm_compute. apply list_elem_of_In. cbn. tauto.
Defined.

(** X16.  In every relation but war_news the last tuple of a key wins:
    after a call of [store_data] whose [try] body went through, the row
    stored under a key that the engine reads in the payload holds what the
    columns keep of the parameters of the last tuple with that key, whether
    or not a row was stored under it before. *)
Theorem last_record_wins (py_int : string -> result Z) (engine : db_engine)
    (data : pydict) (st st' : state) (t : string)
    (r1 r2 : list (result (list param))) (ps : list param) (k : Z) :
  store_body py_int engine data (State (disk st) None (log st)) = (Ok (), st') ->
  t <> "war_news" ->
  payload_rows py_int data t = (r1 ++ Ok ps :: r2)%list ->
  insert_key engine (relation_insert t) ps = Some k ->
  k ∉ omap (row_key engine t) r2 ->
  exists new,
    store_values engine (column_types t) (tl ps) = Ok new /\
    cell (disk (snd (store_data py_int engine data st))) t k = Some new.
Proof.
  intros Hb Hnews Hrows Hk Hlast.
  destruct (store_body_returned py_int engine data st st' Hb) as (Hc & w & Hw & _).
  rewrite store_data_disk, Hc, Hw.
  apply (last_row_stored py_int engine data _ w t r1 r2 ps k Hw Hnews Hrows Hk Hlast).
Qed.

(** Two campaign records for planet 7, the second with its index as text:
    an engine that reads the text as 7 keeps the second. *)
Lemma last_record_wins_witness :
  cell (disk (snd (store_data decimal_int converting_engine
    [("campaign", PList [PDict [("planetIndex", PInt 7); ("health", PInt 500)];
                         PDict [("planetIndex", PStr "7"); ("health", PInt 400)]])]
    empty_store))) "war_campaign" 7 =
  Some [SqlNull; SqlNull; SqlNull; Lit (PInt 400); SqlNull; SqlNull; SqlNull;
        SqlNull; SqlNull; SqlNull; SqlNull].
Proof.
  destruct (last_record_wins decimal_int converting_engine
              [("campaign",
                PList [PDict [("planetIndex", PInt 7); ("health", PInt 500)];
                       PDict [("planetIndex", PStr "7"); ("health", PInt 400)]])]
              empty_store
              (snd (store_body decimal_int converting_engine
                      [("campaign",
                        PList [PDict [("planetIndex", PInt 7); ("health", PInt 500)];
                               PDict [("planetIndex", PStr "7"); ("health", PInt 400)]])]
                      empty_store))
              "war_campaign"
              [Ok [Lit (PInt 7); SqlNull; SqlNull; SqlNull; Lit (PInt 500);
                   SqlNull; SqlNull; SqlNull; SqlNull; SqlNull; SqlNull; SqlNull]]
              []
              [Lit (PStr "7"); SqlNull; SqlNull; SqlNull; Lit (PInt 400);
               SqlNull; SqlNull; SqlNull; SqlNull; SqlNull; SqlNull; SqlNull]
              7)
    as (new & Hnew & Hcell).
  - vm_compute. reflexivity.
  - discriminate.
  - reflexivity.
  - reflexivity.
  - intros H. inversion H.
  - vm_compute in Hnew. injection Hnew as <-. exact Hcell.
Defined.

(** X17.  war_news keeps the first tuple of an id: after a call of
    [store_data] whose [try] body went through, the row stored under an id
    that was not stored before holds what the columns keep of the
    parameters of the first tuple of the payload in which the engine reads
    that id. *)
Theorem first_news_record_wins (py_int : string -> result Z)
    (engine : db_engine) (data : pydict) (st st' : state)
    (r1 r2 : list (result (list param))) (ps : list param) (k : Z) :
  store_body py_int engine data (State (disk st) None (log st)) = (Ok (), st') ->
  payload_rows py_int data "war_news" = (r1 ++ Ok ps :: r2)%list ->
  insert_key engine insert_war_news ps = Some k ->
  k ∉ omap (row_key engine "war_news") r1 ->
  cell (disk st) "war_news" k = None ->
  exists new,
    store_values engine (column_types "war_news") (tl ps) = Ok new /\
    cell (disk (snd (store_data py_int engine data st))) "war_news" k = Some new.
Proof.
  intros Hb Hrows Hk Hfirst Hnone.
  destruct (store_body_returned py_int engine data st st' Hb) as (Hc & w & Hw & _).
  rewrite store_data_disk, Hc, Hw.
  apply (first_row_stored py_int engine data _ w r1 r2 ps k Hw Hrows Hk Hfirst Hnone).
Qed.

Lemma first_news_record_wins_witness :
  cell (disk (snd (store_data decimal_int sound_engine
    [("news", PList [PDict [("id", PInt 9); ("message", PStr "first")];
                     PDict [("id", PInt 9); ("message", PStr "second")]])]
    store_with_news))) "war_news" 9 =
  Some [SqlNull; SqlNull; SqlNull; Lit (PStr "first")].
Proof.
  destruct (first_news_record_wins decimal_int sound_engine
              [("news", PList [PDict [("id", PInt 9); ("message", PStr "first")];
                               PDict [("id", PInt 9); ("message", PStr "second")]])]
              store_with_news
              (snd (store_body decimal_int sound_engine
                      [("news",
                        PList [PDict [("id", PInt 9); ("message", PStr "first")];
                               PDict [("id", PInt 9); ("message", PStr "second")]])]
                      store_with_news))
              []
              [Ok [Lit (PInt 9); SqlNull; SqlNull; SqlNull; Lit (PStr "second")]]
              [Lit (PInt 9); SqlNull; SqlNull; SqlNull; Lit (PStr "first")]
              9)
    as (new & Hnew & Hcell).
  - vm_compute. reflexivity.
  - reflexivity.
  - reflexivity.
  - intros H. inversion H.
  - reflexivity.
  - vm_compute in Hnew. injection Hnew as <-. exact Hcell.
Defined.
